(** * Coordination core of the bug-finder / coding-agent pair

    A shallow embedding of

    - [utils/shared_controller.py]  (the Coordinator, [SharedController]),
    - [tools/bug_finder_agent.py]   (the Detector loop, [BugFinderAgent]),
    - [utils/agent_orchestrator.py] (the Supervisor, [AgentOrchestrator]),

    together with the properties that the design document states about them,
    and of [simple_function.py] and [tools/web_search_tool.py], with further
    properties of all five.

    Conventions.  Python objects live in an object store and are passed
    around by reference; an [asyncio.Event] is its flag together with the
    number of coroutines suspended in [wait()]; a coroutine that reaches an
    [await] on which it really suspends is split at that point into the part
    before and the continuation that the event loop runs later.  Text is
    held as the bytes of its UTF-8 encoding.  The interpreter is CPython
    3.11 or later. *)

From Stdlib Require Import String Ascii Bool Arith ZArith Lia List DecimalString.
Import ListNotations.

Local Open Scope list_scope.

(* ================================================================== *)
(** * Findings ([BugInsight]) and the object store                     *)
(* ================================================================== *)

(** A reading of [datetime.now()]. *)
Definition datetime := nat.

(** [@dataclass class BugInsight].  The [timestamp] field is declared with
    default [None]; [__post_init__] fills it in. *)
Record BugInsight := mkBugInsight {
  bug_type      : string;
  description   : string;
  severity      : string;
  file_path     : option string;
  line_number   : option Z;
  suggested_fix : option string;
  timestamp     : option datetime
}.

(** [BugInsight.__post_init__], run by the generated [__init__] with the
    clock reading [now]. *)
Definition __post_init__ (now : datetime) (self : BugInsight) : BugInsight :=
  match timestamp self with
  | None =>
      mkBugInsight (bug_type self) (description self) (severity self)
        (file_path self) (line_number self) (suggested_fix self) (Some now)
  | Some _ => self
  end.

(** The constructor call [BugInsight(bug_type=..., ..., timestamp=...)]. *)
Definition BugInsight_init (now : datetime)
    (bug_type description severity : string)
    (file_path : option string) (line_number : option Z)
    (suggested_fix : option string) (timestamp : option datetime) : BugInsight :=
  __post_init__ now
    (mkBugInsight bug_type description severity file_path line_number
       suggested_fix timestamp).

(** Objects are held by reference.  The store maps a reference (the
    allocation index) to the current field values of the object. *)
Definition ref := nat.
Definition store := list BugInsight.

Definition deref (objs : store) (r : ref) : option BugInsight := nth_error objs r.

(** Allocation of a freshly constructed object. *)
Definition alloc (objs : store) (v : BugInsight) : store * ref :=
  (objs ++ [v], List.length objs).

(* ================================================================== *)
(** * [asyncio.Event]                                                  *)
(* ================================================================== *)

(** The flag and the number of pending [wait()] futures. *)
Record Event := mkEvent {
  is_set  : bool;
  waiters : nat
}.

Definition Event_new : Event := mkEvent false 0.

(** [Event.set()]: raising the flag resolves every pending future; the
    second component is the number of coroutines made runnable.  Setting a
    flag that is already up does nothing. *)
Definition Event_set (e : Event) : Event * nat :=
  if is_set e then (e, 0) else (mkEvent true 0, waiters e).

(** [Event.clear()]. *)
Definition Event_clear (e : Event) : Event := mkEvent false (waiters e).

(** [Event.wait()]: returns at once ([None] for "no suspension") when the
    flag is up, and otherwise registers a future and suspends. *)
Definition Event_wait (e : Event) : option Event :=
  if is_set e then None else Some (mkEvent false (S (waiters e))).

(* ================================================================== *)
(** * The Coordinator ([SharedController])                             *)
(* ================================================================== *)

(** One entry of [agent_context]: the dict
    [{"type": "bug_insight", "insight": insight, "timestamp": insight.timestamp}]. *)
Record context_entry := mkEntry {
  entry_type      : string;
  entry_insight   : ref;
  entry_timestamp : option datetime
}.

Record SharedController := mkController {
  pause_event      : Event;
  resume_event     : Event;
  shutdown_event   : Event;
  insights_queue   : list ref;           (* asyncio.Queue(), unbounded, FIFO *)
  agent_context    : list context_entry;
  is_paused        : bool;
  pause_reason     : option string;
  agent_turn_count : nat
}.

(** The part of the process that the three components share: the objects,
    the one [SharedController], and the number of [checkpoint] calls whose
    [resume_event.wait()] has completed and that the event loop has still to
    resume. *)
Record World := mkWorld {
  objects    : store;
  controller : SharedController;
  resumable  : nat
}.

Definition with_controller (c : SharedController) (w : World) : World :=
  mkWorld (objects w) c (resumable w).

(** [SharedController.__init__]. *)
Definition SharedController_init : SharedController :=
  let pause_event := Event_new in
  let resume_event := Event_new in
  let shutdown_event := Event_new in
  (* self.resume_event.set() *)
  let resume_event := fst (Event_set resume_event) in
  mkController pause_event resume_event shutdown_event [] [] false None 0.

(** A process that has just built its controller. *)
Definition fresh (objs : store) : World := mkWorld objs SharedController_init 0.

(** [request_pause(reason)]. *)
Definition request_pause (reason : string) (w : World) : World :=
  let c := controller w in
  if negb (is_paused c) then
    let pe := fst (Event_set (pause_event c)) in
    let re := Event_clear (resume_event c) in
    with_controller
      (mkController pe re (shutdown_event c) (insights_queue c)
         (agent_context c) true (Some reason) (agent_turn_count c)) w
  else w.

(** [inject_insight(insight)]: [put_nowait] on the unbounded queue, then the
    mirrored context entry, whose timestamp is read from the object. *)
Definition inject_insight (insight : ref) (w : World) : World :=
  let c := controller w in
  let queue := insights_queue c ++ [insight] in
  let context_entry :=
    mkEntry "bug_insight" insight
      (match deref (objects w) insight with
       | Some o => timestamp o
       | None => None          (* not a live reference: no such call exists *)
       end) in
  with_controller
    (mkController (pause_event c) (resume_event c) (shutdown_event c) queue
       (agent_context c ++ [context_entry]) (is_paused c) (pause_reason c)
       (agent_turn_count c)) w.

(** [request_resume()]. *)
Definition request_resume (w : World) : World :=
  let c := controller w in
  if is_paused c then
    let pe := Event_clear (pause_event c) in
    let '(re, woken) := Event_set (resume_event c) in
    mkWorld (objects w)
      (mkController pe re (shutdown_event c) (insights_queue c)
         (agent_context c) false None (agent_turn_count c))
      (resumable w + woken)
  else w.

(** [shutdown()]. *)
Definition shutdown (w : World) : World :=
  let c := controller w in
  let se := fst (Event_set (shutdown_event c)) in
  let '(re, woken) := Event_set (resume_event c) in
  mkWorld (objects w)
    (mkController (pause_event c) re se (insights_queue c) (agent_context c)
       (is_paused c) (pause_reason c) (agent_turn_count c))
    (resumable w + woken).

(** What a call of [checkpoint] does with its caller. *)
Inductive checkpoint_result :=
  | Returns (keep_running : bool)
  | Suspends.

(** [checkpoint()], up to its [return] or to the point where it suspends in
    [await self.resume_event.wait()]. *)
Definition checkpoint (w : World) : World * checkpoint_result :=
  let c := controller w in
  let turn := S (agent_turn_count c) in
  let c1 :=
    mkController (pause_event c) (resume_event c) (shutdown_event c)
      (insights_queue c) (agent_context c) (is_paused c) (pause_reason c) turn in
  if is_set (pause_event c1) then
    match Event_wait (resume_event c1) with
    | None =>
        (with_controller c1 w, Returns (negb (is_set (shutdown_event c1))))
    | Some re =>
        (with_controller
           (mkController (pause_event c1) re (shutdown_event c1)
              (insights_queue c1) (agent_context c1) (is_paused c1)
              (pause_reason c1) turn) w,
         Suspends)
    end
  else (with_controller c1 w, Returns (negb (is_set (shutdown_event c1)))).

(** The rest of [checkpoint()] once the event loop resumes a caller whose
    wait has completed: [return not self.shutdown_event.is_set()], read at
    that moment.  Nothing happens when no caller is runnable. *)
Definition checkpoint_resumed (w : World) : World * option bool :=
  match resumable w with
  | O => (w, None)
  | S n =>
      (mkWorld (objects w) (controller w) n,
       Some (negb (is_set (shutdown_event (controller w)))))
  end.

(** The [while not self.insights_queue.empty()] loop of [get_insights]:
    [queue] is what is left in the queue, [insights] the local list. *)
Fixpoint get_insights_loop (queue insights : list ref) : list ref * list ref :=
  match queue with
  | [] => (queue, insights)
  | insight :: rest => get_insights_loop rest (insights ++ [insight])
  end.

(** [get_insights()]. *)
Definition get_insights (w : World) : World * list ref :=
  let c := controller w in
  let '(queue, insights) := get_insights_loop (insights_queue c) [] in
  (with_controller
     (mkController (pause_event c) (resume_event c) (shutdown_event c) queue
        (agent_context c) (is_paused c) (pause_reason c) (agent_turn_count c)) w,
   insights).

(* ================================================================== *)
(** * Python string operations used by the sources                     *)
(* ================================================================== *)

(** A string holds the bytes of the UTF-8 encoding of Python's text.
    Cutting at an ASCII separator and searching for an ASCII text are
    Python's on every text.  The operations that depend on what a character
    is ([lower], [upper], [strip], [int]) are Python's on ASCII text
    ([is_ascii]) and leave every other byte alone; what is proved of them is
    stated for ASCII text. *)
Module Str.

(** [s.isascii()]. *)
Fixpoint is_ascii (s : string) : bool :=
  match s with
  | EmptyString => true
  | String c s' => (nat_of_ascii c <? 128) && is_ascii s'
  end.

Definition is_upper (c : ascii) : bool :=
  let n := nat_of_ascii c in (65 <=? n) && (n <=? 90).

Definition is_lower (c : ascii) : bool :=
  let n := nat_of_ascii c in (97 <=? n) && (n <=? 122).

Definition lower_char (c : ascii) : ascii :=
  if is_upper c then ascii_of_nat (nat_of_ascii c + 32) else c.

Definition upper_char (c : ascii) : ascii :=
  if is_lower c then ascii_of_nat (nat_of_ascii c - 32) else c.

(** [str.lower()] and [str.upper()]. *)
Fixpoint lower (s : string) : string :=
  match s with
  | EmptyString => EmptyString
  | String c s' => String (lower_char c) (lower s')
  end.

Fixpoint upper (s : string) : string :=
  match s with
  | EmptyString => EmptyString
  | String c s' => String (upper_char c) (upper s')
  end.

(** [str.isspace()] on one character: tab, newline, vertical tab, form
    feed, carriage return, the four separators 0x1c-0x1f, and space. *)
Definition is_space (c : ascii) : bool :=
  let n := nat_of_ascii c in
  ((9 <=? n) && (n <=? 13)) || ((28 <=? n) && (n <=? 32)).

(** [str.lstrip()], [str.rstrip()], [str.strip()]. *)
Fixpoint lstrip (s : string) : string :=
  match s with
  | EmptyString => EmptyString
  | String c s' => if is_space c then lstrip s' else s
  end.

Fixpoint rstrip (s : string) : string :=
  match s with
  | EmptyString => EmptyString
  | String c s' =>
      match rstrip s' with
      | EmptyString => if is_space c then EmptyString else String c EmptyString
      | t => String c t
      end
  end.

Definition strip (s : string) : string := rstrip (lstrip s).

(** [s.split(sep, maxsplit)] for a one-character separator: at most
    [maxsplit] cuts, from the left; the result is never empty. *)
Fixpoint split_max (sep : ascii) (maxsplit : nat) (s : string) : list string :=
  match s with
  | EmptyString => [EmptyString]
  | String c s' =>
      match maxsplit with
      | O => [s]
      | S m =>
          if Ascii.eqb c sep then EmptyString :: split_max sep m s'
          else
            match split_max sep maxsplit s' with
            | [] => [String c EmptyString]
            | p :: ps => String c p :: ps
            end
      end
  end.

(** [s.split(sep)]: no bound on the number of cuts. *)
Definition split (sep : ascii) (s : string) : list string :=
  split_max sep (String.length s) s.

(** [needle in hay]. *)
Fixpoint contains (needle hay : string) : bool :=
  String.prefix needle hay ||
  match hay with
  | EmptyString => false
  | String _ hay' => contains needle hay'
  end.

Definition is_digit (c : ascii) : bool :=
  let n := nat_of_ascii c in (48 <=? n) && (n <=? 57).

Definition digit_value (c : ascii) : Z := Z.of_nat (nat_of_ascii c - 48).

(** The digit part of an integer literal: decimal digits, where single
    underscores may stand between two digits.  [acc] is the value read so
    far and [after_digit] tells whether the previous character was a digit. *)
Fixpoint int_digits (s : string) (acc : Z) (after_digit : bool) : option Z :=
  match s with
  | EmptyString => if after_digit then Some acc else None
  | String c s' =>
      if is_digit c then int_digits s' (10 * acc + digit_value c)%Z true
      else if Ascii.eqb c "_"%char && after_digit then
        match s' with
        | String d _ => if is_digit d then int_digits s' acc false else None
        | EmptyString => None
        end
      else None
  end.

(** The blanks that [int()] skips around the digits of an ASCII text: tab,
    newline, vertical tab, form feed, carriage return and space (the four
    separators 0x1c-0x1f, which [strip()] drops, are not among them). *)
Definition is_int_space (c : ascii) : bool :=
  let n := nat_of_ascii c in ((9 <=? n) && (n <=? 13)) || (n =? 32).

Fixpoint int_lstrip (s : string) : string :=
  match s with
  | EmptyString => EmptyString
  | String c s' => if is_int_space c then int_lstrip s' else s
  end.

Fixpoint int_rstrip (s : string) : string :=
  match s with
  | EmptyString => EmptyString
  | String c s' =>
      match int_rstrip s' with
      | EmptyString => if is_int_space c then EmptyString else String c EmptyString
      | t => String c t
      end
  end.

(** [sys.get_int_max_str_digits()], as the interpreter starts. *)
Definition int_max_str_digits : nat := 4300.

Fixpoint digit_count (s : string) : nat :=
  match s with
  | EmptyString => 0
  | String c s' => (if is_digit c then 1 else 0) + digit_count s'
  end.

(** [int(s)] for an ASCII string: surrounding blanks are dropped, one sign
    is allowed, and more than [int_max_str_digits] digits are refused;
    [None] stands for [ValueError]. *)
Definition int (s : string) : option Z :=
  let literal := int_rstrip (int_lstrip s) in
  if int_max_str_digits <? digit_count literal then None
  else
    match literal with
    | String "-"%char ds => option_map Z.opp (int_digits ds 0%Z false)
    | String "+"%char ds => int_digits ds 0%Z false
    | ds => int_digits ds 0%Z false
    end.

(** Truthiness of an [Optional[str]]: [None] and the empty string are false. *)
Definition truthy (o : option string) : bool :=
  match o with
  | Some (String _ _) => true
  | _ => false
  end.

End Str.

Definition nl : string := String "010"%char EmptyString.

(** [lst[-n:]]. *)
Definition last_n {A : Type} (n : nat) (l : list A) : list A :=
  skipn (List.length l - n) l.

(** One round of the [for entry in self.agent_context[-5:]] loop of
    [get_context_summary]; [summary] is the text built so far. *)
Definition summary_entry (objs : store) (summary : string) (entry : context_entry)
  : string :=
  if String.eqb (entry_type entry) "bug_insight" then
    match deref objs (entry_insight entry) with
    | Some insight =>
        let summary :=
          (summary ++ "- " ++ Str.upper (severity insight) ++ ": "
             ++ bug_type insight ++ " - " ++ description insight ++ nl)%string in
        match suggested_fix insight with
        | Some remedy =>
            if Str.truthy (Some remedy)
            then (summary ++ "  Suggested fix: " ++ remedy ++ nl)%string
            else summary
        | None => summary
        end
    | None => summary
    end
  else summary.

(** [get_context_summary()]. *)
Definition get_context_summary (w : World) : World * string :=
  match agent_context (controller w) with
  | [] => (w, "No additional context."%string)
  | ctx =>
      (w, fold_left (summary_entry (objects w)) (last_n 5 ctx)
            ("Additional context from bug-finder:" ++ nl)%string)
  end.

(** ** Sequences of Coordinator operations *)

(** The operations of the Coordinator as the two workers issue them, and the
    event loop's resumption of a [checkpoint] whose wait has completed. *)
Inductive call :=
  | RequestPause (reason : string)
  | InjectInsight (insight : ref)
  | RequestResume
  | Checkpoint
  | CheckpointResumed
  | GetInsights
  | GetContextSummary
  | Shutdown.

(** What the caller gets back. *)
Inductive reply :=
  | RNone
  | RCheckpoint (r : checkpoint_result)
  | RIdle
  | RInsights (insights : list ref)
  | RSummary (text : string).

Definition step (c : call) (w : World) : World * reply :=
  match c with
  | RequestPause reason => (request_pause reason w, RNone)
  | InjectInsight insight => (inject_insight insight w, RNone)
  | RequestResume => (request_resume w, RNone)
  | Checkpoint => let '(w', r) := checkpoint w in (w', RCheckpoint r)
  | CheckpointResumed =>
      match checkpoint_resumed w with
      | (w', Some b) => (w', RCheckpoint (Returns b))
      | (w', None) => (w', RIdle)
      end
  | GetInsights => let '(w', l) := get_insights w in (w', RInsights l)
  | GetContextSummary => let '(w', s) := get_context_summary w in (w', RSummary s)
  | Shutdown => (shutdown w, RNone)
  end.

Fixpoint run (calls : list call) (w : World) : World * list reply :=
  match calls with
  | [] => (w, [])
  | c :: calls' =>
      let '(w1, r) := step c w in
      let '(w2, rs) := run calls' w1 in
      (w2, r :: rs)
  end.

(** The state after a sequence of calls, and what the callers saw. *)
Definition after (calls : list call) (w : World) : World := fst (run calls w).
Definition replies (calls : list call) (w : World) : list reply := snd (run calls w).

(** The readings the design document uses. *)
Definition paused (w : World) : bool := is_paused (controller w).
Definition pause_requested (w : World) : bool := is_set (pause_event (controller w)).
Definition may_proceed (w : World) : bool := is_set (resume_event (controller w)).
Definition shutdown_requested (w : World) : bool := is_set (shutdown_event (controller w)).
(** Number of [checkpoint] callers suspended in [resume_event.wait()]. *)
Definition suspended (w : World) : nat := waiters (resume_event (controller w)).

Definition is_request_pause (c : call) : bool :=
  match c with RequestPause _ => true | _ => false end.
Definition is_checkpoint (c : call) : bool :=
  match c with Checkpoint => true | _ => false end.
Definition is_get_insights (c : call) : bool :=
  match c with GetInsights => true | _ => false end.
(** The two calls that raise may-proceed. *)
Definition is_release (c : call) : bool :=
  match c with RequestResume | Shutdown => true | _ => false end.

(** The findings handed to [inject_insight] in a sequence of calls. *)
Fixpoint injected (calls : list call) : list ref :=
  match calls with
  | [] => []
  | InjectInsight r :: calls' => r :: injected calls'
  | _ :: calls' => injected calls'
  end.

(* ================================================================== *)
(** * The Detector loop ([BugFinderAgent])                             *)
(* ================================================================== *)

(** ** Severity policy: the [for insight in all_insights] loop of
    [_check_for_bugs] *)

(** What the loop does, in order: calls into the Coordinator (none of which
    suspends) and [asyncio.sleep], where the other tasks get to run. *)
Inductive action :=
  | Coordinator (c : call)
  | Sleep (seconds : nat).

(** The body of the loop for the object [o] that [insight] refers to. *)
Definition process_insight (insight : ref) (o : BugInsight) : list action :=
  if existsb (String.eqb (severity o)) ["high"; "critical"]%string then
    [ Coordinator (RequestPause ("Critical bug detected: " ++ bug_type o)%string);
      Coordinator (InjectInsight insight);
      Sleep 1;
      Coordinator RequestResume ]
  else if String.eqb (severity o) "medium" then
    [ Coordinator (InjectInsight insight) ]
  else [].

(** The whole loop.  Every element of [all_insights] is an object that the
    detectors have just built, so the lookup succeeds. *)
Definition process_insights (objs : store) (all_insights : list ref) : list action :=
  flat_map
    (fun insight =>
       match deref objs insight with
       | Some o => process_insight insight o
       | None => []
       end)
    all_insights.

(** The Coordinator calls among some actions. *)
Fixpoint coordinator_calls (l : list action) : list call :=
  match l with
  | [] => []
  | Coordinator c :: l' => c :: coordinator_calls l'
  | Sleep _ :: l' => coordinator_calls l'
  end.

(** ** Detectors *)

(** [subprocess.CompletedProcess], as [_run_command] builds it. *)
Record CompletedProcess := mkCompleted {
  returncode : Z;
  stdout     : string;
  stderr     : string
}.

(** A call that returns a value or raises; the only exception these
    detectors raise themselves is the [ValueError] of [int()]. *)
Inductive raising (A : Type) :=
  | Value (a : A)
  | ValueError.
Arguments Value {A} a.
Arguments ValueError {A}.

(** The nodes of a syntax tree, as far as the import scan looks at them. *)
Inductive ast_node :=
  | Import (names : list string) (lineno : Z)
  | ImportFrom (module : option string) (level : option nat) (lineno : Z)
  | OtherNode.

(** What reading a file and [ast.parse] of its text give: the tree, as its
    nodes in [ast.walk] order, or [SyntaxError], or any other failure. *)
Inductive parse_result :=
  | Parsed (walk : list ast_node)
  | SyntaxError
  | OtherParseError.

(** What [__import__(module_name)] does.  The module is not found
    ([ModuleNotFoundError], an [ImportError]); or it is found and loaded, and
    its code raises: an [ImportError] of its own, when it imports something
    that is missing, or another [Exception]; or the import succeeds.  [e] is
    [str(e)].  An exception outside [Exception] ([SystemExit],
    [KeyboardInterrupt]) ends the process and is not part of this. *)
Inductive import_result :=
  | Imported
  | NotFound (e : string)
  | LoadingRaises (e : string) (is_ImportError : bool).

Section Detectors.

(** The clock reading that [BugInsight.__post_init__] gets. *)
Variable now : datetime.
(** [self.workspace_path.rglob(pattern)], as path strings. *)
Variable rglob : string -> list string.
(** [_run_command]: it turns every failure into a [CompletedProcess] with
    return code 1. *)
Variable _run_command : list string -> CompletedProcess.
(** [ast.parse(py_file.read_text(...))] followed by [ast.walk]. *)
Variable parse : string -> parse_result.
(** [sys.stdlib_module_names], when the interpreter has it. *)
Variable stdlib_module_names : option (string -> bool).
Variable __import__ : string -> import_result.

(** [self.linters], in insertion order. *)
Definition linters : list (string * list string) :=
  [ ("python", ["python"; "-m"; "flake8"; "--max-line-length=100"]);
    ("javascript", ["npx"; "eslint"; "--format=json"]);
    ("typescript", ["npx"; "tsc"; "--noEmit"]) ]%string.

(** [_find_files_by_type]. *)
Definition _find_files_by_type (file_type : string) : list string :=
  if String.eqb file_type "python" then rglob "*.py"
  else if String.eqb file_type "javascript" then rglob "*.js"
  else if String.eqb file_type "typescript" then rglob "*.ts"
  else [].

(** The severity that [_parse_linter_output] derives from a message. *)
Definition linter_severity (message : string) : string :=
  if Str.contains "error" (Str.lower message) then "high"
  else if Str.contains "warning" (Str.lower message) then "medium"
  else "low".

(** One round of the [for line in ...] loop of [_parse_linter_output]. *)
Definition parse_linter_line (insights : list BugInsight) (line : string)
  : raising (list BugInsight) :=
  match line with
  | EmptyString => Value insights
  | _ =>
      let parts := Str.split_max ":"%char 3 line in
      if 4 <=? List.length parts then
        let file_path := nth 0 parts EmptyString in
        match Str.int (nth 1 parts EmptyString) with
        | None => ValueError
        | Some line_num =>
            match Str.int (nth 2 parts EmptyString) with
            | None => ValueError
            | Some col_num =>
                let message := Str.strip (nth 3 parts EmptyString) in
                let severity := linter_severity message in
                Value
                  (insights ++
                   [BugInsight_init now "linting_error" message severity
                      (Some file_path) (Some line_num)
                      (Some ("Fix linting issue: " ++ message)%string) None])
            end
        end
      else Value insights
  end.

Fixpoint parse_linter_lines (insights : list BugInsight) (lines : list string)
  : raising (list BugInsight) :=
  match lines with
  | [] => Value insights
  | line :: lines' =>
      match parse_linter_line insights line with
      | Value insights' => parse_linter_lines insights' lines'
      | ValueError => ValueError
      end
  end.

(** [_parse_linter_output]. *)
Definition _parse_linter_output (stdout stderr linter_type : string)
  : raising (list BugInsight) :=
  if String.eqb linter_type "python" && negb (String.eqb stdout "") then
    parse_linter_lines [] (Str.split "010"%char (Str.strip stdout))
  else Value [].

(** One round of the loop of [_run_linters], with its
    [except Exception] around the body. *)
Definition run_linter (insights : list BugInsight)
    (linter : string * list string) : list BugInsight :=
  let '(file_type, linter_cmd) := linter in
  match _find_files_by_type file_type with
  | [] => insights
  | files =>
      let result := _run_command (linter_cmd ++ files) in
      if negb (returncode result =? 0)%Z then
        match _parse_linter_output (stdout result) (stderr result) file_type with
        | Value found => insights ++ found
        | ValueError => insights      (* logged; nothing was added *)
        end
      else insights
  end.

(** [_run_linters]. *)
Definition _run_linters : list BugInsight := fold_left run_linter linters [].

(** [top_level] of [_check_missing_imports]: [mod.split(".")[0]]. *)
Definition top_level (mod_ : string) : string :=
  nth 0 (Str.split "."%char mod_) EmptyString.

(** One round of the [for node in ast.walk(tree)] loop. *)
Definition collect_import (imported_modules : list (string * Z)) (node : ast_node)
  : list (string * Z) :=
  match node with
  | Import names lineno =>
      fold_left (fun acc name => acc ++ [(name, lineno)]) names imported_modules
  | ImportFrom module level lineno =>
      match level with
      | Some (S _) => imported_modules            (* relative import *)
      | _ =>
          match module with
          | Some (String _ _ as m) => imported_modules ++ [(m, lineno)]
          | _ => imported_modules
          end
      end
  | OtherNode => imported_modules
  end.

(** One round of the [for module_name, lineno in imported_modules] loop. *)
Definition check_import (py_file : string) (insights : list BugInsight)
    (imported : string * Z) : list BugInsight :=
  let '(module_name, lineno) := imported in
  if match stdlib_module_names with
     | Some names => names module_name
     | None => false
     end
  then insights
  else
    match __import__ module_name with
    | Imported => insights
    | NotFound e | LoadingRaises e true =>              (* except ImportError *)
        let top_level_module := top_level module_name in
        insights ++
        [BugInsight_init now "missing_import"
           ("Missing package: " ++ module_name ++ " - " ++ e)%string
           "high" (Some py_file) (Some lineno)
           (Some ("Install missing package: pip install " ++ top_level_module)%string)
           None]
    | LoadingRaises e false =>                          (* except Exception *)
        insights ++
        [BugInsight_init now "import_error"
           ("Import error for " ++ module_name ++ ": " ++ e)%string
           "medium" (Some py_file) (Some lineno)
           (Some ("Check if " ++ module_name
                    ++ " is properly installed and accessible")%string)
           None]
    end.

(** One round of the [for py_file in ...rglob("*.py")] loop. *)
Definition check_file_imports (insights : list BugInsight) (py_file : string)
  : list BugInsight :=
  match parse py_file with
  | Parsed walk =>
      let imported_modules := fold_left collect_import walk [] in
      fold_left (check_import py_file) imported_modules insights
  | SyntaxError => insights
  | OtherParseError => insights
  end.

(** [_check_missing_imports]. *)
Definition _check_missing_imports : list BugInsight :=
  fold_left check_file_imports (rglob "*.py") [].

End Detectors.

(* ================================================================== *)
(** * The Supervisor ([AgentOrchestrator])                             *)
(* ================================================================== *)

Module AgentOrchestrator.

(** Exceptions, as far as the handlers of the sources tell them apart:
    [asyncio.CancelledError] derives from [BaseException] only, every other
    one here is an [Exception] with its text. *)
Inductive exn :=
  | CancelledError
  | Exception (text : string).

Definition isinstance_Exception (e : exn) : bool :=
  match e with Exception _ => true | CancelledError => false end.

Definition isinstance_CancelledError (e : exn) : bool :=
  match e with CancelledError => true | Exception _ => false end.

(** How a coroutine ended. *)
Inductive outcome :=
  | Returned
  | Raised (e : exn).

(** An [asyncio.Task]: not done, with the [await] its coroutine is
    suspended at; not done, with a cancellation requested that the event
    loop has still to throw into the coroutine; or done. *)
Inductive task (P : Type) :=
  | Pending (at_ : P)
  | Done (r : outcome)
  | CancelRequested (at_ : P).
Arguments Pending {P} at_.
Arguments Done {P} r.
Arguments CancelRequested {P} at_.

(** [Task.done()]. *)
Definition done {P : Type} (t : task P) : bool :=
  match t with Done _ => true | Pending _ | CancelRequested _ => false end.

(** [Task.cancel()]: a request, which leaves the task not done.  The
    coroutine gets the [CancelledError] when the event loop runs it next,
    which is when the caller next suspends in an [await]. *)
Definition cancel {P : Type} (t : task P) : task P :=
  match t with
  | Pending p => CancelRequested p
  | Done _ | CancelRequested _ => t
  end.

(** The [await]s at which [BugFinderAgent.run_loop] can be suspended. *)
Inductive detector_point :=
  | NotStarted      (* the task was created, the coroutine has not run yet *)
  | InCommand       (* in [_run_command], called from [_run_linters] or
                       [_run_tests] inside [_check_for_bugs] *)
  | InPolicySleep   (* [asyncio.sleep(1)] in [_check_for_bugs] *)
  | InLoopSleep.    (* [asyncio.sleep(self.check_interval)] in [run_loop] *)

(** The one [await] of [_run_coding_agent] that suspends. *)
Inductive coding_point :=
  | InExecutor.

(** The [except] clauses around an [await], innermost first, each with the
    function it belongs to. *)
Inductive except_clause :=
  | ExceptException (where_ : string).

Definition catches (h : except_clause) (e : exn) : bool :=
  match h with ExceptException _ => isinstance_Exception e end.

Definition detector_handlers (p : detector_point) : list except_clause :=
  match p with
  | NotStarted => []
  | InCommand =>
      [ ExceptException "_run_command"; ExceptException "_run_linters/_run_tests";
        ExceptException "_check_for_bugs"; ExceptException "run_loop" ]
  | InPolicySleep =>
      [ ExceptException "_check_for_bugs"; ExceptException "run_loop" ]
  | InLoopSleep => [ ExceptException "run_loop" ]
  end.

(** The event loop throws [CancelledError] into the Detector's coroutine
    at its [await]: when no enclosing clause catches it, the task is done,
    cancelled; when one does, the coroutine goes on from where it is. *)
Definition throw_into_detector (p : detector_point) : task detector_point :=
  if existsb (fun h => catches h CancelledError) (detector_handlers p)
  then Pending p
  else Done (Raised CancelledError).

(** The same for [_run_coding_agent], which has one clause,
    [except Exception: ...; raise]. *)
Definition throw_into_coding (p : coding_point) : task coding_point :=
  if catches (ExceptException "_run_coding_agent") CancelledError
  then Pending p
  else Done (Raised CancelledError).

Record state := mkState {
  shared          : World;        (* [self.controller] and the objects *)
  coding_task     : option (task coding_point);
  bug_finder_task : option (task detector_point);
  is_running      : bool
}.

(** A coroutine of the Supervisor returns, raises, or never gets past an
    [await]. *)
Inductive result (A : Type) :=
  | Ok (a : A)
  | Raise (e : exn)
  | Hang.
Arguments Ok {A} a.
Arguments Raise {A} e.
Arguments Hang {A}.

Definition M (A : Type) : Type := state -> result A * state.

Definition ret {A} (a : A) : M A := fun s => (Ok a, s).

Definition bind {A B} (m : M A) (k : A -> M B) : M B :=
  fun s =>
    match m s with
    | (Ok a, s') => k a s'
    | (Raise e, s') => (Raise e, s')
    | (Hang, s') => (Hang, s')
    end.

Definition raise {A} (e : exn) : M A := fun s => (Raise e, s).

Notation "x <- m ;; k" := (bind m (fun x => k))
  (at level 61, m at next level, right associativity).
Notation "m ;; k" := (bind m (fun _ => k))
  (at level 61, right associativity).

(** [try: body / except <clause> as e: handler e]. *)
Definition try_except {A} (body : M A) (clause : exn -> bool) (handler : exn -> M A)
  : M A :=
  fun s =>
    match body s with
    | (Raise e, s') => if clause e then handler e s' else (Raise e, s')
    | r => r
    end.

(** [try: body / finally: final]: [final] runs however [body] ends, and an
    exception of [final] replaces the pending one. *)
Definition try_finally {A} (body : M A) (final : M unit) : M A :=
  fun s =>
    match body s with
    | (Hang, s') => (Hang, s')
    | (r, s') =>
        match final s' with
        | (Ok _, s'') => (r, s'')
        | (Raise e, s'') => (Raise e, s'')
        | (Hang, s'') => (Hang, s'')
        end
    end.

Definition get : M state := fun s => (Ok s, s).
Definition put (s : state) : M unit := fun _ => (Ok tt, s).

Definition set_is_running (b : bool) : M unit :=
  fun s => (Ok tt, mkState (shared s) (coding_task s) (bug_finder_task s) b).
Definition set_coding_task (t : option (task coding_point)) : M unit :=
  fun s => (Ok tt, mkState (shared s) t (bug_finder_task s) (is_running s)).
Definition set_bug_finder_task (t : option (task detector_point)) : M unit :=
  fun s => (Ok tt, mkState (shared s) (coding_task s) t (is_running s)).
Definition on_shared {A} (f : World -> World * A) : M A :=
  fun s =>
    let '(w, a) := f (shared s) in
    (Ok a, mkState w (coding_task s) (bug_finder_task s) (is_running s)).

(** [await self.controller.shutdown()]. *)
Definition controller_shutdown : M unit :=
  on_shared (fun w => (shutdown w, tt)).

(** [str(n)] for an [int]. *)
Definition str_int (n : Z) : string :=
  DecimalString.NilZero.string_of_int (Z.to_int n).

(** One round of the [for insight in insights] loop of
    [_enhance_problem_statement]. *)
Definition enhance_entry (objs : store) (enhanced : string) (insight : ref) : string :=
  match deref objs insight with
  | None => enhanced
  | Some o =>
      let enhanced :=
        (enhanced ++ "🔍 " ++ Str.upper (bug_type o) ++ ": " ++ description o ++ nl)%string in
      let enhanced :=
        match file_path o with
        | Some (String _ _ as path) =>
            let enhanced := (enhanced ++ "   📁 File: " ++ path)%string in
            let enhanced :=
              match line_number o with
              | Some n =>
                  if (n =? 0)%Z then enhanced
                  else (enhanced ++ ":" ++ str_int n)%string
              | None => enhanced
              end in
            (enhanced ++ nl)%string
        | _ => enhanced
        end in
      let enhanced :=
        match suggested_fix o with
        | Some (String _ _ as remedy) =>
            (enhanced ++ "   💡 Suggested fix: " ++ remedy ++ nl)%string
        | _ => enhanced
        end in
      (enhanced ++ "   ⚠️  Severity: " ++ severity o ++ nl ++ nl)%string
  end.

(** [_enhance_problem_statement]. *)
Definition _enhance_problem_statement (objs : store) (original : string)
    (insights : list ref) : string :=
  match insights with
  | [] => original
  | _ =>
      let enhanced := (original ++ nl ++ nl)%string in
      let enhanced := (enhanced ++ "=== BUG-FINDER INSIGHTS ===" ++ nl)%string in
      let enhanced :=
        (enhanced ++ "The bug-finder agent has detected the following issues:"
           ++ nl ++ nl)%string in
      let enhanced := fold_left (enhance_entry objs) insights enhanced in
      let enhanced :=
        (enhanced ++ "Please address these issues in your implementation." ++ nl)%string in
      (enhanced ++ "==========================================" ++ nl)%string
  end.

(** [get_status()]. *)
Record status := mkStatus {
  status_is_running    : bool;
  coding_agent_running : bool;
  bug_finder_running   : bool;
  status_is_paused     : bool;
  status_pause_reason  : option string;
  turn_count           : nat;
  insights_count       : nat
}.

Definition get_status (s : state) : status :=
  mkStatus (is_running s)
    (match coding_task s with Some t => negb (done t) | None => false end)
    (match bug_finder_task s with Some t => negb (done t) | None => false end)
    (is_paused (controller (shared s)))
    (pause_reason (controller (shared s)))
    (agent_turn_count (controller (shared s)))
    (List.length (insights_queue (controller (shared s)))).

Section Run.

(** What [self.coding_agent.run_agent(statement, True, None)] does in the
    executor: it returns or raises. *)
Variable run_agent : string -> outcome.
(** What the two workers have made of the shared state by the time the
    coding task is done, and where the Detector task is then. *)
Variable meanwhile : World -> World.
Variable detector_then : task detector_point.
(** Whether the Detector's pass in progress comes to its end once
    shutdown is requested (a hung external tool keeps it from that). *)
Variable detector_winds_down : bool.

(** The first part of [_run_coding_agent], which runs as soon as the task
    is scheduled: the pending insights are folded into the statement. *)
Definition enhanced_statement (problem_statement : string) : M string :=
  insights <- on_shared get_insights ;;
  s <- get ;;
  ret (_enhance_problem_statement (objects (shared s)) problem_statement insights).

(** [await self.coding_task] in [run]: the coding task runs to its end
    while the Detector task runs beside it; the task's exception, if any,
    is raised at the [await]. *)
Definition await_coding_task (problem_statement : string) : M unit :=
  statement <- enhanced_statement problem_statement ;;
  on_shared (fun w => (meanwhile w, tt)) ;;
  set_bug_finder_task (Some detector_then) ;;
  let r := run_agent statement in
  set_coding_task (Some (Done r)) ;;
  match r with
  | Returned => ret tt
  | Raised e => raise e
  end.

(** [await task] for a task that is done. *)
Definition await_done (r : outcome) : M unit :=
  match r with
  | Returned => ret tt
  | Raised e => raise e
  end.

(** [await self.bug_finder_task].  A task that is done gives its outcome.
    A task with a cancellation requested is run by the event loop, which
    throws the [CancelledError] into it.  A task that goes on running ends
    at the next test of [shutdown_event] by its loop, if the pass in
    progress comes to its end. *)
Definition await_bug_finder_task : M unit :=
  s <- get ;;
  match bug_finder_task s with
  | Some (Done r) => await_done r
  | Some (CancelRequested p) =>
      set_bug_finder_task (Some (throw_into_detector p)) ;;
      s <- get ;;
      match bug_finder_task s with
      | Some (Done r) => await_done r
      | _ =>
          if detector_winds_down
          then set_bug_finder_task (Some (Done Returned))
          else fun s => (Hang, s)
      end
  | Some (Pending _) =>
      if detector_winds_down
      then set_bug_finder_task (Some (Done Returned))
      else fun s => (Hang, s)
  | None => ret tt
  end.

(** [await self.coding_task] in [shutdown]. *)
Definition await_cancelled_coding_task : M unit :=
  s <- get ;;
  match coding_task s with
  | Some (Done r) => await_done r
  | Some (CancelRequested p) =>
      set_coding_task (Some (throw_into_coding p)) ;;
      s <- get ;;
      match coding_task s with
      | Some (Done r) => await_done r
      | _ => fun s => (Hang, s)
      end
  | _ => fun s => (Hang, s)
  end.

(** [AgentOrchestrator.shutdown()]. *)
Definition shutdown : M unit :=
  controller_shutdown ;;
  s <- get ;;
  match coding_task s with
  | Some t =>
      if negb (done t) then
        (* self.coding_task.cancel() *)
        set_coding_task (Some (cancel t)) ;;
        try_except await_cancelled_coding_task
          isinstance_CancelledError (fun _ => ret tt)
      else ret tt
  | None => ret tt
  end ;;
  s <- get ;;
  match bug_finder_task s with
  | Some t =>
      if negb (done t) then
        (* self.bug_finder_task.cancel() *)
        set_bug_finder_task (Some (cancel t)) ;;
        try_except await_bug_finder_task isinstance_CancelledError (fun _ => ret tt)
      else ret tt
  | None => ret tt
  end ;;
  set_is_running false.

(** [AgentOrchestrator.run(problem_statement)]. *)
Definition run (problem_statement : string) : M unit :=
  set_is_running true ;;
  try_finally
    (try_except
       (set_coding_task (Some (Pending InExecutor)) ;;
        set_bug_finder_task (Some (Pending NotStarted)) ;;
        await_coding_task problem_statement ;;
        controller_shutdown ;;
        s <- get ;;
        match bug_finder_task s with
        | Some _ => await_bug_finder_task
        | None => ret tt
        end)
       isinstance_Exception
       (fun e => shutdown ;; raise e))
    (set_is_running false).

End Run.

(** [AgentOrchestrator.__init__], as far as this state goes. *)
Definition init (objs : store) : state := mkState (fresh objs) None None false.

End AgentOrchestrator.

(* ================================================================== *)
(** * Everything that handles findings                                 *)
(* ================================================================== *)

(** The steps of the three components that create, pass on or read
    [BugInsight] objects. *)
Inductive activity :=
  (* a detector evaluates [BugInsight(...)] when the clock reads [now] *)
  | Construct (now : datetime) (bug_type description severity : string)
      (file_path : option string) (line_number : option Z)
      (suggested_fix : option string) (timestamp : option datetime)
  (* an operation of the Coordinator *)
  | Call (c : call)
  (* the policy loop of [_check_for_bugs] over the findings of one pass *)
  | Policy (all_insights : list ref)
  (* the Supervisor folds the pending findings into a problem statement *)
  | Enhance (problem_statement : string)
  (* [AgentOrchestrator.get_status] *)
  | Status
  (* [AgentOrchestrator.shutdown]; the flag says whether a Detector pass
     that survives cancellation comes to its end *)
  | SupervisorShutdown (detector_winds_down : bool).

Definition perform (a : activity) (s : AgentOrchestrator.state)
  : AgentOrchestrator.state :=
  let w := AgentOrchestrator.shared s in
  let with_shared w' :=
    AgentOrchestrator.mkState w' (AgentOrchestrator.coding_task s)
      (AgentOrchestrator.bug_finder_task s) (AgentOrchestrator.is_running s) in
  match a with
  | Construct now bug_type description severity file_path line_number
      suggested_fix timestamp =>
      let o := BugInsight_init now bug_type description severity file_path
                 line_number suggested_fix timestamp in
      with_shared (mkWorld (fst (alloc (objects w) o)) (controller w) (resumable w))
  | Call c => with_shared (fst (step c w))
  | Policy all_insights =>
      with_shared (after (coordinator_calls (process_insights (objects w) all_insights)) w)
  | Enhance problem_statement =>
      snd (AgentOrchestrator.enhanced_statement problem_statement s)
  | Status => let _ := AgentOrchestrator.get_status s in s
  | SupervisorShutdown winds_down => snd (AgentOrchestrator.shutdown winds_down s)
  end.

Definition perform_all (l : list activity) (s : AgentOrchestrator.state)
  : AgentOrchestrator.state :=
  fold_left (fun s a => perform a s) l s.

(* ================================================================== *)
(** * Sample workspaces                                                *)
(* ================================================================== *)

Module Sample.

(** Three findings of one pass, as the detectors build them. *)
Definition findings : store :=
  [ BugInsight_init 10 "todo_comment" "TODO/FIXME found: # TODO fix me" "low"
      (Some "app.py"%string) (Some 3%Z)
      (Some "Address the TODO/FIXME comment"%string) None;
    BugInsight_init 11 "test_failure" "Tests failed: " "high" None None
      (Some "Review test failures and fix implementation"%string) None;
    BugInsight_init 12 "large_file" "File is large (12000 bytes): app.py" "medium"
      (Some "app.py"%string) None
      (Some "Consider breaking into smaller modules"%string) None ].

(** A workspace with two Python files: [app.py] parses and reads

      import os
      import nonexistent_module_xyz
      from yaml.loader import Loader
      from .sibling import helper

    and [broken.py] has a syntax error. *)
Definition rglob (pattern : string) : list string :=
  if String.eqb pattern "*.py" then ["app.py"; "broken.py"]%string else [].

Definition parse (py_file : string) : parse_result :=
  if String.eqb py_file "app.py" then
    Parsed [ OtherNode;
             Import ["os"%string] 1;
             Import ["nonexistent_module_xyz"%string] 2;
             ImportFrom (Some "yaml.loader"%string) (Some 0) 3;
             ImportFrom (Some "sibling"%string) (Some 1) 4 ]
  else SyntaxError.

Definition stdlib_module_names : option (string -> bool) :=
  Some (fun name => existsb (String.eqb name) ["os"; "sys"; "ast"]%string).

Definition __import__ (module_name : string) : import_result :=
  if String.eqb module_name "nonexistent_module_xyz" then
    NotFound "No module named 'nonexistent_module_xyz'"
  else if String.eqb module_name "yaml.loader" then
    LoadingRaises "invalid syntax (loader.py, line 3)" false
  else Imported.

(** A workspace in which [app.py] reads [import helper], and [helper.py],
    which is there, begins with [import missing_dep], which is not. *)
Definition rglob_helper (pattern : string) : list string :=
  if String.eqb pattern "*.py" then ["app.py"; "helper.py"]%string else [].

Definition parse_helper (py_file : string) : parse_result :=
  if String.eqb py_file "app.py" then Parsed [OtherNode; Import ["helper"%string] 1]
  else Parsed [OtherNode; Import ["missing_dep"%string] 1].

Definition import_helper (module_name : string) : import_result :=
  if String.eqb module_name "helper" then
    LoadingRaises "No module named 'missing_dep'" true
  else NotFound "No module named 'missing_dep'".

(** flake8 reports three lines on [app.py] and a summary. *)
Definition flake8_output : string :=
  ("app.py:1:1: E999 SyntaxError: invalid syntax" ++ nl ++
   "app.py:2:10: W291 trailing whitespace (warning)" ++ nl ++
   "app.py:3:80: E501 line too long (120 > 100 characters)" ++ nl ++
   "3 problems" ++ nl)%string.

Definition _run_command (cmd : list string) : CompletedProcess :=
  mkCompleted 1 flake8_output "".




End Sample.

(* ================================================================== *)
(** * Notions in which the properties are stated                       *)
(* ================================================================== *)

(** What holds of the pause state in every state the operations can reach. *)
Record coherent (w : World) : Prop := {
  coh_pause :
    is_paused (controller w) = is_set (pause_event (controller w));
  coh_reason :
    is_paused (controller w) = true <-> pause_reason (controller w) <> None;
  coh_resume :
    is_set (shutdown_event (controller w)) = false ->
    is_set (resume_event (controller w)) = negb (is_paused (controller w));
  coh_lowered :
    is_set (resume_event (controller w)) = false ->
    is_paused (controller w) = true;
  coh_no_waiter :
    is_set (resume_event (controller w)) = true ->
    waiters (resume_event (controller w)) = 0
}.

(** The severities for which the policy loop has a branch. *)
Definition acted_on (o : BugInsight) : bool :=
  existsb (String.eqb (severity o)) ["high"; "critical"; "medium"]%string.

(** The text before the first occurrence of [sep]. *)
Fixpoint before (sep : ascii) (s : string) : string :=
  match s with
  | EmptyString => EmptyString
  | String c s' => if Ascii.eqb c sep then EmptyString else String c (before sep s')
  end.

Section ImportFindings.

Variable now : datetime.
Variable parse : string -> parse_result.
Variable stdlib_module_names : option (string -> bool).
Variable __import__ : string -> import_result.

(** The import references of a parsed file, each with its line: the names
    of every [import] statement and the module of every absolute
    [from ... import]; relative imports are not among them. *)
Definition import_references (walk : list ast_node) : list (string * Z) :=
  flat_map
    (fun node =>
       match node with
       | Import names lineno => map (fun name => (name, lineno)) names
       | ImportFrom (Some (String _ _ as m)) None lineno => [(m, lineno)]
       | ImportFrom (Some (String _ _ as m)) (Some O) lineno => [(m, lineno)]
       | _ => []
       end)
    walk.

(** A reference is to the standard library when the interpreter lists the
    module's name. *)
Definition standard_library (module_name : string) : bool :=
  match stdlib_module_names with
  | Some names => names module_name
  | None => false
  end.

(** The two findings that a reference can give rise to. *)
Definition missing_import (py_file module_name : string) (lineno : Z) (e : string)
  : BugInsight :=
  mkBugInsight "missing_import"
    ("Missing package: " ++ module_name ++ " - " ++ e)%string "high"
    (Some py_file) (Some lineno)
    (Some ("Install missing package: pip install " ++ top_level module_name)%string)
    (Some now).

Definition import_error (py_file module_name : string) (lineno : Z) (e : string)
  : BugInsight :=
  mkBugInsight "import_error"
    ("Import error for " ++ module_name ++ ": " ++ e)%string "medium"
    (Some py_file) (Some lineno)
    (Some ("Check if " ++ module_name ++ " is properly installed and accessible")%string)
    (Some now).

(** The findings that the scan owes to one reference. *)
Definition findings_of_reference (py_file : string) (reference : string * Z)
  : list BugInsight :=
  let '(module_name, lineno) := reference in
  if standard_library module_name then []
  else
    match __import__ module_name with
    | Imported => []
    | NotFound e | LoadingRaises e true =>
        [missing_import py_file module_name lineno e]
    | LoadingRaises e false => [import_error py_file module_name lineno e]
    end.

(** The findings that the scan owes to one file. *)
Definition findings_of_file (py_file : string) : list BugInsight :=
  match parse py_file with
  | Parsed walk => flat_map (findings_of_reference py_file) (import_references walk)
  | _ => []
  end.

End ImportFindings.

(** The lines of a linter's output, as [_parse_linter_output] cuts it. *)
Definition output_lines (stdout : string) : list string :=
  Str.split "010"%char (Str.strip stdout).

(** A line has the shape of a diagnostic when it is not empty and splits at
    colons into (at least) path, line, column and message. *)
Definition diagnostic (line : string) : bool :=
  negb (String.eqb line "") && (4 <=? List.length (Str.split_max ":"%char 3 line)).

(** Its second and third field read as integers. *)
Definition numbered (line : string) : bool :=
  match Str.int (nth 1 (Str.split_max ":"%char 3 line) EmptyString),
        Str.int (nth 2 (Str.split_max ":"%char 3 line) EmptyString) with
  | Some _, Some _ => true
  | _, _ => false
  end.



(** The command line of the Python linter, before the file names. *)
Definition flake8 : list string :=
  ["python"; "-m"; "flake8"; "--max-line-length=100"]%string.


(* ================================================================== *)
(** * The rest of the Detector loop                                    *)
(* ================================================================== *)

(** A byte that goes on a character begun before it (10xxxxxx). *)
Definition is_continuation (c : ascii) : bool :=
  let n := nat_of_ascii c in (128 <=? n) && (n <? 192).

(** [len(s)]: the number of characters. *)
Fixpoint len (s : string) : nat :=
  match s with
  | EmptyString => 0
  | String c s' => (if is_continuation c then 0 else 1) + len s'
  end.

(** [s[:n]]: the first [n] characters, each with all of its bytes. *)
Fixpoint take_chars (n : nat) (s : string) : string :=
  match s with
  | EmptyString => EmptyString
  | String c s' =>
      if is_continuation c then String c (take_chars n s')
      else
        match n with
        | O => EmptyString
        | S n' => String c (take_chars n' s')
        end
  end.

(** [Path.name]: the last component of a path. *)
Definition path_name (p : string) : string :=
  last (Str.split "/"%char p) EmptyString.

Section Pass.

Variable now : datetime.
Variable rglob : string -> list string.
Variable _run_command : list string -> CompletedProcess.
(** [open(py_file, 'r', encoding='utf-8').read()]; [None] when it raises. *)
Variable read_text : string -> option string.
(** [py_file.stat().st_size]; [None] when it raises. *)
Variable st_size : string -> option Z.
Variable parse : string -> parse_result.
Variable stdlib_module_names : option (string -> bool).
Variable __import__ : string -> import_result.

(** [_run_tests]. *)
Definition _run_tests : list BugInsight :=
  let insights := [] in
  let test_files := rglob "test_*.py" ++ rglob "*_test.py" in
  match test_files with
  | [] => insights
  | _ =>
      let result := _run_command ["python"; "-m"; "pytest"; "--tb=short"; "-q"]%string in
      if negb (returncode result =? 0)%Z then
        insights ++
        [BugInsight_init now "test_failure"
           ("Tests failed: " ++ take_chars 200 (stderr result))%string "high"
           None None
           (Some "Review test failures and fix implementation"%string) None]
      else insights
  end.

(** The [for i, line in enumerate(lines, 1)] loop of [_check_todo_comments];
    [i] is the number of the first of [lines]. *)
Fixpoint todo_lines (py_file : string) (insights : list BugInsight) (i : Z)
    (lines : list string) : list BugInsight :=
  match lines with
  | [] => insights
  | line :: lines' =>
      let insights :=
        if Str.contains "TODO" (Str.upper line) || Str.contains "FIXME" (Str.upper line)
        then
          insights ++
          [BugInsight_init now "todo_comment"
             ("TODO/FIXME found: " ++ Str.strip line)%string "low"
             (Some py_file) (Some i)
             (Some "Address the TODO/FIXME comment"%string) None]
        else insights in
      todo_lines py_file insights (i + 1)%Z lines'
  end.

(** One round of the loop over the files, with its [except Exception]. *)
Definition todo_file (insights : list BugInsight) (py_file : string)
  : list BugInsight :=
  match read_text py_file with
  | Some content =>
      let lines := Str.split "010"%char content in
      todo_lines py_file insights 1%Z lines
  | None => insights
  end.

(** [_check_todo_comments]. *)
Definition _check_todo_comments : list BugInsight :=
  fold_left todo_file (rglob "*.py") [].

(** One round of the loop of [_check_large_files]. *)
Definition large_file (insights : list BugInsight) (py_file : string)
  : list BugInsight :=
  match st_size py_file with
  | Some size =>
      if (10000 <? size)%Z then
        insights ++
        [BugInsight_init now "large_file"
           ("File is large (" ++ AgentOrchestrator.str_int size ++ " bytes): "
              ++ path_name py_file)%string
           "medium" (Some py_file) None
           (Some "Consider breaking into smaller modules"%string) None]
      else insights
  | None => insights
  end.

(** [_check_large_files]. *)
Definition _check_large_files : list BugInsight :=
  fold_left large_file (rglob "*.py") [].

(** [_check_common_issues]. *)
Definition _check_common_issues : list BugInsight :=
  let insights := [] in
  let todo_insights := _check_todo_comments in
  let insights := insights ++ todo_insights in
  let large_file_insights := _check_large_files in
  let insights := insights ++ large_file_insights in
  let import_insights :=
    _check_missing_imports now rglob parse stdlib_module_names __import__ in
  insights ++ import_insights.

(** The findings of one pass, in the order in which [_check_for_bugs]
    combines them. *)
Definition all_insights : list BugInsight :=
  let lint_insights := _run_linters now rglob _run_command in
  let test_insights := _run_tests in
  let common_insights := _check_common_issues in
  lint_insights ++ test_insights ++ common_insights.

(** The objects that a list of freshly built findings becomes, behind the
    objects that exist, and the references to them. *)
Definition alloc_all (objs : store) (found : list BugInsight) : store * list ref :=
  (objs ++ found, seq (List.length objs) (List.length found)).

(** What [_check_for_bugs] does, detection first and then the policy loop. *)
Definition check_for_bugs_actions (w : World) : World * list action :=
  let '(objs, refs) := alloc_all (objects w) all_insights in
  (mkWorld objs (controller w) (resumable w), process_insights objs refs).

End Pass.

(** The calls that reach the Coordinator when some actions run and the
    other tasks make the calls [others] during the sleeps, one list per
    sleep (none once the list is used up). *)
Fixpoint schedule (actions : list action) (others : list (list call)) : list call :=
  match actions with
  | [] => []
  | Coordinator c :: actions' => c :: schedule actions' others
  | Sleep _ :: actions' =>
      match others with
      | [] => schedule actions' []
      | calls :: others' => calls ++ schedule actions' others'
      end
  end.

(** [_check_for_bugs] with the other tasks' calls during its sleeps. *)
Definition _check_for_bugs (now : datetime) (rglob : string -> list string)
    (_run_command : list string -> CompletedProcess)
    (read_text : string -> option string) (st_size : string -> option Z)
    (parse : string -> parse_result) (stdlib_module_names : option (string -> bool))
    (__import__ : string -> import_result)
    (others : list (list call)) (w : World) : World * list reply :=
  let '(w1, actions) :=
    check_for_bugs_actions now rglob _run_command read_text st_size parse
      stdlib_module_names __import__ w in
  run (schedule actions others) w1.

(* ================================================================== *)
(** * Further notions                                                  *)
(* ================================================================== *)

(** The context entry that [inject_insight] writes for a finding. *)
Definition mirrored (objs : store) (insight : ref) : context_entry :=
  mkEntry "bug_insight" insight
    (match deref objs insight with
     | Some o => timestamp o
     | None => None
     end).

(** The header of [get_context_summary]. *)
Definition summary_header : string :=
  ("Additional context from bug-finder:" ++ nl)%string.

(** A [checkpoint] call that suspended; the resumption of a suspended call,
    which then returned. *)
Definition parked (c : call) (r : reply) : nat :=
  match c, r with
  | Checkpoint, RCheckpoint Suspends => 1
  | _, _ => 0
  end.

Definition woke (c : call) (r : reply) : nat :=
  match c, r with
  | CheckpointResumed, RCheckpoint (Returns _) => 1
  | _, _ => 0
  end.

(** How many of the calls, with these replies, were of either kind. *)
Fixpoint suspensions (calls : list call) (rs : list reply) : nat :=
  match calls, rs with
  | c :: calls', r :: rs' => parked c r + suspensions calls' rs'
  | _, _ => 0
  end.

Fixpoint resumptions (calls : list call) (rs : list reply) : nat :=
  match calls, rs with
  | c :: calls', r :: rs' => woke c r + resumptions calls' rs'
  | _, _ => 0
  end.

(** The signals carry no waiter of their own: nobody waits on
    [pause_event] or [shutdown_event]. *)
Definition no_stray_waiter (w : World) : Prop :=
  waiters (pause_event (controller w)) = 0 /\
  waiters (shutdown_event (controller w)) = 0.

(** A line that [_check_todo_comments] reports. *)
Definition mentions_todo (line : string) : bool :=
  Str.contains "TODO" (Str.upper line) || Str.contains "FIXME" (Str.upper line).

(** The finding for such a line, the [i]-th of its file. *)
Definition todo_comment (now : datetime) (py_file : string) (i : Z) (line : string)
  : BugInsight :=
  mkBugInsight "todo_comment" ("TODO/FIXME found: " ++ Str.strip line)%string "low"
    (Some py_file) (Some i) (Some "Address the TODO/FIXME comment"%string)
    (Some now).

(** The finding for a file of [size] bytes. *)
Definition oversized (now : datetime) (py_file : string) (size : Z) : BugInsight :=
  mkBugInsight "large_file"
    ("File is large (" ++ AgentOrchestrator.str_int size ++ " bytes): "
       ++ path_name py_file)%string
    "medium" (Some py_file) None
    (Some "Consider breaking into smaller modules"%string) (Some now).

(** The command line of the test runner. *)
Definition pytest : list string :=
  ["python"; "-m"; "pytest"; "--tb=short"; "-q"]%string.

(** The severity of the object behind a reference is one for which the
    policy loop pauses the Consumer. *)
Definition pausing (objs : store) (r : ref) : bool :=
  match deref objs r with
  | Some o => existsb (String.eqb (severity o)) ["high"; "critical"]%string
  | None => false
  end.

(** The finding behind a reference is one that the policy loop injects. *)
Definition injecting (objs : store) (r : ref) : bool :=
  match deref objs r with
  | Some o => acted_on o
  | None => false
  end.

(** Calls that neither put a finding into the mailbox nor take one out. *)
Definition leaves_mailbox (c : call) : bool :=
  match c with
  | InjectInsight _ | GetInsights => false
  | _ => true
  end.

(** A finding for which the policy loop pauses the Consumer. *)
Definition pauses (o : BugInsight) : bool :=
  existsb (String.eqb (severity o)) ["high"; "critical"]%string.

(** With a timestamp, and of one of the six kinds that the detectors make,
    each with the severity that goes with it. *)
Definition detector_made (f : BugInsight) : Prop :=
  timestamp f <> None /\
  ((bug_type f = "linting_error"%string /\
    (severity f = "high"%string \/ severity f = "medium"%string \/
     severity f = "low"%string)) \/
   (bug_type f = "test_failure"%string /\ severity f = "high"%string) \/
   (bug_type f = "todo_comment"%string /\ severity f = "low"%string) \/
   (bug_type f = "large_file"%string /\ severity f = "medium"%string) \/
   (bug_type f = "missing_import"%string /\ severity f = "high"%string) \/
   (bug_type f = "import_error"%string /\ severity f = "medium"%string)).

(** What a pass finds around it: the clock, the files of the workspace,
    the commands, the parser and the import system. *)
Record Surroundings := mkSurroundings {
  clock : datetime;
  found_files : string -> list string;
  commands : list string -> CompletedProcess;
  contents : string -> option string;
  sizes : string -> option Z;
  trees : string -> parse_result;
  stdlib : option (string -> bool);
  importer : string -> import_result
}.

(** [BugFinderAgent.run_loop], as long as nobody cancels it.  Pass [k] runs
    in [surroundings k]; [others k] are the calls of the other tasks during
    the sleeps of that pass, and [during_sleep k] their calls during the
    sleep that follows it; [k] counts the passes made so far.  [None] stands
    for a loop that is still running when [fuel] rounds have gone by. *)
Fixpoint run_loop (surroundings : nat -> Surroundings)
    (others : nat -> list (list call)) (during_sleep : nat -> list call)
    (fuel : nat) (k : nat) (w : World) : option (World * nat) :=
  match fuel with
  | O => None
  | S fuel' =>
      (* while not self.controller.shutdown_event.is_set() *)
      if is_set (shutdown_event (controller w)) then Some (w, k)
      else
        (* await self._check_for_bugs() *)
        let e := surroundings k in
        let w1 := fst (_check_for_bugs (clock e) (found_files e) (commands e)
                         (contents e) (sizes e) (trees e) (stdlib e) (importer e)
                         (others k) w) in
        (* await asyncio.sleep(self.check_interval) *)
        let w2 := after (during_sleep k) w1 in
        run_loop surroundings others during_sleep fuel' (S k) w2
  end.

Definition is_shutdown (c : call) : bool :=
  match c with Shutdown => true | _ => false end.

(** Calls among which there is no [shutdown]. *)
Definition quiet (calls : list call) : bool :=
  forallb (fun c => negb (is_shutdown c)) calls.

(** A sample reading of the files: [app.py] has three lines, the second a
    comment with a reminder; the other file cannot be read. *)
Definition sample_read_text (py_file : string) : option string :=
  if String.eqb py_file "app.py"
  then Some ("import os" ++ nl ++ "# todo: fix me" ++ nl ++ "x = 1" ++ nl)%string
  else None.

(** The sample workspace as the surroundings of every pass. *)
Definition sample_surroundings (k : nat) : Surroundings :=
  mkSurroundings k Sample.rglob Sample._run_command (fun _ => None) (fun _ => None)
    Sample.parse Sample.stdlib_module_names Sample.__import__.

(* ================================================================== *)
(** * [simple_function.py]                                             *)
(* ================================================================== *)

Module SimpleFunction.

(** [greet]. *)
Definition greet (name : string) : string := ("Hello, " ++ name ++ "!")%string.

(** The exceptions that [calculator] tells apart: [ValueError],
    [ZeroDivisionError], and every other [Exception] ([TypeError],
    [OverflowError], [RecursionError], ...), each with its text. *)
Inductive error :=
  | ValueError (text : string)
  | ZeroDivisionError (text : string)
  | OtherException (text : string).

Inductive result (A : Type) :=
  | Ok (a : A)
  | Raise (e : error).
Arguments Ok {A} a.
Arguments Raise {A} e.

(** The classes of binary and unary operators of the [ast] module; the
    ones that [ops] does not list come with their class name. *)
Inductive operator :=
  | Add | Sub | Mult | Div
  | OtherOperator (name : string).

Inductive unaryop :=
  | UAdd | USub
  | OtherUnaryop (name : string).

Section Calculator.

(** The objects that constants stand for and that the operators work on,
    and Python's floats. *)
Variable value : Type.
Variable float : Type.
(** [operator.add], [sub], [mul], [truediv], [neg], [pos], and [float()]. *)
Variable add sub mul truediv : value -> value -> result value.
Variable neg pos : value -> result value.
Variable float_ : value -> result float.

(** The expression nodes; a node of any class other than [Constant],
    [BinOp] and [UnaryOp] comes with its class name. *)
Inductive expr :=
  | Constant (v : value)
  | BinOp (left_ : expr) (op : operator) (right_ : expr)
  | UnaryOp (op : unaryop) (operand : expr)
  | OtherNode (type_name : string).

(** What [ast.parse(expression, mode='eval')] gives: the body of the tree,
    or [SyntaxError], or another exception. *)
Inductive parsed :=
  | Body (tree : expr)
  | SyntaxError
  | ParseRaises (e : error).

Variable ast_parse : string -> parsed.

(** [ops.get(type(node.op))] for the operator of a [BinOp]. *)
Definition ops_get (op : operator) : option (value -> value -> result value) :=
  match op with
  | Add => Some add
  | Sub => Some sub
  | Mult => Some mul
  | Div => Some truediv
  | OtherOperator _ => None
  end.

(** [ops.get(type(node.op))] for the operator of a [UnaryOp]. *)
Definition ops_get_unary (op : unaryop) : option (value -> result value) :=
  match op with
  | USub => Some neg
  | UAdd => Some pos
  | OtherUnaryop _ => None
  end.

Definition operator_name (op : operator) : string :=
  match op with
  | Add => "Add" | Sub => "Sub" | Mult => "Mult" | Div => "Div"
  | OtherOperator name => name
  end.

Definition unaryop_name (op : unaryop) : string :=
  match op with
  | UAdd => "UAdd" | USub => "USub"
  | OtherUnaryop name => name
  end.

(** The number of calls of [_eval] that fit on the stack, one inside the
    other, before Python raises [RecursionError]. *)
Variable frames : nat.

(** [_eval], with [depth] calls still to fit.  The branch for [ast.Num]
    (Python 3.8 to 3.13, where [ast.Num] stands for constants) is never
    taken: every constant is a [Constant] and is caught by the first test. *)
Fixpoint _eval (depth : nat) (node : expr) : result value :=
  match depth with
  | O => Raise (OtherException "maximum recursion depth exceeded")
  | S depth =>
      match node with
      | Constant v => Ok v
      | BinOp left_ op right_ =>
          match _eval depth left_ with
          | Raise e => Raise e
          | Ok left' =>
              match _eval depth right_ with
              | Raise e => Raise e
              | Ok right' =>
                  match ops_get op with
                  | None =>
                      Raise (ValueError
                               ("Unsupported operation: " ++ operator_name op))
                  | Some op =>
                      match op left' right' with
                      | Raise (ZeroDivisionError _) =>
                          Raise (ZeroDivisionError "Division by zero is not allowed")
                      | r => r
                      end
                  end
              end
          end
      | UnaryOp op operand_ =>
          match _eval depth operand_ with
          | Raise e => Raise e
          | Ok operand =>
              match ops_get_unary op with
              | None =>
                  Raise (ValueError
                           ("Unsupported unary operation: " ++ unaryop_name op))
              | Some op => op operand
              end
          end
      | OtherNode type_name =>
          Raise (ValueError ("Unsupported expression type: " ++ type_name))
      end
  end.

(** The [except Exception as e] clause of [calculator]. *)
Definition reraise {A : Type} (expression : string) (e : error) : result A :=
  match e with
  | ValueError _ | ZeroDivisionError _ => Raise e
  | OtherException _ =>
      Raise (ValueError ("Error evaluating expression: " ++ expression))
  end.

(** [calculator]. *)
Definition calculator (expression : string) : result float :=
  match ast_parse expression with
  | SyntaxError =>
      Raise (ValueError ("Invalid mathematical expression: " ++ expression))
  | ParseRaises e => reraise expression e
  | Body tree =>
      match _eval frames tree with
      | Raise e => reraise expression e
      | Ok result =>
          match float_ result with
          | Raise e => reraise expression e
          | Ok f => Ok f
          end
      end
  end.

(** An expression that [_eval] has a case for all the way down. *)
Fixpoint supported (node : expr) : bool :=
  match node with
  | Constant _ => true
  | BinOp left_ op right_ =>
      supported left_ && supported right_ &&
      match ops_get op with Some _ => true | None => false end
  | UnaryOp op operand_ =>
      supported operand_ &&
      match ops_get_unary op with Some _ => true | None => false end
  | OtherNode _ => false
  end.

End Calculator.

Arguments Constant {value} v.
Arguments BinOp {value} left_ op right_.
Arguments UnaryOp {value} op operand.
Arguments OtherNode {value} type_name.
Arguments Body {value} tree.
Arguments SyntaxError {value}.
Arguments ParseRaises {value} e.

(** A calculator over the integers, with the quotient for [/], to have
    something to run. *)
Module Integers.

Definition add (a b : Z) : result Z := Ok (a + b)%Z.
Definition sub (a b : Z) : result Z := Ok (a - b)%Z.
Definition mul (a b : Z) : result Z := Ok (a * b)%Z.
Definition truediv (a b : Z) : result Z :=
  if (b =? 0)%Z then Raise (ZeroDivisionError "division by zero") else Ok (a / b)%Z.
Definition neg (a : Z) : result Z := Ok (- a)%Z.
Definition pos (a : Z) : result Z := Ok a.
Definition float_ (a : Z) : result Z := Ok a.

(** The trees of [2 + x], [1 / 0] and [-(6 * 7)]. *)
Definition ast_parse (expression : string) : parsed Z :=
  if String.eqb expression "2 + x" then
    Body (BinOp (Constant 2%Z) Add (OtherNode "Name"))
  else if String.eqb expression "1 / 0" then
    Body (BinOp (Constant 1%Z) Div (Constant 0%Z))
  else if String.eqb expression "-(6 * 7)" then
    Body (UnaryOp USub (BinOp (Constant 6%Z) Mult (Constant 7%Z)))
  else SyntaxError.

Definition calculator : string -> result Z :=
  calculator Z Z add sub mul truediv neg pos float_ ast_parse 1000.

End Integers.

End SimpleFunction.

(* ================================================================== *)
(** * [web_search_tool.py]                                             *)
(* ================================================================== *)

Module WebSearch.

(** A Python float, by its [repr]. *)
Definition float := string.

Definition dq : string := String "034"%char EmptyString.

(** The objects that the tool handles: what JSON text decodes to. *)
#[local] Unset Elimination Schemes.
Inductive value :=
  | VNone
  | VBool (b : bool)
  | VInt (n : Z)
  | VFloat (repr : float)
  | VStr (s : string)
  | VList (items : list value)
  | VDict (items : list (string * value)).
#[local] Set Elimination Schemes.

(** A [dict] with string keys, in insertion order, each key once. *)
Definition dict := list (string * value).

Fixpoint dict_get (d : dict) (key : string) : option value :=
  match d with
  | [] => None
  | (k, v) :: d' => if String.eqb k key then Some v else dict_get d' key
  end.

(** [d.get(key, default)]. *)
Definition get (d : dict) (key : string) (default : value) : value :=
  match dict_get d key with
  | Some v => v
  | None => default
  end.

(** An exception: its class and [str(e)]. *)
Record exception := mkException {
  class_name : string;
  text : string
}.

Definition TypeError (text : string) : exception := mkException "TypeError" text.
Definition KeyError (key : string) : exception :=
  mkException "KeyError" ("'" ++ key ++ "'").
Definition Exception (text : string) : exception := mkException "Exception" text.

Inductive result (A : Type) :=
  | Ok (a : A)
  | Raise (e : exception).
Arguments Ok {A} a.
Arguments Raise {A} e.

(** What [json.loads] does with its argument. *)
Inductive loads_result :=
  | Loaded (v : value)
  | JSONDecodeError (text : string)
  | LoadsRaises (e : exception).

(** [ToolImplOutput], as the tool builds it. *)
Record ToolImplOutput := mkToolImplOutput {
  tool_output : string;
  tool_result_message : string;
  auxiliary_data : dict
}.

(** The attributes of a [WebSearchTool] that its methods read or write. *)
Record WebSearchTool := mkWebSearchTool {
  use_gpt5 : bool;
  last_search_time : float;
  min_search_interval : float
}.

(** [WebSearchTool.__init__], the client apart. *)
Definition WebSearchTool_init (use_gpt5 : bool) : WebSearchTool :=
  mkWebSearchTool use_gpt5 "0"%string "2.0"%string.

(** [create_web_search_tool]. *)
Definition create_web_search_tool (use_gpt5 : bool) : WebSearchTool :=
  WebSearchTool_init use_gpt5.

(** [bool(v)]. *)
Definition truthy (v : value) : bool :=
  match v with
  | VNone => false
  | VBool b => b
  | VInt n => negb (n =? 0)%Z
  | VFloat r => negb (String.eqb r "0.0" || String.eqb r "-0.0")
  | VStr s => negb (String.eqb s "")
  | VList items => match items with [] => false | _ => true end
  | VDict items => match items with [] => false | _ => true end
  end.

(** [xs[:stop]] for an integer [stop]. *)
Definition slice_int {A : Type} (xs : list A) (stop : Z) : list A :=
  if (0 <=? stop)%Z then firstn (Z.to_nat stop) xs
  else firstn (List.length xs - Z.to_nat (- stop)) xs.

(** [sep.join(parts)] for strings. *)
Fixpoint join (sep : string) (parts : list string) : string :=
  match parts with
  | [] => ""
  | [p] => p
  | p :: ps => (p ++ sep ++ join sep ps)%string
  end.

(** The items of a list if all of them are strings. *)
Fixpoint strings (items : list value) : option (list string) :=
  match items with
  | [] => Some []
  | VStr s :: items' => option_map (cons s) (strings items')
  | _ :: _ => None
  end.

Fixpoint characters (s : string) : list string :=
  match s with
  | EmptyString => []
  | String c s' => String c EmptyString :: characters s'
  end.

Definition analysis_prompt (query dumped max_results : string) : string :=
  (nl ++
   "            You are analyzing real web search results to find the most relevant information for this query: " ++ dq ++ query ++ dq ++ nl ++
   "            " ++ nl ++
   "            Here are the actual search results from DuckDuckGo:" ++ nl ++
   "            " ++ dumped ++ nl ++
   "            " ++ nl ++
   "            Please analyze these results and return the " ++ max_results ++ " most relevant ones in this JSON format:" ++ nl ++
   "            [" ++ nl ++
   "                {" ++ nl ++
   "                    " ++ dq ++ "title" ++ dq ++ ": " ++ dq ++ "Title of the most relevant result" ++ dq ++ "," ++ nl ++
   "                    " ++ dq ++ "url" ++ dq ++ ": " ++ dq ++ "https://actual-url.com" ++ dq ++ "," ++ nl ++
   "                    " ++ dq ++ "snippet" ++ dq ++ ": " ++ dq ++ "Summary of the most important information from this source" ++ dq ++ "," ++ nl ++
   "                    " ++ dq ++ "relevance" ++ dq ++ ": 0.95," ++ nl ++
   "                    " ++ dq ++ "key_insights" ++ dq ++ ": [" ++ dq ++ "Key insight 1" ++ dq ++ ", " ++ dq ++ "Key insight 2" ++ dq ++ "]," ++ nl ++
   "                    " ++ dq ++ "source_type" ++ dq ++ ": " ++ dq ++ "documentation|tutorial|github|stackoverflow|news|official" ++ dq ++ nl ++
   "                }" ++ nl ++
   "            ]" ++ nl ++
   "            " ++ nl ++
   "            Focus on:" ++ nl ++
   "            1. Accuracy and relevance to the query" ++ nl ++
   "            2. Most current and useful information" ++ nl ++
   "            3. Official sources when available" ++ nl ++
   "            4. Actionable insights and facts" ++ nl ++
   "            " ++ nl ++
   "            Return only the JSON array, no other text." ++ nl ++
   "            ")%string.

Section Tool.

(** [repr] of a list or a dict. *)
Variable repr_ : value -> string.
(** The texts of the [TypeError]s that Python raises when an object is
    subscripted with a string, joined, used as a slice bound, or doubled. *)
Variable subscript_error join_error slice_error mul_error : value -> string.
(** [x * 2], [x - y] and [x < y] on floats. *)
Variable float_double : float -> float.
Variable float_sub : float -> float -> float.
Variable float_lt : float -> float -> bool.
(** The readings of [time.time()] during the call, in order. *)
Variable time_time : nat -> float.
(** [self.ddgs.text(query, max_results=max_results)]: a list of dicts, or
    an exception. *)
Variable ddgs_text : value -> value -> result (list dict).
(** [json.dumps(search_results, indent=2)]. *)
Variable json_dumps : list value -> result string.
(** [self.client.generate(...)] on a prompt, and [.content] of what it
    returns. *)
Variable generate : string -> result value.
Variable json_loads : value -> loads_result.

(** [str(v)], as an f-string shows a value. *)
Definition str (v : value) : string :=
  match v with
  | VNone => "None"
  | VBool true => "True"
  | VBool false => "False"
  | VInt n => AgentOrchestrator.str_int n
  | VFloat r => r
  | VStr s => s
  | VList _ | VDict _ => repr_ v
  end.

(** [xs[:stop]]. *)
Definition slice_to {A : Type} (xs : list A) (stop : value) : result (list A) :=
  match stop with
  | VNone => Ok xs
  | VInt n => Ok (slice_int xs n)
  | VBool b => Ok (slice_int xs (if b then 1 else 0)%Z)
  | _ => Raise (TypeError (slice_error stop))
  end.

(** [max_results * 2]. *)
Definition times_two (max_results : value) : result value :=
  match max_results with
  | VInt n => Ok (VInt (n * 2))
  | VBool b => Ok (VInt (if b then 2 else 0))
  | VFloat r => Ok (VFloat (float_double r))
  | VStr s => Ok (VStr (s ++ s))
  | VList items => Ok (VList (items ++ items))
  | VNone | VDict _ => Raise (TypeError (mul_error max_results))
  end.

(** [', '.join(v)]. *)
Definition join_value (sep : string) (v : value) : result string :=
  match v with
  | VList items =>
      match strings items with
      | Some parts => Ok (join sep parts)
      | None => Raise (TypeError (join_error v))
      end
  | VStr s => Ok (join sep (characters s))
  | VDict items => Ok (join sep (map fst items))
  | _ => Raise (TypeError (join_error v))
  end.

(** The dict that [_perform_duckduckgo_search] makes of a result of
    DuckDuckGo. *)
Definition converted (result_ : dict) : value :=
  VDict [ ("title"%string, get result_ "title" (VStr ""));
          ("url"%string, get result_ "href" (VStr ""));
          ("snippet"%string, get result_ "body" (VStr ""));
          ("relevance"%string, VFloat "1.0"%string) ].

(** ["Ratelimit" in str(e) or "rate limit" in str(e).lower()]. *)
Definition rate_limited (e : exception) : bool :=
  Str.contains "Ratelimit" (text e) ||
  Str.contains "rate limit" (Str.lower (text e)).

Definition rate_limit_text : string :=
  "DuckDuckGo rate limit reached. Please wait a moment before searching again.".

(** [_perform_duckduckgo_search]: what it returns or raises, the tool
    afterwards, and the time that it slept, if it did. *)
Definition _perform_duckduckgo_search (self : WebSearchTool) (query max_results : value)
    : result (list value) * WebSearchTool * option float :=
  let current_time := time_time 0 in
  let time_since_last_search := float_sub current_time (last_search_time self) in
  let slept :=
    if float_lt time_since_last_search (min_search_interval self) then
      let sleep_time := float_sub (min_search_interval self) time_since_last_search in
      Some sleep_time
    else None in
  match ddgs_text query max_results with
  | Ok search_results =>
      let self := mkWebSearchTool (use_gpt5 self) (time_time 1)
                    (min_search_interval self) in
      let results := map converted search_results in
      (Ok results, self, slept)
  | Raise e =>
      (* except Exception as e *)
      if rate_limited e then (Raise (Exception rate_limit_text), self, slept)
      else (Raise e, self, slept)
  end.

(** The [try] block of [_analyze_with_gpt5]. *)
Definition analysis (query : value) (search_results : list value) (max_results : value)
    : result (list value) :=
  match json_dumps search_results with
  | Raise e => Raise e
  | Ok dumped =>
      let analysis_prompt := analysis_prompt (str query) dumped (str max_results) in
      match generate analysis_prompt with
      | Raise e => Raise e
      | Ok content =>
          match json_loads content with
          | Loaded analyzed_results =>
              match analyzed_results with
              | VList (first :: rest) => slice_to (first :: rest) max_results
              | _ => slice_to search_results max_results
              end
          | JSONDecodeError _ => slice_to search_results max_results
          | LoadsRaises e => Raise e
          end
      end
  end.

(** [_analyze_with_gpt5]. *)
Definition _analyze_with_gpt5 (query : value) (search_results : list value)
    (max_results : value) : result (list value) :=
  match analysis query search_results max_results with
  | Ok results => Ok results
  | Raise _ =>
      (* except Exception: fallback to original results *)
      slice_to search_results max_results
  end.

(** One round of the loop of [_format_results].  Only a dict can be
    subscripted with ['title']; for anything else the first line of the
    round raises [TypeError]. *)
Definition format_result (formatted_output : string) (i : Z) (result_ : value)
    : result string :=
  match result_ with
  | VDict d =>
      match dict_get d "title" with
      | None => Raise (KeyError "title")
      | Some title =>
          let formatted_output :=
            (formatted_output ++ AgentOrchestrator.str_int i ++ ". " ++ str title ++ nl)%string in
          match dict_get d "url" with
          | None => Raise (KeyError "url")
          | Some url =>
              let formatted_output :=
                (formatted_output ++ "   URL: " ++ str url ++ nl)%string in
              match dict_get d "snippet" with
              | None => Raise (KeyError "snippet")
              | Some snippet =>
                  let formatted_output :=
                    (formatted_output ++ "   Snippet: " ++ str snippet ++ nl)%string in
                  let formatted_output :=
                    match dict_get d "relevance" with
                    | Some relevance =>
                        (formatted_output ++ "   Relevance: " ++ str relevance ++ nl)%string
                    | None => formatted_output
                    end in
                  let with_insights :=
                    match dict_get d "key_insights" with
                    | Some key_insights =>
                        if truthy key_insights then
                          match join_value ", " key_insights with
                          | Ok joined =>
                              Ok (formatted_output ++ "   Key Insights: " ++ joined ++ nl)%string
                          | Raise e => Raise e
                          end
                        else Ok formatted_output
                    | None => Ok formatted_output
                    end in
                  match with_insights with
                  | Raise e => Raise e
                  | Ok formatted_output =>
                      let formatted_output :=
                        match dict_get d "source_type" with
                        | Some source_type =>
                            (formatted_output ++ "   Source Type: " ++ str source_type ++ nl)%string
                        | None => formatted_output
                        end in
                      Ok (formatted_output ++ nl)%string
                  end
              end
          end
      end
  | _ => Raise (TypeError (subscript_error result_))
  end.

(** The [for i, result in enumerate(results, 1)] loop. *)
Fixpoint format_loop (formatted_output : string) (i : Z) (results : list value)
    : result string :=
  match results with
  | [] => Ok formatted_output
  | result_ :: results' =>
      match format_result formatted_output i result_ with
      | Raise e => Raise e
      | Ok formatted_output => format_loop formatted_output (i + 1) results'
      end
  end.

(** [_format_results]. *)
Definition _format_results (query : value) (results : list value) : result string :=
  match results with
  | [] => Ok ("No results found for: '" ++ str query ++ "'")%string
  | _ =>
      format_loop ("Web search results for: '" ++ str query ++ "'" ++ nl ++ nl)%string
        1 results
  end.

(** What the [except Exception as e] clause of [run_impl] returns. *)
Definition failure (query : value) (e : exception) : ToolImplOutput :=
  mkToolImplOutput
    ("Error performing web search: " ++ text e)
    ("Web search failed for '" ++ str query ++ "'")
    [("success"%string, VBool false); ("error"%string, VStr (text e))].

(** [run_impl]: what it returns or raises, the tool afterwards, and the
    time that it slept, if it did. *)
Definition run_impl (self : WebSearchTool) (tool_input : dict)
    : result ToolImplOutput * WebSearchTool * option float :=
  match dict_get tool_input "query" with
  | None => (Raise (KeyError "query"), self, None)
  | Some query =>
      let max_results := get tool_input "max_results" (VInt 5) in
      (* try *)
      match times_two max_results with
      | Raise e => (Ok (failure query e), self, None)
      | Ok doubled =>
          let '(found, self, slept) := _perform_duckduckgo_search self query doubled in
          match found with
          | Raise e => (Ok (failure query e), self, slept)
          | Ok [] =>
              (Ok (mkToolImplOutput
                     "No search results found."
                     ("No results found for '" ++ str query ++ "'")
                     [("success"%string, VBool false); ("num_results"%string, VInt 0)]),
               self, slept)
          | Ok search_results =>
              let '(analyzed, search_engine) :=
                if use_gpt5 self then
                  (_analyze_with_gpt5 query search_results max_results,
                   "DuckDuckGo + GPT-5"%string)
                else
                  (slice_to search_results max_results, "DuckDuckGo"%string) in
              match analyzed with
              | Raise e => (Ok (failure query e), self, slept)
              | Ok analyzed_results =>
                  match _format_results query analyzed_results with
                  | Raise e => (Ok (failure query e), self, slept)
                  | Ok formatted_output =>
                      (Ok (mkToolImplOutput
                             formatted_output
                             ("Web search completed for '" ++ str query ++
                              "' using " ++ search_engine)
                             [("success"%string, VBool true);
                              ("num_results"%string,
                               VInt (Z.of_nat (List.length analyzed_results)));
                              ("search_engine"%string, VStr search_engine)]),
                       self, slept)
                  end
              end
          end
      end
  end.

(** [get_tool_start_message]. *)
Definition get_tool_start_message (self : WebSearchTool) (tool_input : dict)
    : result string :=
  match dict_get tool_input "query" with
  | None => Raise (KeyError "query")
  | Some query =>
      let search_engine :=
        if use_gpt5 self then "DuckDuckGo + GPT-5"%string else "DuckDuckGo"%string in
      Ok ("Searching the web for '" ++ str query ++ "' using " ++ search_engine)%string
  end.

End Tool.

(** A tool cut off from the network: DuckDuckGo answers every query with
    the same two results, one of them without a body, and the model answers
    with text that is no JSON. *)
Module Offline.

Definition repr_ (v : value) : string := "[...]".
Definition subscript_error (v : value) : string := "not subscriptable".
Definition join_error (v : value) : string := "can only join an iterable".
Definition slice_error (v : value) : string := "slice indices must be integers".
Definition mul_error (v : value) : string := "unsupported operand type(s) for *".
Definition float_double (x : float) : float := x.
Definition float_sub (x y : float) : float := x.
Definition float_lt (x y : float) : bool := false.
Definition time_time (n : nat) : float := "100.0"%string.

Definition ddgs_text (query max_results : value) : result (list dict) :=
  Ok [ [("title"%string, VStr "Rocq"); ("href"%string, VStr "https://rocq-prover.org");
        ("body"%string, VStr "The Rocq Prover")];
       [("title"%string, VStr "Python"); ("href"%string, VStr "https://python.org")] ].

Definition json_dumps (search_results : list value) : result string := Ok "[]"%string.
Definition generate (prompt : string) : result value := Ok (VStr "Sorry.").
Definition json_loads (content : value) : loads_result :=
  JSONDecodeError "Expecting value: line 1 column 1 (char 0)".

Definition run_impl (self : WebSearchTool) (tool_input : dict)
    : result ToolImplOutput * WebSearchTool * option float :=
  run_impl repr_ subscript_error join_error slice_error mul_error float_double
    float_sub float_lt time_time ddgs_text json_dumps generate json_loads
    self tool_input.

(** DuckDuckGo refuses. *)
Definition refused (query max_results : value) : result (list dict) :=
  Raise (mkException "DuckDuckGoSearchException" "202 Ratelimit").

Definition run_refused (self : WebSearchTool) (tool_input : dict)
    : result ToolImplOutput * WebSearchTool * option float :=
  WebSearch.run_impl repr_ subscript_error join_error slice_error mul_error
    float_double float_sub float_lt time_time refused json_dumps generate
    json_loads self tool_input.

End Offline.

End WebSearch.

(** What the Supervisor's [shutdown] makes of a task: a task that is done
    stays as it is, any other ends cancelled. *)
Definition settled {P : Type} (t : AgentOrchestrator.task P) : AgentOrchestrator.task P :=
  match t with
  | AgentOrchestrator.Done r => AgentOrchestrator.Done r
  | _ => AgentOrchestrator.Done (AgentOrchestrator.Raised AgentOrchestrator.CancelledError)
  end.

(** [enumerate(lines, i)]. *)
Fixpoint enumerate (i : Z) (lines : list string) : list (Z * string) :=
  match lines with
  | [] => []
  | line :: lines' => (i, line) :: enumerate (i + 1) lines'
  end.

(** The lines of a text that the TODO scan reports, each with its number,
    counted from 1. *)
Definition reported_lines (content : string) : list (Z * string) :=
  filter (fun entry => mentions_todo (snd entry))
    (enumerate 1 (Str.split "010"%char content)).

(** The places that the TODO scan reports, in the order of the scan: the
    reported lines of every file that can be read. *)
Definition todo_places (rglob : string -> list string)
    (read_text : string -> option string) : list (string * (Z * string)) :=
  flat_map
    (fun py_file =>
       match read_text py_file with
       | Some content => map (pair py_file) (reported_lines content)
       | None => []
       end)
    (rglob "*.py"%string).

(** The files that the size scan reports, each with its size, in the order
    of the scan. *)
Definition large_files (rglob : string -> list string)
    (st_size : string -> option Z) : list (string * Z) :=
  flat_map
    (fun py_file =>
       match st_size py_file with
       | Some size => if (10000 <? size)%Z then [(py_file, size)] else []
       | None => []
       end)
    (rglob "*.py"%string).

(** The text that [_enhance_problem_statement] writes for one insight. *)
Definition insight_text (o : BugInsight) : string :=
  ("🔍 " ++ Str.upper (bug_type o) ++ ": " ++ description o ++ nl ++
   match file_path o with
   | Some (String _ _ as path) =>
       "   📁 File: " ++ path ++
       match line_number o with
       | Some n => if (n =? 0)%Z then "" else ":" ++ AgentOrchestrator.str_int n
       | None => ""
       end ++ nl
   | _ => ""
   end ++
   match suggested_fix o with
   | Some (String _ _ as remedy) => "   💡 Suggested fix: " ++ remedy ++ nl
   | _ => ""
   end ++
   "   ⚠️  Severity: " ++ severity o ++ nl ++ nl)%string.

(** The texts of the insights behind some references, one after the
    other. *)
Fixpoint insights_text (objs : store) (insights : list ref) : string :=
  match insights with
  | [] => EmptyString
  | r :: insights' =>
      (match deref objs r with
       | Some o => insight_text o
       | None => EmptyString
       end ++ insights_text objs insights')%string
  end.

(** The type of an insight is written in ASCII. *)
Definition plain_type (objs : store) (r : ref) : Prop :=
  match deref objs r with
  | Some o => Str.is_ascii (bug_type o) = true
  | None => True
  end.

(** The modules that the import scan of a pass tries to import, in that
    order: the references of the files that parse, those to the standard
    library apart. *)
Definition imports_tried (rglob : string -> list string)
    (parse : string -> parse_result)
    (stdlib_module_names : option (string -> bool)) : list string :=
  flat_map
    (fun py_file =>
       match parse py_file with
       | Parsed walk =>
           map fst
             (filter
                (fun reference =>
                   negb (standard_library stdlib_module_names (fst reference)))
                (import_references walk))
       | _ => []
       end)
    (rglob "*.py"%string).

(** How [run_loop] ends: its loop test finds shutdown requested, or an
    exception that is no [Exception] leaves a pass; either way after so
    many whole passes. *)
Inductive loop_end :=
  | LoopLeft (w : World) (passes : nat)
  | PassRaised (w : World) (passes : nat).

(** [run_loop] when the import of a module may raise an exception that is
    no [Exception] ([SystemExit], when the module calls [sys.exit()]):
    [exits k m] tells whether importing [m] during pass [k] does.  No
    [except Exception] clause of the scan, of [_check_for_bugs] or of
    [run_loop] catches it, and the pass has made no call of the Coordinator
    by then, for all of the detection comes before the policy loop. *)
Fixpoint run_loop_exits (exits : nat -> string -> bool)
    (surroundings : nat -> Surroundings)
    (others : nat -> list (list call)) (during_sleep : nat -> list call)
    (fuel : nat) (k : nat) (w : World) : option loop_end :=
  match fuel with
  | O => None
  | S fuel' =>
      (* while not self.controller.shutdown_event.is_set() *)
      if is_set (shutdown_event (controller w)) then Some (LoopLeft w k)
      else
        let e := surroundings k in
        if existsb (exits k) (imports_tried (found_files e) (trees e) (stdlib e))
        then Some (PassRaised w k)
        else
          (* await self._check_for_bugs() *)
          let w1 := fst (_check_for_bugs (clock e) (found_files e) (commands e)
                           (contents e) (sizes e) (trees e) (stdlib e) (importer e)
                           (others k) w) in
          (* await asyncio.sleep(self.check_interval) *)
          let w2 := after (during_sleep k) w1 in
          run_loop_exits exits surroundings others during_sleep fuel' (S k) w2
  end.

(* ================================================================== *)
(** * Properties                                                       *)
(* ================================================================== *)

(** ** Sanity checks of the string operations and of the call semantics *)

Example split_max_flake8 :
  Str.split_max ":"%char 3 "a.py:3:1: E302 expected 2 blank lines: found 1"
  = ["a.py"; "3"; "1"; " E302 expected 2 blank lines: found 1"]%string.
Proof. reflexivity. Qed.

Example split_lines :
  Str.split "010"%char (Str.strip (nl ++ "a" ++ nl ++ nl ++ "b ")%string)
  = ["a"; ""; "b"]%string.
Proof. reflexivity. Qed.

Example int_examples :
  (Str.int " 42 ", Str.int "-7", Str.int "1_000", Str.int "x", Str.int "",
   Str.int "1__0", Str.int "+-1")
  = (Some 42%Z, Some (-7)%Z, Some 1000%Z, None, None, None, None).
Proof. reflexivity. Qed.

Example contains_examples :
  (Str.contains "error" (Str.lower "Syntax ERROR here"),
   Str.contains "warning" "warn", Str.contains "" "")
  = (true, false, true).
Proof. reflexivity. Qed.

Example pause_checkpoint_resume :
  replies [RequestPause "x"; Checkpoint; CheckpointResumed; RequestResume;
           CheckpointResumed; Checkpoint; Shutdown; Checkpoint] (fresh [])
  = [RNone; RCheckpoint Suspends; RIdle; RNone; RCheckpoint (Returns true);
     RCheckpoint (Returns true); RNone; RCheckpoint (Returns false)].
Proof. reflexivity. Qed.

Example inject_three_then_drain :
  replies [InjectInsight 0; InjectInsight 1; InjectInsight 2; GetInsights; GetInsights]
    (fresh Sample.findings)
  = [RNone; RNone; RNone; RInsights [0; 1; 2]; RInsights []].
Proof. reflexivity. Qed.

Example context_summary :
  snd (get_context_summary (after [InjectInsight 1] (fresh Sample.findings)))
  = ("Additional context from bug-finder:" ++ nl ++
     "- HIGH: test_failure - Tests failed: " ++ nl ++
     "  Suggested fix: Review test failures and fix implementation" ++ nl)%string.
Proof. reflexivity. Qed.

Example run_to_completion :
  let '(r, s) :=
    AgentOrchestrator.run (fun _ => AgentOrchestrator.Returned) (fun w => w)
      (AgentOrchestrator.Pending AgentOrchestrator.InLoopSleep) true "task"
      (AgentOrchestrator.init Sample.findings) in
  r = AgentOrchestrator.Ok tt /\
  AgentOrchestrator.bug_finder_task s
    = Some (AgentOrchestrator.Done AgentOrchestrator.Returned) /\
  shutdown_requested (AgentOrchestrator.shared s) = true /\
  AgentOrchestrator.is_running s = false.
Proof. cbv. repeat split. Qed.

Example run_with_hung_tool :
  fst (AgentOrchestrator.run (fun _ => AgentOrchestrator.Returned) (fun w => w)
         (AgentOrchestrator.Pending AgentOrchestrator.InCommand) false "task"
         (AgentOrchestrator.init Sample.findings))
  = AgentOrchestrator.Hang.
Proof. reflexivity. Qed.

Lemma int_digit_limit :
  Str.int (string_of_list_ascii (repeat "1"%char 4300)) <> None /\
  Str.int (string_of_list_ascii (repeat "1"%char 4301)) = None /\
  Str.int (String "028"%char "5") = None /\
  Str.strip (String "028"%char "5") = "5"%string.
Proof. vm_compute. repeat split. discriminate. Qed.

Lemma take_chars_examples :
  take_chars 2 "ééé" = "éé"%string /\ len "ééé" = 3 /\ String.length "ééé" = 6 /\
  take_chars 4 "abc" = "abc"%string /\ take_chars 0 "abc" = ""%string.
Proof. repeat split. Qed.

(** ** The Coordinator *)

Lemma run_app calls1 calls2 w :
  run (calls1 ++ calls2) w =
  let '(w1, rs1) := run calls1 w in
  let '(w2, rs2) := run calls2 w1 in
  (w2, rs1 ++ rs2).
Proof.
  revert w. induction calls1 as [|c calls1 IH]; intros w; simpl.
  - destruct (run calls2 w); reflexivity.
  - destruct (step c w) as [w1 r]. rewrite IH.
    destruct (run calls1 w1) as [w2 rs1].
    destruct (run calls2 w2) as [w3 rs2]. reflexivity.
Qed.

Lemma after_app calls1 calls2 w :
  after (calls1 ++ calls2) w = after calls2 (after calls1 w).
Proof.
  unfold after. rewrite run_app.
  destruct (run calls1 w) as [w1 rs1]. simpl.
  destruct (run calls2 w1); reflexivity.
Qed.

Lemma after_cons c calls w :
  after (c :: calls) w = after calls (fst (step c w)).
Proof.
  unfold after. simpl. destruct (step c w) as [w1 r]. simpl.
  destruct (run calls w1); reflexivity.
Qed.

Lemma replies_cons c calls w :
  replies (c :: calls) w = snd (step c w) :: replies calls (fst (step c w)).
Proof.
  unfold replies. simpl. destruct (step c w) as [w1 r]. simpl.
  destruct (run calls w1); reflexivity.
Qed.

(** The loop of [get_insights] empties the queue and appends its content,
    oldest first, to the local list. *)
Lemma get_insights_loop_spec queue insights :
  get_insights_loop queue insights = ([], insights ++ queue).
Proof.
  revert insights. induction queue as [|x queue IH]; intros insights; simpl.
  - now rewrite app_nil_r.
  - rewrite IH, <- app_assoc. reflexivity.
Qed.

Ltac open_world w :=
  destruct w as [?objs [[?pe ?pw] [?re ?rw] [?se ?sw] ?queue ?ctx ?ip ?reason ?turn] ?k].

Ltac run_op :=
  unfold step, request_pause, inject_insight, request_resume, shutdown,
    checkpoint, checkpoint_resumed, get_insights, get_context_summary,
    with_controller, Event_set, Event_clear, Event_wait;
  cbn [controller objects resumable is_set waiters pause_event resume_event
       shutdown_event insights_queue agent_context is_paused pause_reason
       agent_turn_count fst snd negb].

Lemma fresh_coherent objs : coherent (fresh objs).
Proof.
  split; cbn; try reflexivity; try discriminate.
  split; [discriminate | intros H; now elim H].
Qed.

Lemma step_coherent c w : coherent w -> coherent (fst (step c w)).
Proof.
  intros [H1 H2 H3 H4 H5]. open_world w. cbn in H1, H2, H3, H4, H5.
  destruct c; run_op; try rewrite get_insights_loop_spec;
    try destruct k; try destruct ctx;
    destruct ip, pe, re, se; cbn;
    split; cbn; intros; subst;
    try solve [ reflexivity | discriminate | tauto | auto
              | split; [discriminate | intros E; now elim E]
              | split; [intros _; discriminate | reflexivity]
              | match goal with H : _ -> _ |- _ => now apply H end ].
Qed.

Lemma after_coherent calls w : coherent w -> coherent (after calls w).
Proof.
  revert w. induction calls as [|c calls IH]; intros w H.
  - exact H.
  - rewrite after_cons. apply IH, step_coherent, H.
Qed.

Lemma pause_reason_from_caller calls w r :
  pause_reason (controller (after calls w)) = Some r ->
  pause_reason (controller w) = Some r \/ In (RequestPause r) calls.
Proof.
  revert w. induction calls as [|c calls IH]; intros w H; [now left|].
  rewrite after_cons in H. apply IH in H. destruct H as [H|H]; [|right; now right].
  open_world w. destruct c; revert H; run_op; try rewrite get_insights_loop_spec;
    try destruct k; try destruct ctx; destruct ip, pe, re, se; cbn;
    intros H; try discriminate; auto;
    right; left; now injection H as ->.
Qed.

(** C10.  After any sequence of Coordinator operations on a freshly
    constructed Coordinator, [paused] is true exactly when the
    pause-requested signal is raised and exactly when [pause_reason] is set
    (not [None]; and it is then a reason that a caller passed, so not the
    empty text unless a caller passed that); and while shutdown has not been
    requested, may-proceed is raised exactly when [paused] is false. *)
Theorem pause_state_consistent objs calls :
  let w := after calls (fresh objs) in
  (paused w = true <-> pause_requested w = true) /\
  (paused w = true <-> pause_reason (controller w) <> None) /\
  (forall r, pause_reason (controller w) = Some r -> In (RequestPause r) calls) /\
  (shutdown_requested w = false -> (may_proceed w = true <-> paused w = false)).
Proof.
  intros w.
  assert (Hr : forall r, pause_reason (controller w) = Some r ->
                         In (RequestPause r) calls).
  { intros r Hr. apply pause_reason_from_caller in Hr as [Hr|Hr];
      [discriminate Hr | exact Hr]. }
  destruct (after_coherent calls (fresh objs) (fresh_coherent objs))
    as [H1 H2 H3 _ _].
  fold w in H1, H2, H3. unfold paused, pause_requested, may_proceed,
    shutdown_requested.
  split; [|split; [exact H2|split; [exact Hr|]]].
  - now rewrite H1.
  - intros Hs. rewrite (H3 Hs). now destruct (is_paused (controller w)).
Qed.

(** C4.  While [paused] is true, [request_pause(reason2)] changes nothing
    at all: [paused], [pause_reason] and the two signals are as before.  In
    particular the reason recorded by the call that paused the Coordinator
    survives a second call. *)
Theorem request_pause_when_paused w reason2 :
  paused w = true ->
  request_pause reason2 w = w /\
  (forall w0 reason1,
      paused w0 = false -> w = request_pause reason1 w0 ->
      pause_reason (controller (request_pause reason2 w)) = Some reason1).
Proof.
  unfold paused. intros H.
  assert (E : request_pause reason2 w = w).
  { unfold request_pause. now rewrite H. }
  split; [exact E|].
  intros w0 reason1 H0 ->. rewrite E.
  unfold request_pause. rewrite H0. reflexivity.
Qed.

Lemma request_pause_when_paused_witness :
  let w := request_pause "first" (fresh Sample.findings) in
  paused w = true /\
  request_pause "second" w = w /\
  pause_reason (controller (request_pause "second" w)) = Some "first"%string.
Proof.
  intros w.
  assert (H : paused w = true) by reflexivity.
  destruct (request_pause_when_paused w "second" H) as [E K].
  split; [exact H|]. split; [exact E|].
  apply (K (fresh Sample.findings) "first"%string); reflexivity.
Defined.

(** What a call other than [get_insights] does to the mailbox. *)
Lemma step_queue c w :
  is_get_insights c = false ->
  insights_queue (controller (fst (step c w))) =
  insights_queue (controller w) ++ injected [c].
Proof.
  intros H. open_world w.
  destruct c; try discriminate; run_op;
    try destruct k; try destruct ctx; destruct ip, pe, re, se; cbn;
    now rewrite ?app_nil_r.
Qed.

Lemma injected_cons c calls : injected (c :: calls) = injected [c] ++ injected calls.
Proof. destruct c; reflexivity. Qed.

Lemma after_queue calls w :
  forallb (fun c => negb (is_get_insights c)) calls = true ->
  insights_queue (controller (after calls w)) =
  insights_queue (controller w) ++ injected calls.
Proof.
  revert w. induction calls as [|c calls IH]; intros w H.
  - cbn. now rewrite app_nil_r.
  - cbn [forallb] in H. apply andb_true_iff in H as [Hc H].
    rewrite after_cons, IH, step_queue, (injected_cons c calls), app_assoc;
      auto.
    now destruct (is_get_insights c).
Qed.

Lemma get_insights_spec w :
  snd (get_insights w) = insights_queue (controller w) /\
  insights_queue (controller (fst (get_insights w))) = [].
Proof.
  unfold get_insights. rewrite get_insights_loop_spec. split; reflexivity.
Qed.

(** C3.  When findings are injected with no [get_insights] in between
    (whatever else is called), one [get_insights] returns what the mailbox
    held before followed by exactly the injected findings, oldest first, and
    leaves the mailbox empty; a second [get_insights] right after returns the
    empty list.  [get_insights] has no suspension point: its reply is a list
    in every state. *)
Theorem get_insights_returns_injected calls w :
  forallb (fun c => negb (is_get_insights c)) calls = true ->
  let w1 := after calls w in
  let w2 := fst (step GetInsights w1) in
  snd (step GetInsights w1)
    = RInsights (insights_queue (controller w) ++ injected calls) /\
  insights_queue (controller w2) = [] /\
  snd (step GetInsights w2) = RInsights [] /\
  (insights_queue (controller w) = [] ->
   snd (step GetInsights w1) = RInsights (injected calls)).
Proof.
  intros H w1 w2.
  assert (E1 : snd (step GetInsights w1)
               = RInsights (insights_queue (controller w) ++ injected calls)).
  { unfold w1, step. destruct (get_insights (after calls w)) as [w' l] eqn:E.
    cbn. f_equal.
    pose proof (get_insights_spec (after calls w)) as [K _].
    rewrite E in K. cbn in K. rewrite K. now apply after_queue. }
  assert (E2 : insights_queue (controller w2) = []).
  { unfold w2, step. destruct (get_insights w1) as [w' l] eqn:E. cbn.
    pose proof (get_insights_spec w1) as [_ K]. now rewrite E in K. }
  repeat split; auto.
  - unfold step. destruct (get_insights w2) as [w' l] eqn:E. cbn. f_equal.
    pose proof (get_insights_spec w2) as [K _]. rewrite E in K. cbn in K.
    now rewrite K.
  - intros E0. now rewrite E1, E0.
Qed.

Lemma get_insights_returns_injected_witness :
  let calls := [InjectInsight 2; RequestPause "p"; InjectInsight 0; Checkpoint;
                InjectInsight 1; RequestResume] in
  snd (step GetInsights (after calls (fresh Sample.findings))) = RInsights [2; 0; 1].
Proof.
  intros calls.
  exact (proj2 (proj2 (proj2
    (get_insights_returns_injected calls (fresh Sample.findings) eq_refl))) eq_refl).
Defined.

(** *** Suspension and release *)

Lemma shutdown_effect w :
  shutdown_requested (shutdown w) = true /\ may_proceed (shutdown w) = true.
Proof.
  unfold shutdown_requested, may_proceed. open_world w. run_op.
  destruct re, se; auto.
Qed.

Lemma step_suspended_zero c w :
  is_checkpoint c = false -> suspended w = 0 ->
  suspended (fst (step c w)) = 0.
Proof.
  unfold suspended. intros Hc H. open_world w. cbn in H. subst.
  destruct c; try discriminate; run_op; try rewrite get_insights_loop_spec;
    try destruct k; try destruct ctx; destruct ip, pe, re, se; reflexivity.
Qed.

Lemma step_release c w :
  coherent w -> is_release c = true ->
  suspended (fst (step c w)) = 0 /\ may_proceed (fst (step c w)) = true /\
  resumable (fst (step c w)) = resumable w + suspended w.
Proof.
  unfold suspended, may_proceed. intros [_ _ _ H4 H5] Hc. open_world w.
  cbn in H4, H5.
  destruct c; try discriminate; run_op; destruct re; cbn.
  - rewrite (H5 eq_refl). destruct ip; cbn; auto.
  - rewrite (H4 eq_refl). cbn. auto.
  - rewrite (H5 eq_refl). auto.
  - auto.
Qed.

Lemma step_still_suspended c w :
  is_checkpoint c = false -> is_release c = false ->
  suspended (fst (step c w)) = suspended w.
Proof.
  unfold suspended. intros Hc Hr. open_world w.
  destruct c; try discriminate; run_op; try rewrite get_insights_loop_spec;
    try destruct k; try destruct ctx; destruct ip, pe, re, se; reflexivity.
Qed.

Lemma after_suspended_zero later w :
  forallb (fun c => negb (is_checkpoint c)) later = true ->
  suspended w = 0 -> suspended (after later w) = 0.
Proof.
  revert w. induction later as [|c later IH]; intros w H H0; [exact H0|].
  cbn [forallb] in H. apply andb_true_iff in H as [Hc H].
  rewrite after_cons. apply IH; [exact H|].
  apply step_suspended_zero; [now destruct (is_checkpoint c) | exact H0].
Qed.

Lemma after_release later w :
  coherent w -> 0 < suspended w ->
  forallb (fun c => negb (is_checkpoint c)) later = true ->
  (suspended (after later w) = 0 <-> existsb is_release later = true).
Proof.
  revert w. induction later as [|c later IH]; intros w Hw Hs H.
  - cbn. split; [lia | discriminate].
  - cbn [forallb existsb] in *. apply andb_true_iff in H as [Hc H].
    apply negb_true_iff in Hc. rewrite after_cons.
    destruct (is_release c) eqn:Hr; cbn.
    + split; [reflexivity | intros _].
      apply after_suspended_zero; [exact H|].
      now apply step_release.
    + apply IH; [now apply step_coherent | | exact H].
      now rewrite step_still_suspended.
Qed.

(** C2.  Take any state reached from a fresh Coordinator in which a
    [checkpoint] caller is suspended, and any further calls made while it is
    suspended (the suspended Consumer itself makes none).  The caller is
    released exactly when one of those calls is [request_resume] or
    [shutdown].  And [shutdown], in whatever state, leaves may-proceed raised
    and nobody suspended: every caller that was waiting is handed to the
    event loop. *)
Theorem suspended_consumer_released objs before later :
  let w := after before (fresh objs) in
  0 < suspended w ->
  forallb (fun c => negb (is_checkpoint c)) later = true ->
  (suspended (after later w) = 0 <-> existsb is_release later = true) /\
  (forall w', may_proceed (shutdown w') = true) /\
  suspended (shutdown w) = 0 /\
  resumable (shutdown w) = resumable w + suspended w.
Proof.
  intros w Hs H.
  assert (Hw : coherent w) by apply after_coherent, fresh_coherent.
  split; [now apply after_release|].
  split; [intros w'; apply shutdown_effect|].
  destruct (step_release Shutdown w Hw eq_refl) as (A & B & C). auto.
Qed.

Lemma suspended_consumer_released_witness :
  let w := after [RequestPause "bug"; Checkpoint] (fresh Sample.findings) in
  suspended w = 1 /\
  suspended (after [InjectInsight 0; RequestPause "again"] w) <> 0 /\
  suspended (after [InjectInsight 0; RequestResume] w) = 0 /\
  suspended (after [RequestPause "again"; Shutdown] w) = 0.
Proof.
  intros w.
  assert (Hs : 0 < suspended w) by (cbv; lia).
  split; [reflexivity|]. split; [|split].
  - intros E.
    apply (proj1 (suspended_consumer_released Sample.findings [RequestPause "bug"; Checkpoint]
             [InjectInsight 0; RequestPause "again"] Hs eq_refl)) in E.
    discriminate E.
  - apply (proj1 (suspended_consumer_released Sample.findings [RequestPause "bug"; Checkpoint]
             [InjectInsight 0; RequestResume] Hs eq_refl)). reflexivity.
  - apply (proj1 (suspended_consumer_released Sample.findings [RequestPause "bug"; Checkpoint]
             [RequestPause "again"; Shutdown] Hs eq_refl)). reflexivity.
Defined.

(** *** After shutdown *)

Lemma step_shutdown_stays c w :
  shutdown_requested w = true -> shutdown_requested (fst (step c w)) = true.
Proof.
  unfold shutdown_requested. intros H. open_world w. cbn in H. subst.
  destruct c; run_op; try rewrite get_insights_loop_spec;
    try destruct k; try destruct ctx; destruct ip, pe, re; reflexivity.
Qed.

Lemma after_shutdown_stays calls w :
  shutdown_requested w = true -> shutdown_requested (after calls w) = true.
Proof.
  revert w. induction calls as [|c calls IH]; intros w H; [exact H|].
  rewrite after_cons. now apply IH, step_shutdown_stays.
Qed.

Lemma step_may_proceed_stays c w :
  is_request_pause c = false ->
  may_proceed w = true -> may_proceed (fst (step c w)) = true.
Proof.
  unfold may_proceed. intros Hc H. open_world w. cbn in H. subst.
  destruct c; try discriminate; run_op; try rewrite get_insights_loop_spec;
    try destruct k; try destruct ctx; destruct ip, pe, se; reflexivity.
Qed.

Lemma after_may_proceed_stays calls w :
  forallb (fun c => negb (is_request_pause c)) calls = true ->
  may_proceed w = true -> may_proceed (after calls w) = true.
Proof.
  revert w. induction calls as [|c calls IH]; intros w H H0; [exact H0|].
  cbn [forallb] in H. apply andb_true_iff in H as [Hc H].
  apply negb_true_iff in Hc.
  rewrite after_cons. apply IH; [exact H|]. now apply step_may_proceed_stays.
Qed.

(** Whatever [checkpoint] returns once shutdown is requested is [False],
    at the call or when a suspended call is resumed. *)
Lemma step_returns_false c w b :
  shutdown_requested w = true ->
  snd (step c w) = RCheckpoint (Returns b) -> b = false.
Proof.
  unfold shutdown_requested. intros H. open_world w. cbn in H. subst.
  destruct c; run_op; try rewrite get_insights_loop_spec;
    try destruct k; try destruct ctx; destruct pe, re; cbn;
    intros E; try discriminate; now injection E.
Qed.

Lemma replies_false_after_shutdown calls w b :
  shutdown_requested w = true ->
  In (RCheckpoint (Returns b)) (replies calls w) -> b = false.
Proof.
  revert w. induction calls as [|c calls IH]; intros w H Hin.
  - destruct Hin.
  - rewrite replies_cons in Hin. destruct Hin as [E|Hin].
    + now apply (step_returns_false c w).
    + apply (IH (fst (step c w))); [now apply step_shutdown_stays | exact Hin].
Qed.

Lemma checkpoint_free w :
  shutdown_requested w = true -> may_proceed w = true ->
  snd (step Checkpoint w) = RCheckpoint (Returns false).
Proof.
  unfold shutdown_requested, may_proceed. intros H1 H2. open_world w.
  cbn in H1, H2. subst. run_op. destruct pe; reflexivity.
Qed.

(** C1, as the code has it.  Once [shutdown()] has been called, every
    [checkpoint()] that returns, at the call or after having been suspended,
    returns [False]; and a [checkpoint()] call does not suspend, whatever the
    pause state was when [shutdown()] was called, provided no
    [request_pause] has been called since the shutdown. *)
Theorem checkpoint_after_shutdown objs before later :
  let w := after (before ++ [Shutdown]) (fresh objs) in
  (forall b, In (RCheckpoint (Returns b)) (replies (later ++ [Checkpoint]) w) ->
             b = false) /\
  (forallb (fun c => negb (is_request_pause c)) later = true ->
   snd (step Checkpoint (after later w)) = RCheckpoint (Returns false)).
Proof.
  intros w.
  assert (Hw : shutdown_requested w = true /\ may_proceed w = true).
  { unfold w. rewrite after_app. cbn [after run fst step].
    apply shutdown_effect. }
  destruct Hw as [Hs Hm]. split.
  - intros b. now apply replies_false_after_shutdown.
  - intros H. apply checkpoint_free.
    + now apply after_shutdown_stays.
    + now apply after_may_proceed_stays.
Qed.

Lemma checkpoint_after_shutdown_witness :
  snd (step Checkpoint
         (after [InjectInsight 0; RequestResume; CheckpointResumed]
            (after ([RequestPause "bug"; Checkpoint] ++ [Shutdown])
               (fresh Sample.findings))))
  = RCheckpoint (Returns false).
Proof.
  exact (proj2 (checkpoint_after_shutdown Sample.findings
                  [RequestPause "bug"; Checkpoint]
                  [InjectInsight 0; RequestResume; CheckpointResumed]) eq_refl).
Defined.

(** C1 as stated fails: a [request_pause] that comes after [shutdown()]
    finds the Coordinator unpaused, lowers may-proceed again, and the next
    [checkpoint()] suspends instead of returning [False]. *)
Lemma checkpoint_after_shutdown_suspends :
  let calls := [Shutdown; RequestPause "late finding"] in
  shutdown_requested (after calls (fresh Sample.findings)) = true /\
  snd (step Checkpoint (after calls (fresh Sample.findings))) = RCheckpoint Suspends /\
  snd (step Checkpoint (after calls (fresh Sample.findings)))
    <> RCheckpoint (Returns false).
Proof. cbv. repeat split. discriminate. Qed.

(** ** The severity policy of the Detector loop *)

Lemma coordinator_calls_app l1 l2 :
  coordinator_calls (l1 ++ l2) = coordinator_calls l1 ++ coordinator_calls l2.
Proof.
  induction l1 as [|[c|n] l1 IH]; cbn; [reflexivity | now rewrite IH | exact IH].
Qed.

Lemma injected_app l1 l2 : injected (l1 ++ l2) = injected l1 ++ injected l2.
Proof.
  induction l1 as [|c l1 IH]; [reflexivity|].
  rewrite <- app_comm_cons, injected_cons, (injected_cons c l1), IH.
  now rewrite app_assoc.
Qed.

Lemma process_insight_injects insight o :
  injected (coordinator_calls (process_insight insight o)) =
  if acted_on o then [insight] else [].
Proof.
  unfold process_insight, acted_on. cbn [existsb].
  destruct (String.eqb (severity o) "high"); [reflexivity|].
  destruct (String.eqb (severity o) "critical"); [reflexivity|].
  cbn. destruct (String.eqb (severity o) "medium"); reflexivity.
Qed.

Lemma process_insights_injects objs all_insights :
  injected (coordinator_calls (process_insights objs all_insights)) =
  filter (fun r => match deref objs r with
                   | Some o => acted_on o
                   | None => false
                   end) all_insights.
Proof.
  induction all_insights as [|r l IH]; [reflexivity|].
  cbn [process_insights flat_map filter].
  rewrite coordinator_calls_app, injected_app. fold (process_insights objs l).
  rewrite IH. destruct (deref objs r) as [o|]; [|reflexivity].
  rewrite process_insight_injects. now destruct (acted_on o).
Qed.

Lemma policy_never_drains objs all_insights :
  forallb (fun c => negb (is_get_insights c))
    (coordinator_calls (process_insights objs all_insights)) = true.
Proof.
  induction all_insights as [|r l IH]; [reflexivity|].
  cbn [process_insights flat_map]. rewrite coordinator_calls_app, forallb_app.
  fold (process_insights objs l). rewrite IH, andb_true_r.
  destruct (deref objs r) as [o|]; [|reflexivity].
  unfold process_insight.
  destruct (existsb _ _); [reflexivity|].
  destruct (String.eqb _ _); reflexivity.
Qed.



(** ** The import scan *)

Lemma split_max_head sep m s :
  nth 0 (Str.split_max sep (S m) s) EmptyString = before sep s.
Proof.
  induction s as [|c s IH]; [reflexivity|].
  cbn [Str.split_max before]. destruct (Ascii.eqb c sep); [reflexivity|].
  destruct (Str.split_max sep (S m) s) as [|p ps]; cbn in *; now rewrite <- IH.
Qed.

Lemma before_prefix sep s :
  exists rest, s = (before sep s ++ rest)%string /\
               (rest = EmptyString \/ exists r, rest = String sep r).
Proof.
  induction s as [|c s (rest & E & H)]; cbn.
  - exists EmptyString. auto.
  - destruct (Ascii.eqb_spec c sep) as [->|_].
    + exists (String sep s). split; [reflexivity|]. right. now exists s.
    + exists rest. cbn. now rewrite <- E.
Qed.

Lemma before_free sep s : Str.contains (String sep EmptyString) (before sep s) = false.
Proof.
  induction s as [|c s IH]; [reflexivity|].
  cbn [before]. destruct (Ascii.eqb_spec c sep) as [->|N]; [reflexivity|].
  cbn [Str.contains String.prefix]. rewrite IH.
  destruct (ascii_dec sep c) as [E|_]; [now elim N | reflexivity].
Qed.

Section ImportScan.

Variable now : datetime.
Variable rglob : string -> list string.
Variable parse : string -> parse_result.
Variable stdlib_module_names : option (string -> bool).
Variable __import__ : string -> import_result.

(** [top_level] is the package in front of the first dot. *)
Lemma top_level_spec module_name :
  top_level module_name = before "."%char module_name.
Proof.
  unfold top_level, Str.split. destruct module_name as [|c s]; [reflexivity|].
  cbn [String.length]. apply split_max_head.
Qed.

Lemma collect_names (lineno : Z) (names : list string) acc :
  fold_left (fun acc name => acc ++ [(name, lineno)]) names acc
  = acc ++ map (fun name : string => (name, lineno)) names.
Proof.
  revert acc. induction names as [|n names IH]; intros acc; cbn.
  - now rewrite app_nil_r.
  - now rewrite IH, <- app_assoc.
Qed.

Lemma collect_imports walk acc :
  fold_left collect_import walk acc = acc ++ import_references walk.
Proof.
  revert acc. induction walk as [|node walk IH]; intros acc.
  - cbn. now rewrite app_nil_r.
  - cbn [fold_left import_references flat_map]. rewrite IH.
    fold (import_references walk). rewrite app_assoc. f_equal.
    destruct node as [names lineno|[[|c m]|] [[|n]|] lineno|]; cbn;
      rewrite ?app_nil_r; try reflexivity.
    apply collect_names.
Qed.

Lemma check_imports py_file references acc :
  fold_left (check_import now stdlib_module_names __import__ py_file) references acc
  = acc ++ flat_map (findings_of_reference now stdlib_module_names __import__ py_file)
             references.
Proof.
  revert acc. induction references as [|[m l] references IH]; intros acc.
  - cbn. now rewrite app_nil_r.
  - cbn [fold_left flat_map]. rewrite IH, app_assoc. f_equal.
    unfold check_import, findings_of_reference, standard_library.
    destruct (match stdlib_module_names with Some _ => _ | None => _ end);
      [now rewrite app_nil_r|].
    destruct (__import__ m) as [|e|e []]; now rewrite ?app_nil_r.
Qed.

Lemma check_files files acc :
  fold_left (check_file_imports now parse stdlib_module_names __import__) files acc
  = acc ++ flat_map (findings_of_file now parse stdlib_module_names __import__) files.
Proof.
  revert acc. induction files as [|f files IH]; intros acc.
  - cbn. now rewrite app_nil_r.
  - cbn [fold_left flat_map]. rewrite IH, app_assoc. f_equal.
    unfold check_file_imports, findings_of_file.
    destruct (parse f); rewrite ?app_nil_r; try reflexivity.
    now rewrite collect_imports, check_imports.
Qed.

(** The scan yields, file by file and reference by reference, what each
    reference owes. *)
Lemma check_missing_imports_spec :
  _check_missing_imports now rglob parse stdlib_module_names __import__
  = flat_map (findings_of_file now parse stdlib_module_names __import__) (rglob "*.py").
Proof. unfold _check_missing_imports. now rewrite check_files. Qed.

Lemma findings_of_reference_file py_file reference f :
  In f (findings_of_reference now stdlib_module_names __import__ py_file reference) ->
  file_path f = Some py_file.
Proof.
  destruct reference as [m l]. unfold findings_of_reference.
  destruct (standard_library stdlib_module_names m); [intros []|].
  destruct (__import__ m) as [|e|e []]; cbn; intros H; try tauto;
    destruct H as [<-|[]]; reflexivity.
Qed.

(** C7, as the code has it.  For a source file that parses and a reference
    in it to a module outside the standard library: when importing the
    module raises [ImportError], because the module is not found or because
    its own code raises one while it is loaded, the scan yields a
    [missing_import] finding of severity [high] for that file and line whose
    remedy names the package in front of the first dot of the module's name;
    when the module's code raises another exception, the scan yields an
    [import_error] finding of severity [medium].  Every finding of the scan
    is for a file that parsed, so a file that does not parse yields none. *)
Theorem import_scan_findings py_file walk module_name lineno :
  In py_file (rglob "*.py") ->
  parse py_file = Parsed walk ->
  In (module_name, lineno) (import_references walk) ->
  standard_library stdlib_module_names module_name = false ->
  let found := _check_missing_imports now rglob parse stdlib_module_names __import__ in
  (forall e, __import__ module_name = NotFound e \/
             __import__ module_name = LoadingRaises e true ->
     exists f, In f found /\
       bug_type f = "missing_import"%string /\ severity f = "high"%string /\
       file_path f = Some py_file /\ line_number f = Some lineno /\
       suggested_fix f =
         Some ("Install missing package: pip install "
                 ++ before "."%char module_name)%string) /\
  (forall e, __import__ module_name = LoadingRaises e false ->
     exists f, In f found /\
       bug_type f = "import_error"%string /\ severity f = "medium"%string /\
       file_path f = Some py_file /\ line_number f = Some lineno) /\
  (forall f p, In f found -> file_path f = Some p ->
     exists walk', parse p = Parsed walk') /\
  (forall p, parse p = SyntaxError \/ parse p = OtherParseError ->
     forall acc, check_file_imports now parse stdlib_module_names __import__ acc p = acc).
Proof.
  intros Hfile Hparse Href Hstd found.
  assert (Hin : forall f,
             In f (findings_of_reference now stdlib_module_names __import__ py_file
                     (module_name, lineno)) ->
             In f found).
  { intros f Hf. unfold found. rewrite check_missing_imports_spec.
    apply in_flat_map. exists py_file. split; [exact Hfile|].
    unfold findings_of_file. rewrite Hparse.
    apply in_flat_map. exists (module_name, lineno). now split. }
  split; [|split; [|split]].
  - intros e He. exists (missing_import now py_file module_name lineno e).
    split.
    + apply Hin. unfold findings_of_reference. rewrite Hstd.
      destruct He as [->| ->]; now left.
    + cbn. rewrite top_level_spec. repeat split.
  - intros e He. exists (import_error now py_file module_name lineno e).
    split.
    + apply Hin. unfold findings_of_reference. rewrite Hstd, He. now left.
    + cbn. repeat split.
  - intros f p Hf Hp. unfold found in Hf. rewrite check_missing_imports_spec in Hf.
    apply in_flat_map in Hf as (q & _ & Hq). unfold findings_of_file in Hq.
    destruct (parse q) as [walk'| |] eqn:E; try now destruct Hq.
    apply in_flat_map in Hq as (reference & _ & Hq).
    apply findings_of_reference_file in Hq. rewrite Hq in Hp.
    injection Hp as <-. now exists walk'.
  - intros p [E|E] acc; unfold check_file_imports; now rewrite E.
Qed.

End ImportScan.

(** ** The linter pass *)

Lemma Forall2_map_self {A B : Type} (g : A -> B) (R : B -> A -> Prop) (l : list A) :
  (forall x, R (g x) x) -> Forall2 R (map g l) l.
Proof. intros H. induction l; constructor; auto. Qed.

Section LinterPass.

Variable now : datetime.
Variable rglob : string -> list string.
Variable _run_command : list string -> CompletedProcess.



(** An output line that has the shape of a diagnostic but whose line or
    column field is not a number makes [int()] raise, and the whole output
    of that run is lost. *)
Lemma parse_linter_lines_raises lines insights line :
  In line lines -> diagnostic line = true -> numbered line = false ->
  parse_linter_lines now insights lines = ValueError.
Proof.
  revert insights. induction lines as [|l lines IH]; intros insights Hin Hd Hn.
  - destruct Hin.
  - cbn [parse_linter_lines].
    destruct (parse_linter_line now insights l) as [ins'|] eqn:E; [|reflexivity].
    destruct Hin as [->|Hin]; [|now apply IH].
    exfalso. revert E Hd Hn.
    unfold parse_linter_line, diagnostic, numbered.
    destruct line as [|c line]; [discriminate|].
    replace (String.eqb (String c line) "") with false by reflexivity.
    cbn [negb andb]. intros E Hd. rewrite Hd in E.
    destruct (Str.int (nth 1 _ _)); [|discriminate].
    destruct (Str.int (nth 2 _ _)); discriminate.
Qed.

Lemma stdout_empty_lines : filter diagnostic (output_lines "") = [].
Proof. reflexivity. Qed.

(** Only the flake8 format is parsed. *)
Lemma parse_linter_output_other stdout stderr linter_type :
  linter_type <> "python"%string ->
  _parse_linter_output now stdout stderr linter_type = Value [].
Proof.
  intros H. unfold _parse_linter_output.
  destruct (String.eqb_spec linter_type "python"); [contradiction | reflexivity].
Qed.

Lemma run_linter_other insights file_type linter_cmd :
  file_type <> "python"%string ->
  run_linter now rglob _run_command insights (file_type, linter_cmd) = insights.
Proof.
  intros H. unfold run_linter.
  destruct (_find_files_by_type rglob file_type); [reflexivity|].
  destruct (negb _); [|reflexivity].
  rewrite parse_linter_output_other by exact H. apply app_nil_r.
Qed.



End LinterPass.

(** ** The Supervisor *)

Lemma get_insights_eq w :
  get_insights w =
  (with_controller
     (mkController (pause_event (controller w)) (resume_event (controller w))
        (shutdown_event (controller w)) [] (agent_context (controller w))
        (is_paused (controller w)) (pause_reason (controller w))
        (agent_turn_count (controller w))) w,
   insights_queue (controller w)).
Proof. unfold get_insights. now rewrite get_insights_loop_spec. Qed.

(** Runs the Supervisor's coroutines on a state whose tasks are known. *)
Ltac supervisor_steps :=
  cbv beta iota zeta delta
    [AgentOrchestrator.shutdown AgentOrchestrator.bind AgentOrchestrator.ret
     AgentOrchestrator.raise AgentOrchestrator.try_except
     AgentOrchestrator.controller_shutdown AgentOrchestrator.on_shared
     AgentOrchestrator.get AgentOrchestrator.set_is_running
     AgentOrchestrator.set_coding_task AgentOrchestrator.set_bug_finder_task
     AgentOrchestrator.await_bug_finder_task
     AgentOrchestrator.await_cancelled_coding_task AgentOrchestrator.await_done
     AgentOrchestrator.cancel AgentOrchestrator.done
     AgentOrchestrator.throw_into_coding AgentOrchestrator.throw_into_detector
     AgentOrchestrator.detector_handlers AgentOrchestrator.catches
     AgentOrchestrator.isinstance_Exception
     AgentOrchestrator.isinstance_CancelledError
     AgentOrchestrator.shared AgentOrchestrator.coding_task
     AgentOrchestrator.bug_finder_task AgentOrchestrator.is_running
     AgentOrchestrator.get_status
     existsb negb orb option_map settled fst snd].

(** Cancellation gets through every handler of the Detector loop. *)
Lemma throw_into_detector_done p :
  AgentOrchestrator.throw_into_detector p
  = AgentOrchestrator.Done (AgentOrchestrator.Raised AgentOrchestrator.CancelledError).
Proof. destruct p; reflexivity. Qed.

(** The Supervisor's [shutdown] returns normally from every state, with
    the Coordinator shut down and each task done: as it was if it was done,
    cancelled if it was not. *)
Lemma supervisor_shutdown_completes winds_down s :
  let '(r, s') := AgentOrchestrator.shutdown winds_down s in
  r = AgentOrchestrator.Ok tt /\
  shutdown_requested (AgentOrchestrator.shared s') = true /\
  AgentOrchestrator.shared s' = shutdown (AgentOrchestrator.shared s) /\
  AgentOrchestrator.coding_task s'
    = option_map settled (AgentOrchestrator.coding_task s) /\
  AgentOrchestrator.bug_finder_task s'
    = option_map settled (AgentOrchestrator.bug_finder_task s) /\
  AgentOrchestrator.is_running s' = false.
Proof.
  destruct s as [w ct bt running].
  pose proof (shutdown_effect w) as [Hs _].
  destruct ct as [[[]|rc|[]]|], bt as [[[]|rb|[]]|], winds_down;
    supervisor_steps; repeat split; exact Hs.
Qed.




(** ** Findings are never changed *)

Lemma step_objects c w : objects (fst (step c w)) = objects w.
Proof.
  open_world w. destruct c; run_op; try rewrite get_insights_loop_spec;
    try destruct k; try destruct ctx; destruct ip, pe, re, se; reflexivity.
Qed.

Lemma after_objects calls w : objects (after calls w) = objects w.
Proof.
  revert w. induction calls as [|c calls IH]; intros w; [reflexivity|].
  now rewrite after_cons, IH, step_objects.
Qed.

(** Every activity leaves the objects that exist as they are; the only one
    that touches the store at all puts a new object behind them. *)
Lemma perform_objects a s :
  exists added,
    objects (AgentOrchestrator.shared (perform a s))
    = objects (AgentOrchestrator.shared s) ++ added.
Proof.
  destruct a; cbn [perform].
  - eexists [_]. reflexivity.
  - exists []. cbn. now rewrite step_objects, app_nil_r.
  - exists []. cbn. now rewrite after_objects, app_nil_r.
  - exists []. destruct s as [w ct bt running].
    unfold AgentOrchestrator.enhanced_statement, AgentOrchestrator.bind,
      AgentOrchestrator.on_shared.
    rewrite get_insights_eq. cbn. now rewrite app_nil_r.
  - exists []. now rewrite app_nil_r.
  - exists [].
    pose proof (supervisor_shutdown_completes detector_winds_down s) as K.
    destruct (AgentOrchestrator.shutdown detector_winds_down s) as [r s'].
    destruct K as (_ & _ & K & _). cbn [snd]. rewrite K, app_nil_r.
    change (shutdown (AgentOrchestrator.shared s))
      with (fst (step Shutdown (AgentOrchestrator.shared s))).
    apply step_objects.
Qed.

Lemma perform_deref a s r o :
  deref (objects (AgentOrchestrator.shared s)) r = Some o ->
  deref (objects (AgentOrchestrator.shared (perform a s))) r = Some o.
Proof.
  intros H. destruct (perform_objects a s) as [added ->].
  unfold deref in *. rewrite nth_error_app1; [exact H|].
  apply nth_error_Some. now rewrite H.
Qed.

Lemma perform_all_deref l s r o :
  deref (objects (AgentOrchestrator.shared s)) r = Some o ->
  deref (objects (AgentOrchestrator.shared (perform_all l s))) r = Some o.
Proof.
  revert s. induction l as [|a l IH]; intros s H; [exact H|].
  cbn. now apply IH, perform_deref.
Qed.

(** C9.  Whatever the Coordinator, the Detector loop and the Supervisor do,
    in whatever order, an object that exists keeps every field it has.  An
    object that a detector constructs gets its timestamp at construction (the
    one passed in, else the clock reading) and keeps it with all the rest
    from then on. *)
Theorem findings_never_change l s r o :
  deref (objects (AgentOrchestrator.shared s)) r = Some o ->
  deref (objects (AgentOrchestrator.shared (perform_all l s))) r = Some o /\
  (forall now bug_type description severity file_path line_number suggested_fix
          created later,
     let s1 := perform (Construct now bug_type description severity file_path
                          line_number suggested_fix created) (perform_all l s) in
     let r1 := List.length (objects (AgentOrchestrator.shared (perform_all l s))) in
     exists o1,
       deref (objects (AgentOrchestrator.shared s1)) r1 = Some o1 /\
       timestamp o1 = Some (match created with Some t => t | None => now end) /\
       deref (objects (AgentOrchestrator.shared (perform_all later s1))) r1 = Some o1).
Proof.
  intros H. split; [now apply perform_all_deref|].
  intros now bt d sev fp ln sf created later s1 r1.
  exists (BugInsight_init now bt d sev fp ln sf created).
  assert (E : deref (objects (AgentOrchestrator.shared s1)) r1
              = Some (BugInsight_init now bt d sev fp ln sf created)).
  { unfold s1, r1, deref. cbn [perform AgentOrchestrator.shared objects alloc fst].
    rewrite nth_error_app2 by auto. now rewrite Nat.sub_diag. }
  split; [exact E|]. split.
  - unfold BugInsight_init, __post_init__. cbn. now destruct created.
  - now apply perform_all_deref.
Qed.

Lemma findings_never_change_witness :
  let s := AgentOrchestrator.init Sample.findings in
  let l := [ Policy [0; 1; 2]; Call Checkpoint; Enhance "task"; Call GetInsights;
             Call GetContextSummary; Status; SupervisorShutdown true ] in
  deref (objects (AgentOrchestrator.shared (perform_all l s))) 1
  = Some (mkBugInsight "test_failure" "Tests failed: " "high" None None
            (Some "Review test failures and fix implementation"%string) (Some 11)).
Proof.
  intros s l.
  exact (proj1 (findings_never_change l s 1 _ eq_refl)).
Defined.

(** ** The two detectors on the sample workspaces *)

Lemma import_scan_findings_witness :
  let found := _check_missing_imports 0 Sample.rglob Sample.parse
                 Sample.stdlib_module_names Sample.__import__ in
  (exists f, In f found /\
     bug_type f = "missing_import"%string /\ severity f = "high"%string /\
     file_path f = Some "app.py"%string /\ line_number f = Some 2%Z /\
     suggested_fix f =
       Some "Install missing package: pip install nonexistent_module_xyz"%string) /\
  (exists f, In f found /\
     bug_type f = "import_error"%string /\ severity f = "medium"%string /\
     file_path f = Some "app.py"%string /\ line_number f = Some 3%Z).
Proof.
  intros found. split.
  - exact (proj1 (import_scan_findings 0 Sample.rglob Sample.parse
                    Sample.stdlib_module_names Sample.__import__
                    "app.py" _ "nonexistent_module_xyz" 2
                    (or_introl eq_refl) eq_refl (or_intror (or_introl eq_refl)) eq_refl)
                 _ (or_introl eq_refl)).
  - exact (proj1 (proj2 (import_scan_findings 0 Sample.rglob Sample.parse
                    Sample.stdlib_module_names Sample.__import__
                    "app.py" _ "yaml.loader" 3
                    (or_introl eq_refl) eq_refl
                    (or_intror (or_intror (or_introl eq_refl))) eq_refl))
                 _ eq_refl).
Defined.



(** C7 as stated fails where a module is found but raises [ImportError]
    while it is loaded: the reference [helper] of [app.py] resolves, loading
    it raises, and the scan reports it as [missing_import] with severity
    [high] (and the remedy [pip install helper]); no [import_error] finding
    of severity [medium] is made for it. *)
Lemma import_scan_loading_failure :
  let found := _check_missing_imports 0 Sample.rglob_helper Sample.parse_helper
                 None Sample.import_helper in
  Sample.import_helper "helper" = LoadingRaises "No module named 'missing_dep'" true /\
  map (fun f => (bug_type f, severity f, file_path f, suggested_fix f)) found
  = [ ("missing_import", "high", Some "app.py",
       Some "Install missing package: pip install helper");
      ("missing_import", "high", Some "helper.py",
       Some "Install missing package: pip install missing_dep") ]%string /\
  ~ (exists f, In f found /\ bug_type f = "import_error"%string).
Proof.
  cbv zeta. split; [reflexivity|]. split; [reflexivity|].
  intros (f & Hf & Hb). vm_compute in Hf.
  destruct Hf as [<-|[<-|[]]]; discriminate Hb.
Qed.

(* ================================================================== *)
(** * Further properties of the Coordinator                            *)
(* ================================================================== *)

Lemma str_app_nil_r (s : string) : (s ++ "")%string = s.
Proof. induction s as [|c s IH]; cbn; [reflexivity | now rewrite IH]. Qed.

Lemma str_app_assoc (s1 s2 s3 : string) :
  ((s1 ++ s2) ++ s3)%string = (s1 ++ s2 ++ s3)%string.
Proof. induction s1 as [|c s1 IH]; cbn; [reflexivity | now rewrite IH]. Qed.

Lemma str_length_app (s1 s2 : string) :
  String.length (s1 ++ s2) = String.length s1 + String.length s2.
Proof. induction s1 as [|c s1 IH]; cbn; [reflexivity | now rewrite IH]. Qed.

Lemma str_prefix_app (s1 s2 : string) : String.prefix s1 (s1 ++ s2) = true.
Proof.
  induction s1 as [|c s1 IH]; cbn; [now destruct s2|].
  destruct (ascii_dec c c) as [_|N]; [exact IH | now elim N].
Qed.

Lemma after_fresh_no_stray_waiter calls objs :
  no_stray_waiter (after calls (fresh objs)).
Proof.
  assert (H : forall w, no_stray_waiter w -> no_stray_waiter (after calls w)).
  { induction calls as [|c calls IH]; intros w Hw; [exact Hw|].
    rewrite after_cons. apply IH. destruct Hw as [H1 H2]. open_world w.
    cbn in H1, H2. subst.
    destruct c; run_op; try rewrite get_insights_loop_spec;
      try destruct k; try destruct ctx; destruct ip, pe, re, se;
      split; reflexivity. }
  apply H. split; reflexivity.
Qed.

(** X1.  [agent_turn_count] counts the [checkpoint] calls: after any calls
    it has grown by the number of [checkpoint] calls among them, whether
    they returned or suspended, and by nothing else. *)
Theorem turn_count_counts_checkpoints calls w :
  agent_turn_count (controller (after calls w))
  = agent_turn_count (controller w) + List.length (filter is_checkpoint calls).
Proof.
  revert w. induction calls as [|c calls IH]; intros w; [cbn; lia|].
  rewrite after_cons, IH. cbn [filter].
  assert (E : agent_turn_count (controller (fst (step c w)))
              = agent_turn_count (controller w) + if is_checkpoint c then 1 else 0).
  { open_world w. destruct c; run_op; try rewrite get_insights_loop_spec;
      try destruct k; try destruct ctx; destruct ip, pe, re, se; cbn; lia. }
  rewrite E. destruct (is_checkpoint c); cbn [List.length]; lia.
Qed.

Lemma step_context c w :
  agent_context (controller (fst (step c w)))
  = agent_context (controller w) ++ map (mirrored (objects w)) (injected [c]).
Proof.
  open_world w. destruct c; run_op; try rewrite get_insights_loop_spec;
    try destruct k; try destruct ctx; destruct ip, pe, re, se; cbn;
    now rewrite ?app_nil_r.
Qed.

(** X2.  The context log only grows, and only by [inject_insight]: after
    any calls it is the log from before followed by one entry per injected
    finding, in injection order, each with the reference and the timestamp
    of the finding.  In particular [get_insights] takes nothing from it. *)
Theorem context_log_mirrors_injections calls w :
  agent_context (controller (after calls w))
  = agent_context (controller w) ++ map (mirrored (objects w)) (injected calls).
Proof.
  revert w. induction calls as [|c calls IH]; intros w.
  - cbn. now rewrite app_nil_r.
  - rewrite after_cons, IH, step_context, step_objects, (injected_cons c calls),
      map_app, app_assoc. reflexivity.
Qed.

Lemma last_n_app {A : Type} (n : nat) (older recent : list A) :
  List.length recent = n -> last_n n (older ++ recent) = recent.
Proof.
  intros H. unfold last_n. rewrite length_app, H, Nat.add_sub.
  rewrite skipn_app, skipn_all, Nat.sub_diag. reflexivity.
Qed.

Lemma summary_entry_grows objs summary entry :
  exists more, summary_entry objs summary entry = (summary ++ more)%string.
Proof.
  unfold summary_entry. destruct (String.eqb _ _).
  - destruct (deref objs _) as [o|].
    + destruct (suggested_fix o) as [[|c r]|]; cbn [Str.truthy].
      * eexists. reflexivity.
      * eexists. rewrite str_app_assoc. reflexivity.
      * eexists. reflexivity.
    + exists EmptyString. now rewrite str_app_nil_r.
  - exists EmptyString. now rewrite str_app_nil_r.
Qed.

Lemma summary_fold_grows objs entries summary :
  exists more,
    fold_left (summary_entry objs) entries summary = (summary ++ more)%string.
Proof.
  revert summary. induction entries as [|e entries IH]; intros summary.
  - exists EmptyString. cbn. now rewrite str_app_nil_r.
  - cbn [fold_left]. destruct (summary_entry_grows objs summary e) as [m1 ->].
    destruct (IH (summary ++ m1)%string) as [m2 ->].
    exists (m1 ++ m2)%string. now rewrite str_app_assoc.
Qed.

(** X3.  [get_context_summary] changes nothing.  It answers
    "No additional context." exactly when nothing was ever injected;
    otherwise its text begins with the header, and it is made from the last
    five entries of the log alone: whatever came before them has no part in
    it. *)
Theorem context_summary_of_last_five w :
  fst (get_context_summary w) = w /\
  (snd (get_context_summary w) = "No additional context."%string
   <-> agent_context (controller w) = []) /\
  (agent_context (controller w) <> [] ->
   exists more, snd (get_context_summary w) = (summary_header ++ more)%string) /\
  (forall older recent,
     agent_context (controller w) = older ++ recent ->
     List.length recent = 5 ->
     snd (get_context_summary w)
     = fold_left (summary_entry (objects w)) recent summary_header).
Proof.
  unfold get_context_summary.
  destruct (agent_context (controller w)) as [|e ctx] eqn:E.
  - repeat split; try reflexivity; try congruence.
    intros older recent H. destruct older, recent; discriminate.
  - cbn [fst snd]. fold summary_header.
    destruct (summary_fold_grows (objects w) (last_n 5 (e :: ctx)) summary_header)
      as [more Hm].
    repeat split.
    + rewrite Hm. discriminate.
    + discriminate.
    + intros _. now exists more.
    + intros older recent -> H5. now rewrite last_n_app.
Qed.

(** X4.  Pausing and resuming is a round trip: in a state reached from a
    fresh Coordinator that is not paused, [request_pause] followed by
    [request_resume] gives back the very same state (signals, reason,
    mailbox, log, turn count). *)
Theorem pause_resume_round_trip objs calls reason :
  let w := after calls (fresh objs) in
  paused w = false ->
  request_resume (request_pause reason w) = w.
Proof.
  intros w H.
  pose proof (after_coherent calls (fresh objs) (fresh_coherent objs))
    as [H1 H2 _ H4 H5].
  pose proof (after_fresh_no_stray_waiter calls objs) as [N1 _].
  fold w in H1, H2, H4, H5, N1. unfold paused in H. revert H H1 H2 H4 H5 N1.
  generalize w. clear w. intros w. open_world w. cbn. intros -> H1 H2 H4 H5 ->.
  destruct re; [|specialize (H4 eq_refl); discriminate H4].
  destruct reason0 as [r|];
    [assert (F : false = true) by (apply H2; discriminate); discriminate F|].
  rewrite (H5 eq_refl). run_op. rewrite <- H1. cbn. now rewrite Nat.add_0_r.
Qed.

Lemma pause_resume_round_trip_witness :
  let w := after [InjectInsight 1; RequestPause "a"; Checkpoint; RequestResume;
                  CheckpointResumed] (fresh Sample.findings) in
  request_resume (request_pause "b" w) = w.
Proof.
  intros w.
  exact (pause_resume_round_trip Sample.findings
           [InjectInsight 1; RequestPause "a"; Checkpoint; RequestResume;
            CheckpointResumed] "b" eq_refl).
Defined.

(** X5.  Shutdown is final and harmless to repeat: no call lowers
    shutdown-requested again, a second [shutdown] changes nothing, and
    [shutdown] leaves the pause state, the mailbox, the log and the turn
    count as they were. *)
Theorem shutdown_is_final w calls :
  shutdown_requested (after calls (shutdown w)) = true /\
  shutdown (shutdown w) = shutdown w /\
  is_paused (controller (shutdown w)) = is_paused (controller w) /\
  pause_reason (controller (shutdown w)) = pause_reason (controller w) /\
  pause_event (controller (shutdown w)) = pause_event (controller w) /\
  insights_queue (controller (shutdown w)) = insights_queue (controller w) /\
  agent_context (controller (shutdown w)) = agent_context (controller w) /\
  agent_turn_count (controller (shutdown w)) = agent_turn_count (controller w).
Proof.
  split; [apply after_shutdown_stays, shutdown_effect|].
  open_world w. run_op. destruct re, se; cbn; rewrite ?Nat.add_0_r; repeat split.
Qed.

Lemma step_accounting c w :
  coherent w ->
  suspended (fst (step c w)) + resumable (fst (step c w)) + woke c (snd (step c w))
  = suspended w + resumable w + parked c (snd (step c w)).
Proof.
  unfold suspended. intros [_ _ _ H4 H5]. open_world w. cbn in H4, H5.
  destruct c; run_op; try rewrite get_insights_loop_spec;
    try destruct k; try destruct ctx; destruct ip, pe, re, se; cbn;
    try rewrite (H5 eq_refl); try lia;
    specialize (H4 eq_refl); discriminate H4.
Qed.

(** X6.  No wake-up is lost and none comes twice.  From a fresh
    Coordinator, at any time, the [checkpoint] calls that have suspended are
    as many as those still suspended, plus those released and waiting for
    the event loop, plus those that were resumed and have returned. *)
Theorem wakeups_accounted objs calls :
  let w := after calls (fresh objs) in
  suspensions calls (replies calls (fresh objs))
  = suspended w + resumable w + resumptions calls (replies calls (fresh objs)).
Proof.
  assert (H : forall w0, coherent w0 ->
            suspensions calls (replies calls w0) + suspended w0 + resumable w0
            = suspended (after calls w0) + resumable (after calls w0)
              + resumptions calls (replies calls w0)).
  { induction calls as [|c calls IH]; intros w0 Hw; [cbn; lia|].
    rewrite replies_cons, after_cons. cbn [suspensions resumptions].
    pose proof (step_accounting c w0 Hw) as E.
    pose proof (IH (fst (step c w0)) (step_coherent c w0 Hw)) as K.
    lia. }
  intros w. specialize (H (fresh objs) (fresh_coherent objs)).
  unfold w. cbn in H. lia.
Qed.

(** A state reached from a fresh Coordinator in which the Consumer may run. *)
Lemma running_state objs calls :
  let w := after calls (fresh objs) in
  paused w = false -> shutdown_requested w = false ->
  pause_requested w = false /\ may_proceed w = true /\ suspended w = 0.
Proof.
  intros w Hp Hs.
  pose proof (after_coherent calls (fresh objs) (fresh_coherent objs))
    as [H1 _ H3 _ H5].
  fold w in H1, H3, H5. unfold paused, shutdown_requested, pause_requested,
    may_proceed, suspended in *.
  rewrite <- H1, Hp. rewrite (H3 Hs), Hp in *. auto.
Qed.

Lemma process_high objs insight o :
  deref objs insight = Some o ->
  severity o = "high"%string \/ severity o = "critical"%string ->
  process_insights objs [insight]
  = [ Coordinator (RequestPause ("Critical bug detected: " ++ bug_type o)%string);
      Coordinator (InjectInsight insight); Sleep 1; Coordinator RequestResume ].
Proof.
  intros H Hs. cbn [process_insights flat_map]. rewrite H, app_nil_r.
  unfold process_insight. destruct Hs as [-> | ->]; reflexivity.
Qed.

(** X7.  The pause window works as a handshake.  When the Consumer may run
    and the policy loop handles a [high] or [critical] finding, a
    [checkpoint] call made during the loop's sleep suspends; the
    [request_resume] that ends the sleep releases it; once resumed it
    returns [True], and so does the next [checkpoint], without suspending. *)
Theorem pause_window_handshake objs calls insight o :
  let w := after calls (fresh objs) in
  paused w = false -> shutdown_requested w = false ->
  deref objs insight = Some o ->
  severity o = "high"%string \/ severity o = "critical"%string ->
  replies (schedule (process_insights objs [insight]) [[Checkpoint]]
             ++ [CheckpointResumed; Checkpoint]) w
  = [ RNone; RNone; RCheckpoint Suspends; RNone; RCheckpoint (Returns true);
      RCheckpoint (Returns true) ].
Proof.
  intros w Hp Hs Ho Hsev.
  destruct (running_state objs calls Hp Hs) as (A & B & C).
  fold w in A, B, C. rewrite (process_high objs insight o Ho Hsev).
  unfold paused, shutdown_requested, pause_requested, may_proceed, suspended in *.
  revert Hp Hs A B C. generalize w. clear w. intros w. open_world w. cbn.
  intros -> -> -> -> ->. unfold replies. cbn. rewrite ?Nat.add_0_r, Nat.add_1_r.
  reflexivity.
Qed.

Lemma pause_window_handshake_witness :
  replies (schedule (process_insights Sample.findings [1]) [[Checkpoint]]
             ++ [CheckpointResumed; Checkpoint])
    (after [InjectInsight 2; Checkpoint] (fresh Sample.findings))
  = [ RNone; RNone; RCheckpoint Suspends; RNone; RCheckpoint (Returns true);
      RCheckpoint (Returns true) ].
Proof.
  exact (pause_window_handshake Sample.findings [InjectInsight 2; Checkpoint] 1 _
           eq_refl eq_refl eq_refl (or_introl eq_refl)).
Defined.

Lemma process_two_high objs i1 i2 o1 o2 :
  deref objs i1 = Some o1 -> deref objs i2 = Some o2 ->
  severity o1 = "high"%string \/ severity o1 = "critical"%string ->
  severity o2 = "high"%string \/ severity o2 = "critical"%string ->
  process_insights objs [i1; i2]
  = process_insights objs [i1] ++ process_insights objs [i2].
Proof. intros. cbn [process_insights flat_map]. now rewrite !app_nil_r. Qed.

(** X8.  Shutdown does not cut a pass short.  When shutdown is requested
    while the policy loop sleeps over one [high] or [critical] finding, the
    loop goes on to the next: its [request_pause] lowers may-proceed again, a
    [checkpoint] call made in that window suspends although shutdown has been
    requested, and the loop's own [request_resume] releases it; resumed, it
    returns [False]. *)
Theorem pass_outlives_shutdown objs calls i1 i2 o1 o2 :
  let w := after calls (fresh objs) in
  paused w = false -> shutdown_requested w = false ->
  deref objs i1 = Some o1 -> deref objs i2 = Some o2 ->
  severity o1 = "high"%string \/ severity o1 = "critical"%string ->
  severity o2 = "high"%string \/ severity o2 = "critical"%string ->
  schedule (process_insights objs [i1; i2]) [[Shutdown]; [Checkpoint]]
  = [ RequestPause ("Critical bug detected: " ++ bug_type o1)%string;
      InjectInsight i1; Shutdown; RequestResume;
      RequestPause ("Critical bug detected: " ++ bug_type o2)%string;
      InjectInsight i2; Checkpoint; RequestResume ] /\
  replies (schedule (process_insights objs [i1; i2]) [[Shutdown]; [Checkpoint]]
             ++ [CheckpointResumed]) w
  = [ RNone; RNone; RNone; RNone; RNone; RNone; RCheckpoint Suspends; RNone;
      RCheckpoint (Returns false) ].
Proof.
  intros w Hp Hs H1 H2 S1 S2.
  destruct (running_state objs calls Hp Hs) as (A & B & C).
  fold w in A, B, C. rewrite (process_two_high objs i1 i2 o1 o2 H1 H2 S1 S2).
  rewrite (process_high objs i1 o1 H1 S1), (process_high objs i2 o2 H2 S2).
  split; [reflexivity|].
  unfold paused, shutdown_requested, pause_requested, may_proceed, suspended in *.
  revert Hp Hs A B C. generalize w. clear w. intros w. open_world w. cbn.
  intros -> -> -> -> ->. unfold replies. cbn. rewrite ?Nat.add_0_r, Nat.add_1_r.
  reflexivity.
Qed.

Lemma pass_outlives_shutdown_witness :
  let high := BugInsight_init 13 "missing_import" "Missing package: x - no" "high"
                (Some "app.py"%string) (Some 1%Z) None None in
  let objs := Sample.findings ++ [high] in
  replies (schedule (process_insights objs [1; 3]) [[Shutdown]; [Checkpoint]]
             ++ [CheckpointResumed]) (after [] (fresh objs))
  = [ RNone; RNone; RNone; RNone; RNone; RNone; RCheckpoint Suspends; RNone;
      RCheckpoint (Returns false) ].
Proof.
  intros high objs.
  exact (proj2 (pass_outlives_shutdown objs [] 1 3 _ _ eq_refl eq_refl eq_refl eq_refl
                  (or_introl eq_refl) (or_introl eq_refl))).
Defined.

(* ================================================================== *)
(** * Further properties of the Detector loop                          *)
(* ================================================================== *)

(** A loop that only ever appends to its accumulator. *)
Lemma fold_left_appends {A B : Type} (g : list B -> A -> list B) (d : A -> list B) :
  (forall acc x, g acc x = acc ++ d x) ->
  forall l acc, fold_left g l acc = acc ++ flat_map d l.
Proof.
  intros H l. induction l as [|x l IH]; intros acc; cbn.
  - now rewrite app_nil_r.
  - now rewrite IH, H, <- app_assoc.
Qed.

Lemma map_flat_map {A B C : Type} (g : B -> C) (h : A -> list B) (l : list A) :
  map g (flat_map h l) = flat_map (fun x => map g (h x)) l.
Proof.
  induction l as [|x l IH]; [reflexivity|]. cbn [flat_map].
  now rewrite map_app, IH.
Qed.

Lemma todo_lines_eq now py_file lines : forall insights i,
  todo_lines now py_file insights i lines
  = insights ++
    map (fun entry => todo_comment now py_file (fst entry) (snd entry))
      (filter (fun entry => mentions_todo (snd entry)) (enumerate i lines)).
Proof.
  induction lines as [|l lines IH]; intros insights i;
    cbn [todo_lines enumerate filter map snd].
  - now rewrite app_nil_r.
  - rewrite IH. fold (mentions_todo l).
    destruct (mentions_todo l); cbn [map fst snd]; [|reflexivity].
    now rewrite <- app_assoc.
Qed.

Lemma len_app s1 s2 : len (s1 ++ s2) = len s1 + len s2.
Proof.
  induction s1 as [|c s1 IH]; [reflexivity|]. cbn [String.append len].
  rewrite IH. lia.
Qed.

Lemma len_take_chars s : forall n, len (take_chars n s) <= n.
Proof.
  induction s as [|c s IH]; intros n; cbn [take_chars len]; [lia|].
  destruct (is_continuation c) eqn:E.
  - cbn [len]. rewrite E. apply IH.
  - destruct n as [|n]; cbn [len]; [lia|]. rewrite E. specialize (IH n). lia.
Qed.

Lemma take_chars_prefix s : forall n, String.prefix (take_chars n s) s = true.
Proof.
  induction s as [|c s IH]; intros n; cbn [take_chars]; [reflexivity|].
  destruct (is_continuation c); [|destruct n as [|n]; [reflexivity|]];
    cbn [String.prefix]; destruct (ascii_dec c c) as [_|N];
    try apply IH; now elim N.
Qed.

Lemma take_chars_whole s : forall n, len s <= n -> take_chars n s = s.
Proof.
  induction s as [|c s IH]; intros n; cbn [take_chars len]; [reflexivity|].
  destruct (is_continuation c); intros H.
  - now rewrite IH.
  - destruct n as [|n]; [lia|]. rewrite IH; [reflexivity|lia].
Qed.

Section DetectorProperties.

Variable now : datetime.
Variable rglob : string -> list string.
Variable _run_command : list string -> CompletedProcess.
Variable read_text : string -> option string.
Variable st_size : string -> option Z.
Variable parse : string -> parse_result.
Variable stdlib_module_names : option (string -> bool).
Variable __import__ : string -> import_result.

Lemma todo_file_eq insights py_file :
  todo_file now read_text insights py_file
  = insights ++
    map (fun place => todo_comment now (fst place) (fst (snd place)) (snd (snd place)))
      match read_text py_file with
      | Some content => map (pair py_file) (reported_lines content)
      | None => []
      end.
Proof.
  unfold todo_file. destruct (read_text py_file) as [content|];
    [|now rewrite app_nil_r].
  rewrite todo_lines_eq. unfold reported_lines. now rewrite map_map.
Qed.

(** The findings of the TODO scan are those of the reported places, in
    order. *)
Lemma check_todo_comments_eq :
  _check_todo_comments now rglob read_text
  = map (fun place => todo_comment now (fst place) (fst (snd place)) (snd (snd place)))
      (todo_places rglob read_text).
Proof.
  unfold _check_todo_comments, todo_places.
  rewrite (fold_left_appends _ _ todo_file_eq). cbn [app].
  now rewrite map_flat_map.
Qed.

(** X9.  The TODO scan is exact.  In a workspace whose Python files hold
    ASCII text, it yields one finding for every line, of a file that can be
    read, that contains "TODO" or "FIXME" in any mix of upper and lower
    case, and no other: finding for line, in the order of the files and of
    the lines in them.  The finding is of severity [low] and has the file,
    the number of the line counted from 1, and the line without the
    surrounding blanks.  A file that cannot be read yields none. *)
Theorem todo_scan_exact :
  (forall py_file content,
     In py_file (rglob "*.py") -> read_text py_file = Some content ->
     Str.is_ascii content = true) ->
  Forall2
    (fun f place =>
       exists t, f = todo_comment t (fst place) (fst (snd place)) (snd (snd place)))
    (_check_todo_comments now rglob read_text)
    (todo_places rglob read_text).
Proof.
  intros _. rewrite check_todo_comments_eq. apply Forall2_map_self.
  intros place. now exists now.
Qed.

Lemma large_file_spec insights py_file :
  large_file now st_size insights py_file
  = insights ++ match st_size py_file with
                | Some size => if (10000 <? size)%Z
                               then [oversized now py_file size] else []
                | None => []
                end.
Proof.
  unfold large_file. destruct (st_size py_file) as [size|];
    [destruct (10000 <? size)%Z|]; now rewrite ?app_nil_r.
Qed.

Lemma check_large_files_eq :
  _check_large_files now rglob st_size
  = map (fun place => oversized now (fst place) (snd place))
      (large_files rglob st_size).
Proof.
  unfold _check_large_files, large_files.
  rewrite (fold_left_appends _ _ large_file_spec). cbn [app].
  rewrite map_flat_map. induction (rglob "*.py") as [|p files IH];
    [reflexivity|]. cbn [flat_map]. rewrite IH. f_equal.
  destruct (st_size p) as [size|]; [destruct (10000 <? size)%Z|]; reflexivity.
Qed.

(** X10.  The size scan reports exactly the files of more than 10000 bytes:
    one [medium] finding for each file whose size can be read and exceeds
    10000, in the order of the scan, and nothing for a file of 10000 bytes
    or less, or one whose size cannot be read.  The finding names the file
    and gives its size in the description. *)
Theorem large_file_scan_exact :
  Forall2 (fun f place => exists t, f = oversized t (fst place) (snd place))
    (_check_large_files now rglob st_size)
    (large_files rglob st_size) /\
  (forall py_file size,
     In (py_file, size) (large_files rglob st_size) <->
     In py_file (rglob "*.py") /\ st_size py_file = Some size /\ (10000 < size)%Z).
Proof.
  split.
  - rewrite check_large_files_eq. apply Forall2_map_self.
    intros place. now exists now.
  - intros py_file size. unfold large_files. rewrite in_flat_map. split.
    + intros (p & Hp & H). destruct (st_size p) as [sz|] eqn:E; [|destruct H].
      destruct (Z.ltb_spec 10000 sz) as [L|_]; [|destruct H].
      destruct H as [H|[]]. injection H as <- <-. now repeat split.
    + intros (Hp & E & L). exists py_file. split; [exact Hp|]. rewrite E.
      destruct (Z.ltb_spec 10000 size) as [_|G]; [now left | lia].
Qed.

(** X11.  The test detector yields at most one finding.  It yields none
    when the workspace has no test file, or when pytest exits with status 0;
    otherwise exactly one, [test_failure] of severity [high] without a
    location, whose description is "Tests failed: " followed by the first
    200 characters of the standard error (all of it, when it has no more;
    standard output plays no part), so at most 214 characters long. *)
Theorem test_detector_one_finding :
  let result := _run_command pytest in
  let found := _run_tests now rglob _run_command in
  List.length found <= 1 /\
  (rglob "test_*.py" ++ rglob "*_test.py" = [] -> found = []) /\
  (returncode result = 0%Z -> found = []) /\
  (rglob "test_*.py" ++ rglob "*_test.py" <> [] -> returncode result <> 0%Z ->
   exists f, found = [f] /\
     bug_type f = "test_failure"%string /\ severity f = "high"%string /\
     file_path f = None /\ line_number f = None /\
     description f = ("Tests failed: " ++ take_chars 200 (stderr result))%string /\
     String.prefix (take_chars 200 (stderr result)) (stderr result) = true /\
     len (take_chars 200 (stderr result)) <= 200 /\
     (len (stderr result) <= 200 -> take_chars 200 (stderr result) = stderr result) /\
     len (description f) <= 214).
Proof.
  intros result found. unfold found, _run_tests. fold pytest. fold result.
  destruct (rglob "test_*.py" ++ rglob "*_test.py") as [|t ts] eqn:E.
  - repeat split; auto. intros H; now elim H.
  - destruct (Z.eqb_spec (returncode result) 0) as [E0|N0]; cbn [negb app].
    + repeat split; auto. intros _ H; now elim H.
    + repeat split; auto; try discriminate.
      * intros H; now elim N0.
      * intros _ _. eexists. split; [reflexivity|].
        cbn [bug_type severity file_path line_number description BugInsight_init
             __post_init__ timestamp].
        repeat split.
        -- apply take_chars_prefix.
        -- apply len_take_chars.
        -- apply take_chars_whole.
        -- rewrite len_app. pose proof (len_take_chars (stderr result) 200).
           change (len "Tests failed: ") with 14. lia.
Qed.

End DetectorProperties.

Lemma todo_scan_exact_witness :
  List.length (_check_todo_comments 0 Sample.rglob sample_read_text) = 1.
Proof.
  assert (H : forall py_file content,
            In py_file (Sample.rglob "*.py") ->
            sample_read_text py_file = Some content ->
            Str.is_ascii content = true).
  { intros py_file content [<-|[<-|[]]] E; [|discriminate E].
    injection E as <-. reflexivity. }
  exact (Forall2_length (todo_scan_exact 0 Sample.rglob sample_read_text H)).
Defined.

(** ** One pass as a whole *)

Lemma linter_severity_range message :
  linter_severity message = "high"%string \/
  linter_severity message = "medium"%string \/
  linter_severity message = "low"%string.
Proof.
  unfold linter_severity.
  destruct (Str.contains "error" _); [now left|].
  destruct (Str.contains "warning" _); auto.
Qed.

Lemma parse_linter_line_made now insights line found f :
  parse_linter_line now insights line = Value found ->
  In f found -> In f insights \/ detector_made f.
Proof.
  unfold parse_linter_line. destruct line as [|c line].
  - intros E. injection E as <-. now left.
  - destruct (4 <=? _); [|intros E; injection E as <-; now left].
    destruct (Str.int _); [|discriminate]. destruct (Str.int _); [|discriminate].
    intros E. injection E as <-. intros H.
    apply in_app_or in H as [H|[<-|[]]]; [now left|]. right.
    split; [discriminate|]. left. split; [reflexivity|]. apply linter_severity_range.
Qed.

Lemma parse_linter_lines_made now lines : forall insights found f,
  parse_linter_lines now insights lines = Value found ->
  In f found -> In f insights \/ detector_made f.
Proof.
  induction lines as [|l lines IH]; intros insights found f; cbn [parse_linter_lines].
  - intros E. injection E as <-. now left.
  - destruct (parse_linter_line now insights l) as [ins'|] eqn:E; [|discriminate].
    intros K Hf. destruct (IH _ _ _ K Hf) as [H|H]; [|now right].
    exact (parse_linter_line_made now insights l ins' f E H).
Qed.

Lemma schedule_alone actions : schedule actions [] = coordinator_calls actions.
Proof.
  induction actions as [|[c|n] actions IH]; cbn; [reflexivity | now rewrite IH | exact IH].
Qed.

Lemma schedule_mailbox actions : forall others,
  Forall (fun calls => forallb leaves_mailbox calls = true) others ->
  forallb (fun c => negb (is_get_insights c)) (coordinator_calls actions) = true ->
  injected (schedule actions others) = injected (coordinator_calls actions) /\
  forallb (fun c => negb (is_get_insights c)) (schedule actions others) = true.
Proof.
  assert (L : forall calls, forallb leaves_mailbox calls = true ->
                injected calls = [] /\
                forallb (fun c => negb (is_get_insights c)) calls = true).
  { induction calls as [|c calls IH]; [now split|].
    cbn [forallb]. intros H. apply andb_true_iff in H as [Hc H].
    destruct (IH H) as [A B]. rewrite injected_cons, A, B.
    destruct c; try discriminate; now split. }
  induction actions as [|[c|n] actions IH]; intros others Ho Ha.
  - now split.
  - cbn [coordinator_calls forallb] in Ha. apply andb_true_iff in Ha as [Hc Ha].
    destruct (IH others Ho Ha) as [A B]. cbn [schedule coordinator_calls forallb].
    rewrite injected_cons, (injected_cons c (coordinator_calls actions)), A, Hc, B.
    now split.
  - cbn [schedule coordinator_calls] in *. destruct others as [|calls others].
    + apply IH; [constructor | exact Ha].
    + inversion Ho as [|? ? Hc Ho']; subst.
      destruct (IH others Ho' Ha) as [A B]. destruct (L calls Hc) as [C D].
      now rewrite injected_app, C, A, forallb_app, D, B.
Qed.

Lemma deref_alloc objs found k :
  deref (objs ++ found) (List.length objs + k) = nth_error found k.
Proof.
  unfold deref. rewrite nth_error_app2 by lia. f_equal. lia.
Qed.

Lemma alloc_filter (p : BugInsight -> bool) found : forall objs,
  map (deref (objs ++ found))
    (filter (fun r => match deref (objs ++ found) r with
                      | Some o => p o
                      | None => false
                      end)
       (seq (List.length objs) (List.length found)))
  = map Some (filter p found).
Proof.
  induction found as [|x found IH]; intros objs; [reflexivity|].
  cbn [List.length seq filter].
  pose proof (deref_alloc objs (x :: found) 0) as E0. rewrite Nat.add_0_r in E0.
  rewrite E0. cbn [nth_error].
  specialize (IH (objs ++ [x])). rewrite <- app_assoc, length_app in IH.
  cbn [List.length app] in IH. rewrite Nat.add_1_r in IH.
  destruct (p x); cbn [map]; [rewrite E0; cbn [nth_error]|]; now rewrite IH.
Qed.

Lemma alloc_existsb (p : BugInsight -> bool) found : forall objs,
  existsb (fun r => match deref (objs ++ found) r with
                    | Some o => p o
                    | None => false
                    end)
    (seq (List.length objs) (List.length found))
  = existsb p found.
Proof.
  induction found as [|x found IH]; intros objs; [reflexivity|].
  cbn [List.length seq existsb].
  pose proof (deref_alloc objs (x :: found) 0) as E0. rewrite Nat.add_0_r in E0.
  rewrite E0. cbn [nth_error].
  specialize (IH (objs ++ [x])). rewrite <- app_assoc, length_app in IH.
  cbn [List.length app] in IH. rewrite Nat.add_1_r in IH. now rewrite IH.
Qed.

Lemma process_insight_pause_state insight o w :
  let w' := after (coordinator_calls (process_insight insight o)) w in
  if pauses o
  then is_paused (controller w') = false /\ pause_reason (controller w') = None /\
       is_set (pause_event (controller w')) = false /\
       is_set (resume_event (controller w')) = true
  else is_paused (controller w') = is_paused (controller w) /\
       pause_reason (controller w') = pause_reason (controller w) /\
       pause_event (controller w') = pause_event (controller w) /\
       resume_event (controller w') = resume_event (controller w).
Proof.
  unfold process_insight, pauses. destruct (existsb _ _).
  - open_world w. cbn [coordinator_calls]. unfold after. cbn [run fst].
    run_op. destruct ip, re; cbn; auto.
  - destruct (String.eqb _ _); cbn [coordinator_calls]; [|cbn; auto].
    open_world w. unfold after. cbn [run fst]. run_op. cbn. auto.
Qed.

Lemma policy_pause_state objs refs : forall w,
  let w' := after (coordinator_calls (process_insights objs refs)) w in
  if existsb (pausing objs) refs
  then is_paused (controller w') = false /\ pause_reason (controller w') = None /\
       is_set (pause_event (controller w')) = false /\
       is_set (resume_event (controller w')) = true
  else is_paused (controller w') = is_paused (controller w) /\
       pause_reason (controller w') = pause_reason (controller w) /\
       pause_event (controller w') = pause_event (controller w) /\
       resume_event (controller w') = resume_event (controller w).
Proof.
  induction refs as [|r refs IH]; intros w; [cbn; auto|].
  cbn [process_insights flat_map existsb]. fold (process_insights objs refs).
  rewrite coordinator_calls_app, after_app.
  set (w1 := after (coordinator_calls
                      match deref objs r with
                      | Some o => process_insight r o
                      | None => []
                      end) w).
  specialize (IH w1). cbv zeta in IH.
  destruct (existsb (pausing objs) refs).
  - rewrite orb_true_r. exact IH.
  - rewrite orb_false_r. destruct IH as (A & B & C & D).
    rewrite A, B, C, D. unfold pausing, w1.
    destruct (deref objs r) as [o|]; [|cbn; auto].
    apply process_insight_pause_state.
Qed.

Section PassProperties.

Variable now : datetime.
Variable rglob : string -> list string.
Variable _run_command : list string -> CompletedProcess.
Variable read_text : string -> option string.
Variable st_size : string -> option Z.
Variable parse : string -> parse_result.
Variable stdlib_module_names : option (string -> bool).
Variable __import__ : string -> import_result.

Lemma run_linters_made f :
  In f (_run_linters now rglob _run_command) -> detector_made f.
Proof.
  unfold _run_linters, linters. cbn [fold_left].
  rewrite !run_linter_other by discriminate.
  unfold run_linter. destruct (_find_files_by_type rglob "python"); [intros []|].
  destruct (negb _); [|intros []].
  unfold _parse_linter_output.
  destruct (String.eqb "python" "python" && negb (String.eqb _ ""))%bool;
    [|intros []].
  destruct (parse_linter_lines now [] _) as [found|] eqn:E; [|intros []].
  cbn [app]. intros H.
  now destruct (parse_linter_lines_made now _ _ _ f E H) as [[]|K].
Qed.

Lemma all_insights_made f :
  In f (all_insights now rglob _run_command read_text st_size parse
          stdlib_module_names __import__) ->
  detector_made f.
Proof.
  intros Hf. unfold all_insights, _check_common_issues in Hf.
    cbn [app] in Hf.
    apply in_app_or in Hf as [Hf|Hf]; [now apply run_linters_made|].
    apply in_app_or in Hf as [Hf|Hf].
    - unfold _run_tests in Hf. destruct (_ ++ _); [destruct Hf|].
      destruct (negb _); [|destruct Hf]. destruct Hf as [<-|[]].
      split; [discriminate|]. right. left. now split.
    - apply in_app_or in Hf as [Hf|Hf]; [apply in_app_or in Hf as [Hf|Hf]|].
      + rewrite check_todo_comments_eq in Hf.
        apply in_map_iff in Hf as (place & <- & _).
        split; [discriminate|]. do 2 right. left. now split.
      + unfold _check_large_files in Hf.
        rewrite (fold_left_appends _ _ (large_file_spec now st_size)) in Hf.
        apply in_flat_map in Hf as (p & _ & Hf).
        destruct (st_size p) as [size|]; [|destruct Hf].
        destruct (10000 <? size)%Z; [|destruct Hf]. destruct Hf as [<-|[]].
        split; [discriminate|]. do 3 right. left. now split.
      + rewrite check_missing_imports_spec in Hf.
        apply in_flat_map in Hf as (p & _ & Hf). unfold findings_of_file in Hf.
        destruct (parse p); try now destruct Hf.
        apply in_flat_map in Hf as ([m l] & _ & Hf).
        unfold findings_of_reference in Hf.
        destruct (standard_library _ _); [destruct Hf|].
        destruct (__import__ m) as [|e|e []]; try now destruct Hf.
        all: destruct Hf as [<-|[]]; split; [discriminate|].
        all: try (do 4 right; left; now split).
        do 5 right. now split.
Qed.

(** X12.  Every finding of a pass has a timestamp and is of one of six
    kinds, each with its own severity: [linting_error] (high, medium or
    low), [test_failure] (high), [todo_comment] (low), [large_file]
    (medium), [missing_import] (high), [import_error] (medium).  None is
    [critical].  So the policy loop pauses the Consumer for three reasons
    only. *)
Theorem pass_findings_classified :
  let found := all_insights now rglob _run_command read_text st_size parse
                 stdlib_module_names __import__ in
  (forall f, In f found -> detector_made f) /\
  (forall f, In f found -> severity f <> "critical"%string) /\
  (forall w reason,
     In (Coordinator (RequestPause reason))
        (snd (check_for_bugs_actions now rglob _run_command read_text st_size
                parse stdlib_module_names __import__ w)) ->
     reason = "Critical bug detected: linting_error"%string \/
     reason = "Critical bug detected: test_failure"%string \/
     reason = "Critical bug detected: missing_import"%string).
Proof.
  intros found.
  assert (M : forall f, In f found -> detector_made f)
    by apply all_insights_made.
  split; [exact M|]. split.
  - intros f Hf. destruct (M f Hf) as [_ H].
    intuition (try congruence).
  - intros w reason. unfold check_for_bugs_actions, alloc_all. cbn [snd].
    fold found. intros H. unfold process_insights in H.
    apply in_flat_map in H as (r & Hr & H).
    apply in_seq in Hr as [Hl Hu].
    replace r with (List.length (objects w) + (r - List.length (objects w))) in H
      by lia.
    rewrite deref_alloc in H.
    destruct (nth_error found _) as [o|] eqn:E; [|destruct H].
    apply nth_error_In in E. destruct (M o E) as [_ K].
    unfold process_insight in H.
    destruct K as [[B S]|[[B S]|[[B S]|[[B S]|[[B S]|[B S]]]]]];
      try destruct S as [S|[S|S]]; rewrite S, B in H; cbn in H;
      intuition (try discriminate; try (injection H0 as <-; auto)).
Qed.

End PassProperties.

Section PassEffects.

Variable now : datetime.
Variable rglob : string -> list string.
Variable _run_command : list string -> CompletedProcess.
Variable read_text : string -> option string.
Variable st_size : string -> option Z.
Variable parse : string -> parse_result.
Variable stdlib_module_names : option (string -> bool).
Variable __import__ : string -> import_result.

(** X13.  What one pass leaves behind, whatever the other tasks do during
    its sleeps as long as they neither inject nor drain: the findings of the
    pass are new objects behind the existing ones, which stay as they are;
    and the mailbox has grown by the findings of severity [high], [critical]
    or [medium], in detection order (linters, tests, TODO scan, size scan,
    import scan), and by nothing else. *)
Theorem pass_fills_mailbox others w :
  Forall (fun calls => forallb leaves_mailbox calls = true) others ->
  let found := all_insights now rglob _run_command read_text st_size parse
                 stdlib_module_names __import__ in
  let w' := fst (_check_for_bugs now rglob _run_command read_text st_size parse
                   stdlib_module_names __import__ others w) in
  objects w' = objects w ++ found /\
  (forall r o, deref (objects w) r = Some o -> deref (objects w') r = Some o) /\
  exists new,
    insights_queue (controller w') = insights_queue (controller w) ++ new /\
    map (deref (objects w')) new = map Some (filter acted_on found).
Proof.
  intros Ho found w'. unfold w', _check_for_bugs, check_for_bugs_actions, alloc_all.
  fold found.
  set (objs := objects w ++ found).
  set (refs := seq (List.length (objects w)) (List.length found)).
  set (w1 := mkWorld objs (controller w) (resumable w)).
  change (fst (run (schedule (process_insights objs refs) others) w1))
    with (after (schedule (process_insights objs refs) others) w1).
  destruct (schedule_mailbox (process_insights objs refs) others Ho
              (policy_never_drains objs refs)) as [A B].
  assert (E : objects (after (schedule (process_insights objs refs) others) w1) = objs)
    by now rewrite after_objects.
  split; [exact E|]. split.
  - intros r o H. rewrite E. unfold objs, deref in *.
    rewrite nth_error_app1; [exact H|]. apply nth_error_Some. now rewrite H.
  - exists (filter (injecting objs) refs). split.
    + rewrite (after_queue _ w1 B), A, process_insights_injects. reflexivity.
    + rewrite E. apply (alloc_filter acted_on found (objects w)).
Qed.

(** X14.  A pass that runs undisturbed never leaves the Consumer paused.
    With a finding of severity [high] (or [critical]) among its findings, the
    Coordinator is not paused when the pass ends, whether or not it was
    paused before and by whom: the pass lifts a pause that it did not
    request.  Without such a finding the pause state is as before. *)
Theorem pass_lifts_pause w :
  let found := all_insights now rglob _run_command read_text st_size parse
                 stdlib_module_names __import__ in
  let w' := fst (_check_for_bugs now rglob _run_command read_text st_size parse
                   stdlib_module_names __import__ [] w) in
  ((exists f, In f found /\ severity f = "high"%string) ->
   paused w' = false /\ pause_reason (controller w') = None /\
   pause_requested w' = false /\ may_proceed w' = true) /\
  ((forall f, In f found -> severity f <> "high"%string) ->
   paused w' = paused w /\
   pause_reason (controller w') = pause_reason (controller w) /\
   pause_requested w' = pause_requested w /\ may_proceed w' = may_proceed w).
Proof.
  intros found w'. unfold w', _check_for_bugs, check_for_bugs_actions, alloc_all.
  fold found.
  set (objs := objects w ++ found).
  set (refs := seq (List.length (objects w)) (List.length found)).
  set (w1 := mkWorld objs (controller w) (resumable w)).
  rewrite schedule_alone.
  change (fst (run (coordinator_calls (process_insights objs refs)) w1))
    with (after (coordinator_calls (process_insights objs refs)) w1).
  pose proof (policy_pause_state objs refs w1) as P. cbv zeta in P.
  assert (E : existsb (pausing objs) refs = existsb pauses found)
    by apply (alloc_existsb pauses found (objects w)).
  rewrite E in P. unfold paused, pause_requested, may_proceed. split.
  - intros (f & Hf & Hs).
    assert (X : existsb pauses found = true).
    { apply existsb_exists. exists f. split; [exact Hf|].
      unfold pauses. now rewrite Hs. }
    now rewrite X in P.
  - intros Hn.
    assert (X : existsb pauses found = false).
    { destruct (existsb pauses found) eqn:X; [|reflexivity].
      apply existsb_exists in X as (f & Hf & Hp). exfalso.
      destruct (all_insights_made now rglob _run_command read_text st_size parse
                  stdlib_module_names __import__ f Hf) as [_ K].
      unfold pauses in Hp. cbn in Hp.
      destruct (String.eqb_spec (severity f) "high"); [now apply (Hn f)|].
      destruct (String.eqb_spec (severity f) "critical") as [C|]; [|discriminate].
      intuition congruence. }
    rewrite X in P. destruct P as (A & B & C & D). cbn [controller] in *.
    now rewrite A, B, C, D.
Qed.

End PassEffects.

Lemma pass_fills_mailbox_witness :
  objects (fst (_check_for_bugs 0 Sample.rglob Sample._run_command
                  (fun _ => None) (fun _ => None) Sample.parse
                  Sample.stdlib_module_names Sample.__import__
                  [[Checkpoint]] (fresh Sample.findings))) =
  Sample.findings ++
  all_insights 0 Sample.rglob Sample._run_command (fun _ => None) (fun _ => None)
    Sample.parse Sample.stdlib_module_names Sample.__import__.
Proof.
  assert (H : Forall (fun calls => forallb leaves_mailbox calls = true)
                [[Checkpoint]]) by (repeat constructor).
  exact (proj1 (pass_fills_mailbox 0 Sample.rglob Sample._run_command
                  (fun _ => None) (fun _ => None) Sample.parse
                  Sample.stdlib_module_names Sample.__import__
                  [[Checkpoint]] (fresh Sample.findings) H)).
Defined.

(** ** Two more facts about the detectors *)

Lemma before_idempotent sep s : before sep (before sep s) = before sep s.
Proof.
  induction s as [|c s IH]; [reflexivity|]. cbn [before].
  destruct (Ascii.eqb c sep) eqn:E; [reflexivity|]. cbn [before].
  now rewrite E, IH.
Qed.

Lemma before_whole sep s :
  Str.contains (String sep EmptyString) s = false -> before sep s = s.
Proof.
  induction s as [|c s IH]; [reflexivity|].
  cbn [Str.contains String.prefix before]. intros H.
  apply orb_false_iff in H as [H1 H2].
  destruct (Ascii.eqb_spec c sep) as [->|N].
  - destruct (ascii_dec sep sep) as [_|F]; [|now elim F]. now destruct s.
  - now rewrite IH.
Qed.

(** X15.  [top_level] gives the first component of a dotted module name:
    the result has no dot, the name starts with it and goes on, if at all,
    with a dot; a name without a dot is its own top level, and taking the
    top level twice is the same as taking it once. *)
Theorem top_level_first_component module_name :
  Str.contains "." (top_level module_name) = false /\
  (exists rest, module_name = (top_level module_name ++ rest)%string /\
                (rest = EmptyString \/ exists r, rest = String "."%char r)) /\
  (Str.contains "." module_name = false -> top_level module_name = module_name) /\
  top_level (top_level module_name) = top_level module_name.
Proof.
  rewrite !top_level_spec. split; [apply before_free|].
  split; [apply before_prefix|]. split; [apply before_whole|].
  apply before_idempotent.
Qed.

(** X16.  One bad line costs the whole run.  When flake8 exits with a
    non-zero status, its output is ASCII text, and some line of it has the
    shape of a diagnostic but no number, as [int()] reads one, in its line
    or column field, [int()] raises, [_run_linters] catches it, and the
    linter pass yields no finding at all, not even for the well-formed
    lines. *)
Theorem malformed_line_drops_all (now : datetime) (rglob : string -> list string)
    (_run_command : list string -> CompletedProcess) (line : string) :
  let result := _run_command (flake8 ++ rglob "*.py"%string) in
  rglob "*.py"%string <> [] ->
  returncode result <> 0%Z ->
  Str.is_ascii (stdout result) = true ->
  In line (output_lines (stdout result)) ->
  diagnostic line = true -> numbered line = false ->
  _run_linters now rglob _run_command = [].
Proof.
  intros result Hfiles Hcode _ Hin Hd Hn.
  unfold _run_linters, linters. cbn [fold_left].
  rewrite !run_linter_other by discriminate.
  unfold run_linter, _find_files_by_type. cbn [String.eqb Ascii.eqb Bool.eqb].
  destruct (rglob "*.py"%string) as [|f files] eqn:Ef; [now elim Hfiles|].
  fold flake8. change (_run_command (flake8 ++ f :: files)) with result.
  destruct (Z.eqb_spec (returncode result) 0) as [E0|_]; [now elim Hcode|].
  cbn [negb]. unfold _parse_linter_output. cbn [String.eqb Ascii.eqb Bool.eqb andb].
  destruct (String.eqb_spec (stdout result) "") as [Es|_]; cbn [negb].
  - rewrite Es in Hin. destruct Hin as [<-|[]]. discriminate Hd.
  - fold (output_lines (stdout result)).
    now rewrite (parse_linter_lines_raises now _ [] line Hin Hd Hn).
Qed.

Lemma malformed_line_drops_all_witness :
  let output := ("app.py:1:1: E999 SyntaxError: invalid syntax" ++ nl ++
                 "C:\work\app.py:2:10: W291 trailing whitespace")%string in
  _run_linters 0 Sample.rglob (fun _ => mkCompleted 1 output "") = [].
Proof.
  intros output.
  apply (malformed_line_drops_all 0 Sample.rglob (fun _ => mkCompleted 1 output "")
           "C:\work\app.py:2:10: W291 trailing whitespace");
    [discriminate | discriminate | reflexivity | right; now left
    | reflexivity | reflexivity].
Defined.

(* ================================================================== *)
(** * Further properties of the Supervisor                             *)
(* ================================================================== *)


Lemma enhance_entry_text objs enhanced insight :
  AgentOrchestrator.enhance_entry objs enhanced insight
  = (enhanced ++ match deref objs insight with
                 | Some o => insight_text o
                 | None => EmptyString
                 end)%string.
Proof.
  unfold AgentOrchestrator.enhance_entry, insight_text.
  destruct (deref objs insight) as [o|]; [|now rewrite str_app_nil_r].
  destruct (file_path o) as [[|c p]|], (line_number o) as [n|],
    (suggested_fix o) as [[|d r]|];
    try destruct (n =? 0)%Z;
    rewrite ?str_app_assoc; reflexivity.
Qed.

Lemma enhance_fold_text objs insights : forall enhanced,
  fold_left (AgentOrchestrator.enhance_entry objs) insights enhanced
  = (enhanced ++ insights_text objs insights)%string.
Proof.
  induction insights as [|r insights IH]; intros enhanced;
    cbn [fold_left insights_text].
  - now rewrite str_app_nil_r.
  - now rewrite IH, enhance_entry_text, str_app_assoc.
Qed.

(** X17.  [_enhance_problem_statement] never loses the task, and says what
    it adds.  Without insights it returns the statement as it is.  With
    insights, whose types are written in ASCII, it returns the statement,
    word for word, a blank line, the banner, the text of each insight in
    order (type in capitals and description; file and line, if any; remedy,
    if any; severity) and the two closing lines. *)
Theorem enhanced_statement_keeps_original objs original insights :
  Forall (plain_type objs) insights ->
  AgentOrchestrator._enhance_problem_statement objs original insights
  = match insights with
    | [] => original
    | _ =>
        (original ++ nl ++ nl ++ "=== BUG-FINDER INSIGHTS ===" ++ nl
           ++ "The bug-finder agent has detected the following issues:" ++ nl ++ nl
           ++ insights_text objs insights
           ++ "Please address these issues in your implementation." ++ nl
           ++ "==========================================" ++ nl)%string
    end.
Proof.
  intros _. unfold AgentOrchestrator._enhance_problem_statement.
  destruct insights as [|r insights]; [reflexivity|].
  rewrite enhance_fold_text. now rewrite !str_app_assoc.
Qed.

Lemma enhanced_statement_keeps_original_witness :
  AgentOrchestrator._enhance_problem_statement Sample.findings "fix the bug" [1]
  = ("fix the bug" ++ nl ++ nl ++ "=== BUG-FINDER INSIGHTS ===" ++ nl
       ++ "The bug-finder agent has detected the following issues:" ++ nl ++ nl
       ++ "🔍 TEST_FAILURE: Tests failed: " ++ nl
       ++ "   💡 Suggested fix: Review test failures and fix implementation" ++ nl
       ++ "   ⚠️  Severity: high" ++ nl ++ nl
       ++ "Please address these issues in your implementation." ++ nl
       ++ "==========================================" ++ nl)%string.
Proof.
  apply (enhanced_statement_keeps_original Sample.findings "fix the bug" [1]).
  repeat constructor.
Defined.






(* ================================================================== *)
(** * The loop of the Detector                                         *)
(* ================================================================== *)

Lemma step_quiet c w :
  is_shutdown c = false -> shutdown_requested (fst (step c w)) = shutdown_requested w.
Proof.
  unfold shutdown_requested. intros H. open_world w.
  destruct c; try discriminate H; run_op; try rewrite get_insights_loop_spec;
    try destruct k; try destruct ctx; destruct ip, pe, re; reflexivity.
Qed.

Lemma after_quiet calls w :
  quiet calls = true -> shutdown_requested (after calls w) = shutdown_requested w.
Proof.
  revert w. induction calls as [|c calls IH]; intros w H; [reflexivity|].
  cbn [quiet forallb] in H. apply andb_true_iff in H as [Hc H].
  rewrite after_cons, (IH _ H). apply step_quiet. now destruct (is_shutdown c).
Qed.

Lemma after_requests_shutdown calls w :
  quiet calls = false -> shutdown_requested (after calls w) = true.
Proof.
  revert w. induction calls as [|c calls IH]; intros w H; [discriminate|].
  cbn [quiet forallb] in H. rewrite after_cons.
  destruct (is_shutdown c) eqn:Ec.
  - apply after_shutdown_stays. destruct c; try discriminate Ec.
    cbn [step fst]. apply shutdown_effect.
  - apply IH. exact H.
Qed.

Lemma policy_quiet objs refs :
  quiet (coordinator_calls (process_insights objs refs)) = true.
Proof.
  unfold quiet. induction refs as [|r l IH]; [reflexivity|].
  cbn [process_insights flat_map]. rewrite coordinator_calls_app, forallb_app.
  fold (process_insights objs l). rewrite IH, andb_true_r.
  destruct (deref objs r) as [o|]; [|reflexivity].
  unfold process_insight.
  destruct (existsb _ _); [reflexivity|].
  destruct (String.eqb _ _); reflexivity.
Qed.

Lemma schedule_quiet actions : forall others,
  Forall (fun calls => quiet calls = true) others ->
  quiet (coordinator_calls actions) = true ->
  quiet (schedule actions others) = true.
Proof.
  unfold quiet.
  induction actions as [|[c|n] actions IH]; intros others Ho Ha.
  - reflexivity.
  - cbn [coordinator_calls forallb schedule] in *.
    apply andb_true_iff in Ha as [Hc Ha]. now rewrite Hc, (IH others Ho Ha).
  - cbn [schedule coordinator_calls] in *. destruct others as [|calls others].
    + apply IH; [constructor | exact Ha].
    + inversion Ho as [|? ? Hc Ho']; subst.
      now rewrite forallb_app, Hc, (IH others Ho' Ha).
Qed.

Lemma pass_quiet now rglob _run_command read_text st_size parse
    stdlib_module_names __import__ others w :
  Forall (fun calls => quiet calls = true) others ->
  shutdown_requested
    (fst (_check_for_bugs now rglob _run_command read_text st_size parse
            stdlib_module_names __import__ others w)) = shutdown_requested w.
Proof.
  intros Ho. unfold _check_for_bugs, check_for_bugs_actions, alloc_all.
  match goal with
  | |- shutdown_requested (fst (run ?calls ?w1)) = _ =>
      change (fst (run calls w1)) with (after calls w1)
  end.
  rewrite after_quiet; [reflexivity|].
  apply schedule_quiet; [exact Ho | apply policy_quiet].
Qed.

Lemma run_loop_rounds surroundings others during_sleep n : forall k w,
  shutdown_requested w = false ->
  (forall j, j < n ->
     Forall (fun calls => quiet calls = true) (others (k + j)) /\
     quiet (during_sleep (k + j)) = true) ->
  quiet (during_sleep (k + n)) = false ->
  exists w',
    shutdown_requested w' = true /\
    forall fuel, n + 2 <= fuel ->
      run_loop surroundings others during_sleep fuel k w = Some (w', k + S n).
Proof.
  induction n as [|n IH]; intros k w Hw Hq Hs.
  - rewrite Nat.add_0_r in Hs.
    eexists. split; [|intros [|[|fuel]] Hf; try lia; cbn [run_loop]].
    2:{ unfold shutdown_requested in Hw. rewrite Hw.
        match goal with
        | |- (if is_set (shutdown_event (controller ?w2)) then _ else _) = _ =>
            assert (E : shutdown_requested w2 = true)
              by now apply after_requests_shutdown
        end.
        unfold shutdown_requested in E. rewrite E.
        rewrite Nat.add_1_r. reflexivity. }
    now apply after_requests_shutdown.
  - destruct (Hq 0 ltac:(lia)) as [Ho Hd]. rewrite Nat.add_0_r in Ho, Hd.
    set (e := surroundings k).
    set (w1 := fst (_check_for_bugs (clock e) (found_files e) (commands e)
                      (contents e) (sizes e) (trees e) (stdlib e) (importer e)
                      (others k) w)).
    set (w2 := after (during_sleep k) w1).
    assert (E2 : shutdown_requested w2 = false).
    { unfold w2. rewrite (after_quiet _ _ Hd). unfold w1.
      now rewrite pass_quiet. }
    destruct (IH (S k) w2 E2) as (w' & Hw' & Hrun).
    + intros j Hj. replace (S k + j) with (k + S j) by lia. apply Hq. lia.
    + now replace (S k + n) with (k + S n) by lia.
    + exists w'. split; [exact Hw'|]. intros [|fuel] Hf; [lia|].
      cbn [run_loop]. unfold shutdown_requested in Hw. rewrite Hw.
      fold e. fold w1. fold w2. rewrite Hrun by lia. f_equal. f_equal. lia.
Qed.

(** X21.  The Detector loop ends at its first loop test after shutdown has
    been requested, and not before.  If the other tasks request shutdown
    during the sleep that follows pass [n + 1], and not earlier, the loop
    makes exactly [n + 1] passes and then ends, with shutdown requested. *)
Theorem run_loop_ends_after_shutdown surroundings others during_sleep n w :
  shutdown_requested w = false ->
  (forall k, k < n ->
     Forall (fun calls => quiet calls = true) (others k) /\
     quiet (during_sleep k) = true) ->
  quiet (during_sleep n) = false ->
  exists w',
    shutdown_requested w' = true /\
    forall fuel, n + 2 <= fuel ->
      run_loop surroundings others during_sleep fuel 0 w = Some (w', S n).
Proof.
  intros Hw Hq Hs.
  exact (run_loop_rounds surroundings others during_sleep n 0 w Hw Hq Hs).
Qed.

Lemma run_loop_ends_after_shutdown_witness :
  exists w',
    shutdown_requested w' = true /\
    forall fuel, 1 + 2 <= fuel ->
      run_loop sample_surroundings (fun _ => [[Checkpoint]])
        (fun k => if k =? 1 then [Shutdown] else []) fuel 0 (fresh []) =
      Some (w', 2).
Proof.
  apply (run_loop_ends_after_shutdown sample_surroundings (fun _ => [[Checkpoint]])
           (fun k => if k =? 1 then [Shutdown] else []) 1 (fresh [])).
  - reflexivity.
  - intros k Hk. assert (k = 0) as -> by lia.
    split; [repeat constructor | reflexivity].
  - reflexivity.
Defined.

Lemma no_exit_among (exits : nat -> string -> bool) k tried :
  (forall m, In m tried -> exits k m = false) -> existsb (exits k) tried = false.
Proof.
  intros H. destruct (existsb (exits k) tried) eqn:E; [|reflexivity].
  apply existsb_exists in E as (m & Hm & Hx). now rewrite (H m Hm) in Hx.
Qed.

(** When no import exits, the loop ends as [run_loop] says. *)
Lemma run_loop_exits_agrees exits surroundings others during_sleep fuel :
  (forall j m,
     In m (imports_tried (found_files (surroundings j)) (trees (surroundings j))
             (stdlib (surroundings j))) ->
     exits j m = false) ->
  forall k w,
  run_loop_exits exits surroundings others during_sleep fuel k w
  = option_map (fun ended => LoopLeft (fst ended) (snd ended))
      (run_loop surroundings others during_sleep fuel k w).
Proof.
  intros Hx. induction fuel as [|fuel IH]; intros k w; [reflexivity|].
  cbn [run_loop_exits run_loop].
  destruct (is_set (shutdown_event (controller w))); [reflexivity|].
  rewrite (no_exit_among exits k _ (Hx k)). apply IH.
Qed.

Lemma run_loop_exits_goes_on exits surroundings others during_sleep fuel :
  (forall j, Forall (fun calls => quiet calls = true) (others j) /\
             quiet (during_sleep j) = true) ->
  (forall j m,
     In m (imports_tried (found_files (surroundings j)) (trees (surroundings j))
             (stdlib (surroundings j))) ->
     exits j m = false) ->
  forall k w,
  shutdown_requested w = false ->
  run_loop_exits exits surroundings others during_sleep fuel k w = None.
Proof.
  intros Hq Hx. induction fuel as [|fuel IH]; intros k w Hw; [reflexivity|].
  cbn [run_loop_exits]. pose proof Hw as Hw'. unfold shutdown_requested in Hw'.
  rewrite Hw', (no_exit_among exits k _ (Hx k)). apply IH.
  destruct (Hq k) as [Ho Hd]. rewrite (after_quiet _ _ Hd).
  now rewrite pass_quiet.
Qed.

(** X22.  The Detector loop does not end by itself, and there is one other
    way out than shutdown.  Taken from a state in which shutdown is not
    requested: as long as no other task requests shutdown, and no module
    that a pass imports raises an exception that is no [Exception], the loop
    is still running after any number of rounds; and when a module that its
    next pass imports raises such an exception ([SystemExit]), the loop ends
    there, with shutdown not requested and without a call of the Coordinator
    by that pass. *)
Theorem run_loop_runs_until_shutdown exits surroundings others during_sleep k w :
  shutdown_requested w = false ->
  ((forall j, Forall (fun calls => quiet calls = true) (others j) /\
              quiet (during_sleep j) = true) ->
   (forall j m,
      In m (imports_tried (found_files (surroundings j)) (trees (surroundings j))
              (stdlib (surroundings j))) ->
      exits j m = false) ->
   forall fuel,
     run_loop_exits exits surroundings others during_sleep fuel k w = None) /\
  ((exists m,
      In m (imports_tried (found_files (surroundings k)) (trees (surroundings k))
              (stdlib (surroundings k))) /\
      exits k m = true) ->
   forall fuel,
     run_loop_exits exits surroundings others during_sleep (S fuel) k w
     = Some (PassRaised w k)).
Proof.
  intros Hw. split.
  - intros Hq Hx fuel. now apply run_loop_exits_goes_on.
  - intros (m & Hm & Hx) fuel. cbn [run_loop_exits].
    pose proof Hw as Hw'. unfold shutdown_requested in Hw'. rewrite Hw'.
    assert (E : existsb (exits k)
                  (imports_tried (found_files (surroundings k))
                     (trees (surroundings k)) (stdlib (surroundings k))) = true)
      by (apply existsb_exists; now exists m).
    now rewrite E.
Qed.

Lemma run_loop_runs_until_shutdown_witness :
  run_loop_exits (fun _ m => String.eqb m "yaml.loader") sample_surroundings
    (fun _ => [[Checkpoint]]) (fun _ => [GetInsights]) 3 0 (fresh [])
  = Some (PassRaised (fresh []) 0) /\
  run_loop_exits (fun _ _ => false) sample_surroundings
    (fun _ => [[Checkpoint]]) (fun _ => [GetInsights]) 3 0 (fresh [])
  = None.
Proof.
  split.
  - apply (run_loop_runs_until_shutdown (fun _ m => String.eqb m "yaml.loader")
             sample_surroundings (fun _ => [[Checkpoint]]) (fun _ => [GetInsights])
             0 (fresh []) eq_refl).
    exists "yaml.loader"%string. split; [right; now left | reflexivity].
  - apply (run_loop_runs_until_shutdown (fun _ _ => false)
             sample_surroundings (fun _ => [[Checkpoint]]) (fun _ => [GetInsights])
             0 (fresh []) eq_refl).
    + intros j. split; [repeat constructor | reflexivity].
    + reflexivity.
Defined.

(* ================================================================== *)
(** * The calculator                                                   *)
(* ================================================================== *)

Section CalculatorProperties.

Import SimpleFunction.

Variable value : Type.
Variable float : Type.
Variable add sub mul truediv : value -> value -> result value.
Variable neg pos : value -> result value.
Variable float_ : value -> result float.
Variable ast_parse : string -> parsed value.
Variable frames : nat.

Local Abbreviation _eval := (SimpleFunction._eval value add sub mul truediv neg pos).
Local Abbreviation supported :=
  (SimpleFunction.supported value add sub mul truediv neg pos).
Local Abbreviation calculator :=
  (SimpleFunction.calculator value float add sub mul truediv neg pos float_
     ast_parse frames).

Lemma reraise_contract (A : Type) expression e :
  match @reraise A expression e with
  | Ok _ | Raise (ValueError _) | Raise (ZeroDivisionError _) => True
  | Raise (OtherException _) => False
  end.
Proof. destruct e; exact I. Qed.

(** X23.  Whatever the expression and whatever goes wrong while it is parsed,
    evaluated or converted, [calculator] returns a number or raises
    [ValueError] or [ZeroDivisionError]: no other exception leaves it. *)
Theorem calculator_error_contract expression :
  match calculator expression with
  | Ok _ | Raise (ValueError _) | Raise (ZeroDivisionError _) => True
  | Raise (OtherException _) => False
  end.
Proof.
  unfold SimpleFunction.calculator.
  destruct (ast_parse expression) as [tree| |e];
    [|exact I|apply reraise_contract].
  destruct (_eval frames tree) as [v|e]; [|apply reraise_contract].
  destruct (float_ v) as [f|e]; [exact I|apply reraise_contract].
Qed.

Lemma _eval_unsupported depth : forall node,
  supported node = false -> exists e, _eval depth node = Raise e.
Proof.
  induction depth as [|depth IH]; intros node H; [now eexists|].
  destruct node as [v|l op r|op x|name]; cbn [SimpleFunction._eval].
  - discriminate H.
  - cbn [SimpleFunction.supported] in H.
    destruct (_eval depth l) as [vl|e] eqn:El; [|now eexists].
    destruct (_eval depth r) as [vr|e] eqn:Er; [|now eexists].
    destruct (SimpleFunction.supported _ _ _ _ _ _ _ l) eqn:Sl;
      [|destruct (IH l Sl) as [e E]; congruence].
    destruct (SimpleFunction.supported _ _ _ _ _ _ _ r) eqn:Sr;
      [|destruct (IH r Sr) as [e E]; congruence].
    destruct (ops_get value add sub mul truediv op); [discriminate H|now eexists].
  - cbn [SimpleFunction.supported] in H.
    destruct (_eval depth x) as [vx|e] eqn:Ex; [|now eexists].
    destruct (SimpleFunction.supported _ _ _ _ _ _ _ x) eqn:Sx;
      [|destruct (IH x Sx) as [e E]; congruence].
    destruct (ops_get_unary value neg pos op); [discriminate H|now eexists].
  - now eexists.
Qed.

(** X24.  [calculator] evaluates nothing but constants, the four binary
    operators and the two signs.  An expression whose tree holds, anywhere,
    a node of another class (a name, a call, a comparison, ...) or another
    operator never yields a number: the call raises [ValueError] or
    [ZeroDivisionError]. *)
Theorem calculator_rejects_unsupported expression tree :
  ast_parse expression = Body tree ->
  supported tree = false ->
  exists text, calculator expression = Raise (ValueError text) \/
               calculator expression = Raise (ZeroDivisionError text).
Proof.
  intros Hp Hs. unfold SimpleFunction.calculator. rewrite Hp.
  destruct (_eval_unsupported frames tree Hs) as [e ->].
  destruct e as [t|t|t]; eexists; cbn; eauto.
Qed.

Lemma _eval_division_text depth : forall node text,
  (forall v t, neg v <> Raise (ZeroDivisionError t)) ->
  (forall v t, pos v <> Raise (ZeroDivisionError t)) ->
  _eval depth node = Raise (ZeroDivisionError text) ->
  text = "Division by zero is not allowed"%string.
Proof.
  induction depth as [|depth IH]; intros node text Hn Hp H; [discriminate H|].
  destruct node as [v|l op r|op x|name]; cbn [SimpleFunction._eval] in H.
  - discriminate H.
  - destruct (_eval depth l) as [vl|e] eqn:El;
      [|injection H as ->; now apply (IH l)].
    destruct (_eval depth r) as [vr|e] eqn:Er;
      [|injection H as ->; now apply (IH r)].
    destruct (ops_get value add sub mul truediv op) as [f|]; [|discriminate H].
    destruct (f vl vr) as [v|[t|t|t]]; try discriminate H. now injection H.
  - destruct (_eval depth x) as [vx|e] eqn:Ex;
      [|injection H as ->; now apply (IH x)].
    destruct op; cbn in H; try discriminate H.
    + now elim (Hp vx text).
    + now elim (Hn vx text).
  - discriminate H.
Qed.

(** X25.  Every division by zero is reported with the same text.  As long
    as the two signs, [float()] and the parser do not raise
    [ZeroDivisionError] themselves, a [ZeroDivisionError] that leaves
    [calculator] reads "Division by zero is not allowed", whatever the text
    of the error that the operator raised. *)
Theorem division_by_zero_text expression text :
  (forall v t, neg v <> Raise (ZeroDivisionError t)) ->
  (forall v t, pos v <> Raise (ZeroDivisionError t)) ->
  (forall v t, float_ v <> Raise (ZeroDivisionError t)) ->
  (forall t, ast_parse expression <> ParseRaises (ZeroDivisionError t)) ->
  calculator expression = Raise (ZeroDivisionError text) ->
  text = "Division by zero is not allowed"%string.
Proof.
  intros Hn Hp Hf Ha. unfold SimpleFunction.calculator.
  destruct (ast_parse expression) as [tree| |e] eqn:E.
  - destruct (_eval frames tree) as [v|e] eqn:Ev.
    + destruct (float_ v) as [f|[t|t|t]] eqn:Ef; try discriminate.
      now elim (Hf v t).
    + destruct e as [t|t|t]; try discriminate. cbn. intros H. injection H as <-.
      now apply (_eval_division_text frames tree t).
  - discriminate.
  - destruct e as [t|t|t]; try discriminate. now elim (Ha t).
Qed.

End CalculatorProperties.

Lemma calculator_rejects_unsupported_witness :
  exists text,
    SimpleFunction.Integers.calculator "2 + x" = SimpleFunction.Raise (SimpleFunction.ValueError text) \/
    SimpleFunction.Integers.calculator "2 + x" =
      SimpleFunction.Raise (SimpleFunction.ZeroDivisionError text).
Proof.
  apply (calculator_rejects_unsupported Z Z SimpleFunction.Integers.add
           SimpleFunction.Integers.sub SimpleFunction.Integers.mul
           SimpleFunction.Integers.truediv SimpleFunction.Integers.neg
           SimpleFunction.Integers.pos SimpleFunction.Integers.float_
           SimpleFunction.Integers.ast_parse 1000 "2 + x"
           (SimpleFunction.BinOp (SimpleFunction.Constant 2%Z) SimpleFunction.Add
              (SimpleFunction.OtherNode "Name")));
    reflexivity.
Defined.

Lemma division_by_zero_text_witness :
  SimpleFunction.Integers.calculator "1 / 0" =
  SimpleFunction.Raise (SimpleFunction.ZeroDivisionError "Division by zero is not allowed").
Proof.
  assert (H : exists text, SimpleFunction.Integers.calculator "1 / 0" =
                           SimpleFunction.Raise (SimpleFunction.ZeroDivisionError text))
    by (eexists; reflexivity).
  destruct H as [text H]. rewrite H. f_equal. f_equal.
  apply (division_by_zero_text Z Z SimpleFunction.Integers.add
           SimpleFunction.Integers.sub SimpleFunction.Integers.mul
           SimpleFunction.Integers.truediv SimpleFunction.Integers.neg
           SimpleFunction.Integers.pos SimpleFunction.Integers.float_
           SimpleFunction.Integers.ast_parse 1000 "1 / 0" text);
    [discriminate | discriminate | discriminate | discriminate | exact H].
Defined.

(* ================================================================== *)
(** * The web search tool                                              *)
(* ================================================================== *)

Section WebSearchProperties.

Import WebSearch.

Variable repr_ : value -> string.
Variable subscript_error join_error slice_error mul_error : value -> string.
Variable float_double : float -> float.
Variable float_sub : float -> float -> float.
Variable float_lt : float -> float -> bool.
Variable time_time : nat -> float.
Variable ddgs_text : value -> value -> result (list dict).
Variable json_dumps : list value -> result string.
Variable generate : string -> result value.
Variable json_loads : value -> loads_result.

Local Abbreviation str := (WebSearch.str repr_).
Local Abbreviation slice_to := (WebSearch.slice_to slice_error).
Local Abbreviation times_two := (WebSearch.times_two mul_error float_double).
Local Abbreviation _perform_duckduckgo_search :=
  (WebSearch._perform_duckduckgo_search float_sub float_lt time_time ddgs_text).
Local Abbreviation _analyze_with_gpt5 :=
  (WebSearch._analyze_with_gpt5 repr_ slice_error json_dumps generate json_loads).
Local Abbreviation format_result :=
  (WebSearch.format_result repr_ subscript_error join_error).
Local Abbreviation format_loop :=
  (WebSearch.format_loop repr_ subscript_error join_error).
Local Abbreviation _format_results :=
  (WebSearch._format_results repr_ subscript_error join_error).
Local Abbreviation failure := (WebSearch.failure repr_).
Local Abbreviation run_impl :=
  (WebSearch.run_impl repr_ subscript_error join_error slice_error mul_error
     float_double float_sub float_lt time_time ddgs_text json_dumps generate
     json_loads).

Lemma slice_int_length {A : Type} (xs : list A) n :
  (0 <= n)%Z -> (Z.of_nat (List.length (slice_int xs n)) <= n)%Z.
Proof.
  intros H. unfold slice_int. destruct (Z.leb_spec 0 n) as [_|]; [|lia].
  pose proof (firstn_le_length (Z.to_nat n) xs). lia.
Qed.

Lemma analyze_cases query search_results n :
  exists results,
    _analyze_with_gpt5 query search_results (VInt n) = Ok results /\
    (results = slice_int search_results n \/
     exists gpt dumped content,
       gpt <> [] /\ results = slice_int gpt n /\
       json_dumps search_results = Ok dumped /\
       generate (analysis_prompt (str query) dumped (str (VInt n))) = Ok content /\
       json_loads content = Loaded (VList gpt)).
Proof.
  unfold WebSearch._analyze_with_gpt5, analysis.
  destruct (json_dumps search_results) as [dumped|e] eqn:Ed;
    [|eexists; split; [reflexivity|now left]].
  destruct (generate _) as [content|e] eqn:Eg;
    [|eexists; split; [reflexivity|now left]].
  destruct (json_loads content) as [v|t|e] eqn:El;
    try (eexists; split; [reflexivity|now left]).
  destruct v as [| | | | |[|first rest]|];
    try (eexists; split; [reflexivity|now left]).
  eexists. split; [reflexivity|]. right. exists (first :: rest), dumped, content.
  repeat split; try assumption. discriminate.
Qed.

(** X26.  [run_impl] raises only when its input has no [query], and then
    [KeyError]; with a query it returns an output, whatever the search, the
    model, the decoder or the formatting do, and whatever [max_results]
    is. *)
Theorem run_impl_raises_only_without_query self tool_input :
  match dict_get tool_input "query" with
  | None => fst (fst (run_impl self tool_input)) = Raise (KeyError "query")
  | Some _ => exists out, fst (fst (run_impl self tool_input)) = Ok out
  end.
Proof.
  unfold WebSearch.run_impl. destruct (dict_get tool_input "query") as [query|];
    [|reflexivity].
  destruct (times_two _) as [doubled|e1]; [|now eexists].
  unfold WebSearch._perform_duckduckgo_search.
  destruct (ddgs_text query doubled) as [[|r rs]|e2];
    [now eexists | |destruct (rate_limited e2); now eexists].
  cbn [map].
  destruct (use_gpt5 _);
    match goal with
    | |- context [_analyze_with_gpt5 ?q ?s ?m] =>
        destruct (_analyze_with_gpt5 q s m) as [results|e3]
    | |- context [slice_to ?s ?m] => destruct (slice_to s m) as [results|e3]
    end; try (now eexists);
    destruct (_format_results query results); now eexists.
Qed.

(** X27.  A search that succeeds never reports more results than were asked
    for: with an integer [max_results] that is not negative (5 when the
    input has none), [num_results] of a successful output lies between 0
    and [max_results], with or without the model. *)
Theorem num_results_within_bound self tool_input n out :
  get tool_input "max_results" (VInt 5) = VInt n ->
  (0 <= n)%Z ->
  fst (fst (run_impl self tool_input)) = Ok out ->
  dict_get (auxiliary_data out) "success" = Some (VBool true) ->
  exists k, dict_get (auxiliary_data out) "num_results" = Some (VInt k) /\
            (0 <= k <= n)%Z.
Proof.
  intros Hm Hn. unfold WebSearch.run_impl.
  destruct (dict_get tool_input "query") as [query|]; [|discriminate].
  rewrite Hm. cbn [WebSearch.times_two].
  unfold WebSearch._perform_duckduckgo_search.
  destruct (ddgs_text query (VInt (n * 2))) as [[|r rs]|e2].
  - cbn. intros H. injection H as <-. discriminate.
  - cbn [map].
    assert (K : forall (results : list value) text engine,
              (Z.of_nat (List.length results) <= n)%Z ->
              exists k,
                dict_get
                  (auxiliary_data
                     (mkToolImplOutput text
                        ("Web search completed for '" ++ str query ++ "' using " ++ engine)
                        [("success"%string, VBool true);
                         ("num_results"%string, VInt (Z.of_nat (List.length results)));
                         ("search_engine"%string, VStr engine)]))
                  "num_results" = Some (VInt k) /\ (0 <= k <= n)%Z).
    { intros results text engine Hl. eexists. split; [reflexivity|lia]. }
    destruct (use_gpt5 _).
    + destruct (analyze_cases query (converted r :: map converted rs) n)
        as (results & -> & Hr).
      destruct (_format_results query results) as [text|e];
        cbn [fst]; intros H; injection H as <-; [|discriminate].
      intros _. apply K.
      destruct Hr as [->|(gpt & _ & _ & _ & -> & _)]; now apply slice_int_length.
    + cbn [WebSearch.slice_to].
      destruct (_format_results query _) as [text|e];
        cbn [fst]; intros H; injection H as <-; [|discriminate].
      intros _. apply K. now apply slice_int_length.
  - destruct (rate_limited e2); cbn; intros H; injection H as <-; discriminate.
Qed.

(** X28.  With an integer [max_results], [_analyze_with_gpt5] never raises,
    and the model changes the result only by answering with a JSON array
    that is not empty, of which the first [max_results] entries are
    returned.  In every other case (the request or the decoding fails, the
    answer is no array or an empty one) it returns the search results, cut
    to [max_results]. *)
Theorem analysis_falls_back query search_results n :
  exists results,
    _analyze_with_gpt5 query search_results (VInt n) = Ok results /\
    (results = slice_int search_results n \/
     exists gpt dumped content,
       gpt <> [] /\ results = slice_int gpt n /\
       json_dumps search_results = Ok dumped /\
       generate (analysis_prompt (str query) dumped (str (VInt n))) = Ok content /\
       json_loads content = Loaded (VList gpt)).
Proof. apply analyze_cases. Qed.

(** X29.  A search that DuckDuckGo fails is reported, not raised, and
    leaves the tool as it was, the time of the last search included: the
    output carries the text of the exception, or the fixed rate-limit text
    when the exception mentions a rate limit, and [success] is false. *)
Theorem search_failure_reported self tool_input query doubled e :
  dict_get tool_input "query" = Some query ->
  times_two (get tool_input "max_results" (VInt 5)) = Ok doubled ->
  ddgs_text query doubled = Raise e ->
  let reported := if rate_limited e then Exception rate_limit_text else e in
  fst (fst (run_impl self tool_input)) =
    Ok (mkToolImplOutput
          ("Error performing web search: " ++ text reported)
          ("Web search failed for '" ++ str query ++ "'")
          [("success"%string, VBool false); ("error"%string, VStr (text reported))]) /\
  snd (fst (run_impl self tool_input)) = self.
Proof.
  intros Hq Hd He reported. unfold WebSearch.run_impl. rewrite Hq, Hd.
  unfold WebSearch._perform_duckduckgo_search. rewrite He. unfold reported.
  destruct (rate_limited e); split; reflexivity.
Qed.

Lemma format_converted rs : forall formatted_output i,
  exists text, format_loop formatted_output i (map converted rs) = Ok text.
Proof.
  induction rs as [|r rs IH]; intros out i; [now eexists|].
  cbn [map WebSearch.format_loop]. unfold WebSearch.format_result, converted.
  cbn [dict_get String.eqb Ascii.eqb Bool.eqb]. apply IH.
Qed.

Lemma format_loop_firstn k : forall results formatted_output i,
  (exists text, format_loop formatted_output i results = Ok text) ->
  exists text, format_loop formatted_output i (firstn k results) = Ok text.
Proof.
  induction k as [|k IH]; intros results out i H; [now eexists|].
  destruct results as [|r results]; [now eexists|].
  cbn [firstn WebSearch.format_loop] in *.
  destruct (format_result out i r) as [out'|e]; [|destruct H; discriminate].
  now apply IH.
Qed.

(** X30.  Without the model the tool fails only if the search does.  When
    DuckDuckGo returns results and [max_results] is an integer, formatting
    cannot fail, for every converted result has the keys that
    [_format_results] reads: the output reports success, the search engine
    [DuckDuckGo], and as many results as the cut leaves. *)
Theorem plain_search_succeeds self tool_input query n found :
  use_gpt5 self = false ->
  dict_get tool_input "query" = Some query ->
  get tool_input "max_results" (VInt 5) = VInt n ->
  ddgs_text query (VInt (n * 2)) = Ok found ->
  found <> [] ->
  exists formatted_output,
    fst (fst (run_impl self tool_input)) =
      Ok (mkToolImplOutput formatted_output
            ("Web search completed for '" ++ str query ++ "' using DuckDuckGo")
            [("success"%string, VBool true);
             ("num_results"%string,
              VInt (Z.of_nat (List.length (slice_int found n))));
             ("search_engine"%string, VStr "DuckDuckGo")]).
Proof.
  intros Hg Hq Hm Hd Hf. unfold WebSearch.run_impl. rewrite Hq, Hm.
  cbn [WebSearch.times_two]. unfold WebSearch._perform_duckduckgo_search.
  rewrite Hd. destruct found as [|r rs]; [now elim Hf|]. cbn [map use_gpt5].
  rewrite Hg. cbn [WebSearch.slice_to]. change (converted r :: map converted rs)
    with (map converted (r :: rs)).
  assert (F : exists text,
            _format_results query (slice_int (map converted (r :: rs)) n) = Ok text).
  { unfold WebSearch._format_results.
    destruct (slice_int (map converted (r :: rs)) n) as [|x xs] eqn:E;
      [now eexists|]. rewrite <- E. unfold slice_int.
    destruct (0 <=? n)%Z; apply format_loop_firstn, format_converted. }
  destruct F as [text ->]. exists text. cbn [fst]. do 4 f_equal.
  unfold slice_int. destruct (0 <=? n)%Z; now rewrite !length_firstn, !length_map.
Qed.

End WebSearchProperties.

Lemma num_results_within_bound_witness :
  exists out,
    fst (fst (WebSearch.Offline.run_impl (WebSearch.WebSearchTool_init true)
                [("query"%string, WebSearch.VStr "rocq");
                 ("max_results"%string, WebSearch.VInt 1)])) = WebSearch.Ok out /\
    exists k,
      WebSearch.dict_get (WebSearch.auxiliary_data out) "num_results" =
        Some (WebSearch.VInt k) /\ (0 <= k <= 1)%Z.
Proof.
  eexists. split; [vm_compute; reflexivity|].
  apply (num_results_within_bound WebSearch.Offline.repr_
           WebSearch.Offline.subscript_error WebSearch.Offline.join_error
           WebSearch.Offline.slice_error WebSearch.Offline.mul_error
           WebSearch.Offline.float_double WebSearch.Offline.float_sub
           WebSearch.Offline.float_lt WebSearch.Offline.time_time
           WebSearch.Offline.ddgs_text WebSearch.Offline.json_dumps
           WebSearch.Offline.generate WebSearch.Offline.json_loads
           (WebSearch.WebSearchTool_init true)
           [("query"%string, WebSearch.VStr "rocq");
            ("max_results"%string, WebSearch.VInt 1)] 1);
    [reflexivity | lia | reflexivity | reflexivity].
Defined.

Lemma search_failure_reported_witness :
  snd (fst (WebSearch.Offline.run_refused (WebSearch.WebSearchTool_init true)
              [("query"%string, WebSearch.VStr "rocq")])) =
  WebSearch.WebSearchTool_init true.
Proof.
  apply (search_failure_reported WebSearch.Offline.repr_
           WebSearch.Offline.subscript_error WebSearch.Offline.join_error
           WebSearch.Offline.slice_error WebSearch.Offline.mul_error
           WebSearch.Offline.float_double WebSearch.Offline.float_sub
           WebSearch.Offline.float_lt WebSearch.Offline.time_time
           WebSearch.Offline.refused WebSearch.Offline.json_dumps
           WebSearch.Offline.generate WebSearch.Offline.json_loads
           (WebSearch.WebSearchTool_init true)
           [("query"%string, WebSearch.VStr "rocq")]
           (WebSearch.VStr "rocq") (WebSearch.VInt 10)
           (WebSearch.mkException "DuckDuckGoSearchException" "202 Ratelimit"));
    reflexivity.
Defined.

Lemma plain_search_succeeds_witness :
  exists formatted_output,
    fst (fst (WebSearch.Offline.run_impl (WebSearch.WebSearchTool_init false)
                [("query"%string, WebSearch.VStr "rocq");
                 ("max_results"%string, WebSearch.VInt 1)])) =
      WebSearch.Ok
        (WebSearch.mkToolImplOutput formatted_output
           "Web search completed for 'rocq' using DuckDuckGo"
           [("success"%string, WebSearch.VBool true);
            ("num_results"%string, WebSearch.VInt 1);
            ("search_engine"%string, WebSearch.VStr "DuckDuckGo")]).
Proof.
  apply (plain_search_succeeds WebSearch.Offline.repr_
           WebSearch.Offline.subscript_error WebSearch.Offline.join_error
           WebSearch.Offline.slice_error WebSearch.Offline.mul_error
           WebSearch.Offline.float_double WebSearch.Offline.float_sub
           WebSearch.Offline.float_lt WebSearch.Offline.time_time
           WebSearch.Offline.ddgs_text WebSearch.Offline.json_dumps
           WebSearch.Offline.generate WebSearch.Offline.json_loads
           (WebSearch.WebSearchTool_init false)
           [("query"%string, WebSearch.VStr "rocq");
            ("max_results"%string, WebSearch.VInt 1)]
           (WebSearch.VStr "rocq") 1
           [ [("title"%string, WebSearch.VStr "Rocq");
              ("href"%string, WebSearch.VStr "https://rocq-prover.org");
              ("body"%string, WebSearch.VStr "The Rocq Prover")];
             [("title"%string, WebSearch.VStr "Python");
              ("href"%string, WebSearch.VStr "https://python.org")] ]);
    [reflexivity | reflexivity | reflexivity | reflexivity | discriminate].
Defined.
